(** * hsa-expense-analyzer-cli: receipt file names, yearly totals, reports

    A shallow embedding of [src/main.js]: [parseFileName],
    [getTotalsByYear], [calculateSummaryStats],
    [buildYearlyResultObject], [prepareChartData], [formatReceipt],
    [formatReceiptList], the handlers of the tools of
    [createExpenseTools] that search, sort and count receipts,
    [colorize] and, of [main], the years of the report and the table of
    invalid files; with the parts of the JavaScript runtime they rely
    on (strings, IEEE-754 doubles, [toFixed], ordinary objects, arrays).

    Conventions of the model
    - a JavaScript string is a [string]; its characters are the code
      units below 256, and file names are taken to be made of such units;
    - a JavaScript number is a [spec_float] at precision 53 and maximal
      exponent 1024 (binary64), with the operations of [SpecFloat];
      numbers that only ever hold small integers (date components,
      receipt counts) are integers;
    - an ordinary object used as a dictionary is a list of own
      properties kept in the order [Object.keys] enumerates them. *)

From Stdlib Require Import ZArith List String Ascii Bool Lia PeanoNat.
From Stdlib Require Import SpecFloat.
From Stdlib Require Import Permutation Sorted.
Import ListNotations.

Local Open Scope string_scope.
Local Open Scope Z_scope.

(* ================================================================== *)
(** * Strings *)
(* ================================================================== *)

Module Str.

Definition code (c : ascii) : Z := Z.of_N (N_of_ascii c).

(** [\d] *)
Definition is_digit (c : ascii) : bool :=
  (48 <=? code c) && (code c <=? 57).

(** [[a-zA-Z]] *)
Definition is_alpha (c : ascii) : bool :=
  ((65 <=? code c) && (code c <=? 90)) || ((97 <=? code c) && (code c <=? 122)).

(** Line terminators, which [.] does not match in a regular expression
    without the [s] flag. *)
Definition is_line_terminator (c : ascii) : bool :=
  (code c =? 10) || (code c =? 13).

(** White space and line terminators, as removed by [trim]. *)
Definition is_space (c : ascii) : bool :=
  ((9 <=? code c) && (code c <=? 13)) || (code c =? 32) || (code c =? 160).

Definition lower_char (c : ascii) : ascii :=
  let n := code c in
  if ((65 <=? n) && (n <=? 90))
     || ((192 <=? n) && (n <=? 222) && negb (n =? 215))
  then ascii_of_N (Z.to_N (n + 32)) else c.

Fixpoint all (p : ascii -> bool) (s : string) : bool :=
  match s with
  | EmptyString => true
  | String c s' => p c && all p s'
  end.

Fixpoint map (f : ascii -> ascii) (s : string) : string :=
  match s with
  | EmptyString => EmptyString
  | String c s' => String (f c) (map f s')
  end.

(** [s.toLowerCase()] *)
Definition toLowerCase (s : string) : string := map lower_char s.

(** [s.startsWith(p)] *)
Fixpoint startsWith (p s : string) : bool :=
  match p, s with
  | EmptyString, _ => true
  | String a p', String b s' => Ascii.eqb a b && startsWith p' s'
  | String _ _, EmptyString => false
  end.

(** [s.includes(p)] *)
Fixpoint includes (p s : string) : bool :=
  startsWith p s ||
  match s with
  | EmptyString => false
  | String _ s' => includes p s'
  end.

Fixpoint drop (n : nat) (s : string) : string :=
  match n, s with
  | O, _ => s
  | S n', String _ s' => drop n' s'
  | S _, EmptyString => EmptyString
  end.

Fixpoint take (n : nat) (s : string) : string :=
  match n, s with
  | O, _ => EmptyString
  | S n', String c s' => String c (take n' s')
  | S _, EmptyString => EmptyString
  end.

(** [s.substring(n)] *)
Definition substring_from (n : nat) (s : string) : string := drop n s.

Fixpoint rev_onto (s acc : string) : string :=
  match s with
  | EmptyString => acc
  | String c s' => rev_onto s' (String c acc)
  end.

Definition rev (s : string) : string := rev_onto s EmptyString.

Fixpoint drop_while (p : ascii -> bool) (s : string) : string :=
  match s with
  | EmptyString => EmptyString
  | String c s' => if p c then drop_while p s' else s
  end.

Fixpoint take_while (p : ascii -> bool) (s : string) : string :=
  match s with
  | EmptyString => EmptyString
  | String c s' => if p c then String c (take_while p s') else EmptyString
  end.

(** [s.trim()] *)
Definition trim (s : string) : string :=
  rev (drop_while is_space (rev (drop_while is_space s))).

(** [s.split(sep)] for a non-empty separator: the pieces between the
    successive occurrences of [sep], found from the left without
    overlap.  [skip] counts the characters of an occurrence still to
    be consumed and [cur] is the piece being read. *)
Fixpoint split_go (sep : string) (skip : nat) (cur : string) (s : string)
  : list string :=
  match s with
  | EmptyString => [cur]
  | String c s' =>
      match skip with
      | S k => split_go sep k cur s'
      | O =>
          if startsWith sep s
          then cur :: split_go sep (String.length sep - 1) EmptyString s'
          else split_go sep O (cur ++ String c EmptyString) s'
      end
  end.

Definition split (sep s : string) : list string := split_go sep O EmptyString s.

Definition repeat (c : ascii) (n : nat) : string :=
  Nat.iter n (String c) EmptyString.

End Str.

(* ================================================================== *)
(** * Numbers *)
(* ================================================================== *)

Module Num.

Definition number := spec_float.

Definition prec : Z := 53.
Definition emax : Z := 1024.

Definition NaN : number := S754_nan.
Definition Infinity : number := S754_infinity false.
Definition zero : number := S754_zero false.

Definition add : number -> number -> number := SFadd prec emax.
Definition sub : number -> number -> number := SFsub prec emax.
Definition mul : number -> number -> number := SFmul prec emax.
Definition div : number -> number -> number := SFdiv prec emax.
Definition neg : number -> number := SFopp.

(** [x > y] *)
Definition gt (x y : number) : bool := SFltb y x.
(** [x < y] *)
Definition lt (x y : number) : bool := SFltb x y.
(** [x === y] on numbers *)
Definition eq (x y : number) : bool := SFeqb x y.

Definition isNaN (x : number) : bool :=
  match x with S754_nan => true | _ => false end.

(** The truth value of a number: every number but [0], [-0] and [NaN]. *)
Definition truthy (x : number) : bool :=
  match x with
  | S754_zero _ | S754_nan => false
  | _ => true
  end.

(** The double nearest to an integer. *)
Definition of_Z (z : Z) : number := binary_normalize prec emax z 0 false.

(** The double nearest to the rational [p / q], for [0 <= p] and
    [0 < q]: the quotient of the two integers, rounded once. *)
Definition of_ratio (p q : Z) : number :=
  match p, q with
  | Zpos p', Zpos q' =>
      SFdiv prec emax (S754_finite false p' 0) (S754_finite false q' 0)
  | Z0, Zpos _ => zero
  | _, _ => NaN
  end.

(** ** Decimal digits *)

Definition digit_val (c : ascii) : Z := Str.code c - 48.

Fixpoint digits_val_acc (acc : Z) (s : string) : Z :=
  match s with
  | EmptyString => acc
  | String c s' => digits_val_acc (10 * acc + digit_val c) s'
  end.

(** The value of a string of decimal digits. *)
Definition digits_val (s : string) : Z := digits_val_acc 0 s.

Definition digit_char (d : Z) : ascii := ascii_of_N (Z.to_N (48 + d)).

Fixpoint digits_onto (fuel : nat) (n : Z) (acc : string) : string :=
  match fuel with
  | O => acc
  | S fuel' =>
      if n <? 10 then String (digit_char n) acc
      else digits_onto fuel' (n / 10) (String (digit_char (n mod 10)) acc)
  end.

(** The decimal digits of a natural number, without leading zeros
    (["0"] for zero). *)
Definition digits_of (n : Z) : string :=
  digits_onto (S (Z.to_nat (Z.log2 n))) n EmptyString.

(** ** Reading a number: [StrDecimalLiteral] *)

(** The exponent part [e|E [+|-] digits] at the head of [s]:
    its value and what follows it. *)
Definition scan_exponent (s : string) : option (Z * string) :=
  match s with
  | String c s1 =>
      if (Str.code c =? 101) || (Str.code c =? 69) then
        let '(sg, s2) :=
          match s1 with
          | String d s2 =>
              if Str.code d =? 45 then (-1, s2)
              else if Str.code d =? 43 then (1, s2)
              else (1, s1)
          | EmptyString => (1, s1)
          end in
        let ds := Str.take_while Str.is_digit s2 in
        match ds with
        | EmptyString => None
        | _ => Some (sg * digits_val ds, Str.drop_while Str.is_digit s2)
        end
      else None
  | EmptyString => None
  end.

(** The longest unsigned decimal literal at the head of [s]:
    the integer made of its digits, its power of ten, and the rest. *)
Definition scan_decimal (s : string) : option (Z * Z * string) :=
  let ip := Str.take_while Str.is_digit s in
  let r1 := Str.drop_while Str.is_digit s in
  let '(fp, r2) :=
    match r1 with
    | String c r =>
        if Str.code c =? 46
        then (Str.take_while Str.is_digit r, Str.drop_while Str.is_digit r)
        else (EmptyString, r1)
    | EmptyString => (EmptyString, r1)
    end in
  match ip, fp with
  | EmptyString, EmptyString => None
  | _, _ =>
      let d := digits_val (ip ++ fp) in
      let k := - Z.of_nat (String.length fp) in
      match scan_exponent r2 with
      | Some (x, r3) => Some (d, k + x, r3)
      | None => Some (d, k, r2)
      end
  end.

(** The double nearest to [d * 10^k]. *)
Definition of_decimal (d k : Z) : number :=
  if 0 <=? k then of_ratio (d * 10 ^ k) 1 else of_ratio d (10 ^ (- k)).

Definition signed (sg : bool) (x : number) : number :=
  if sg then neg x else x.

Definition scan_sign (s : string) : bool * string :=
  match s with
  | String c s' =>
      if Str.code c =? 45 then (true, s')
      else if Str.code c =? 43 then (false, s')
      else (false, s)
  | EmptyString => (false, s)
  end.

(** [parseFloat(s)]: leading white space is skipped and the longest
    prefix that reads as a decimal literal is converted; [NaN] when
    there is none. *)
Definition parseFloat (s : string) : number :=
  let '(sg, s1) := scan_sign (Str.drop_while Str.is_space s) in
  if Str.startsWith "Infinity" s1 then signed sg Infinity
  else
    match scan_decimal s1 with
    | Some (d, k, _) => signed sg (of_decimal d k)
    | None => NaN
    end.

(** [Number(s)], that is unary [+] applied to a string, for decimal
    literals: the whole string must read as one ([0] for the empty
    string).  Binary, octal and hexadecimal literals are not
    modelled. *)
Definition of_string (s : string) : number :=
  let t := Str.trim s in
  match t with
  | EmptyString => zero
  | _ =>
      let '(sg, s1) := scan_sign t in
      if String.eqb s1 "Infinity" then signed sg Infinity
      else
        match scan_decimal s1 with
        | Some (d, k, EmptyString) => signed sg (of_decimal d k)
        | _ => NaN
        end
  end.

(** ** Writing a number *)

(** [floor (m * 2^e * 10^f + 1/2)] *)
Definition scaled_round (m e : Z) (f : nat) : Z :=
  let t := m * 10 ^ Z.of_nat f in
  if 0 <=? e then t * 2 ^ e
  else (2 * t + 2 ^ (- e)) / 2 ^ (- e + 1).

(** The digits of [n] with a point before the last [f] of them. *)
Definition fixed_digits (n : Z) (f : nat) : string :=
  let m := digits_of n in
  match f with
  | O => m
  | _ =>
      let k := String.length m in
      let m' := if (k <=? f)%nat then Str.repeat "0" (f + 1 - k) ++ m else m in
      let k' := String.length m' in
      Str.take (k' - f) m' ++ "." ++ Str.drop (k' - f) m'
  end.

(** [Number::toString] for a finite double [m * 2^e] that is at
    least [10^21]: the shortest digits [s] and power of ten [p] with
    [s * 10^p] rounding to the double, the closest such [s] when
    there are several.  [lo4] and [hi4] are four times the bounds of
    the reals that round to the double. *)
Fixpoint shortest_from (fuel : nat) (p : Z) (x lo4 hi4 : Z) (closed : bool)
  : Z * Z :=
  let t := 10 ^ p in
  let s_lo0 := (lo4 + 4 * t - 1) / (4 * t) in
  let s_hi0 := hi4 / (4 * t) in
  let s_lo := if negb closed && (s_lo0 * (4 * t) =? lo4) then s_lo0 + 1 else s_lo0 in
  let s_hi := if negb closed && (s_hi0 * (4 * t) =? hi4) then s_hi0 - 1 else s_hi0 in
  let pick :=
    let q := x / t in
    let r := x mod t in
    let near :=
      match 2 * r ?= t with
      | Lt => q
      | Gt => q + 1
      | Eq => if Z.even q then q else q + 1
      end in
    Z.max s_lo (Z.min s_hi near) in
  match fuel with
  | O => (pick, p)
  | S fuel' =>
      if (s_lo <=? s_hi) && (1 <=? s_hi) then (pick, p)
      else shortest_from fuel' (p - 1) x lo4 hi4 closed
  end.

Definition exponential (m : positive) (e : Z) : string :=
  let x := Zpos m * 2 ^ e in
  let half := 2 ^ e in
  let below := if (Zpos m =? 2 ^ (prec - 1)) && (emin prec emax <? e)
               then half else 2 * half in
  let p0 := Z.log2 x * 31 / 100 + 2 in
  let '(s, p) := shortest_from (Z.to_nat p0) p0 x (4 * x - below)
                               (4 * x + 2 * half) (Z.even (Zpos m)) in
  let ds := digits_of s in
  let n := Z.of_nat (String.length ds) + p in
  match ds with
  | String d EmptyString => String d EmptyString
  | String d rest => String d ("." ++ rest)
  | EmptyString => EmptyString
  end ++ "e+" ++ digits_of (n - 1).

(** [x.toFixed(f)] for [0 <= f <= 100]. *)
Definition toFixed (x : number) (f : nat) : string :=
  match x with
  | S754_nan => "NaN"
  | S754_infinity sg => if sg then "-Infinity" else "Infinity"
  | S754_zero _ => fixed_digits 0 f
  | S754_finite sg m e =>
      (if sg then "-" else "") ++
      (if (0 <=? e) && (10 ^ 21 <=? Zpos m * 2 ^ e)
       then exponential m e
       else fixed_digits (scaled_round (Zpos m) e f) f)
  end.

(** [+x.toFixed(2)] *)
Definition round2 (x : number) : number := of_string (toFixed x 2).

(** [Math.round(x)]: the integer nearest to [x], the larger one when
    two are as near. *)
Definition round (x : number) : number :=
  match x with
  | S754_finite sg m e =>
      if 0 <=? e then x
      else
        let n := (2 * (if sg then - Zpos m else Zpos m) + 2 ^ (- e)) / 2 ^ (- e + 1) in
        if n =? 0 then S754_zero sg else of_Z n
  | _ => x
  end.

End Num.

Import Num.

Arguments Num.add : simpl never.
Arguments Num.sub : simpl never.
Arguments Num.mul : simpl never.
Arguments Num.div : simpl never.
Arguments Num.round2 : simpl never.

(* ================================================================== *)
(** * Regular expressions *)
(* ================================================================== *)

(** The regular expressions of [parseFileName] are sequences of
    character classes with a repetition count, all of them closed by
    [$]. *)
Module Re.

(** A class repeated between [lo] and [hi] times ([None]: no bound). *)
Record item := Item { cls : ascii -> bool; lo : nat; hi : option nat }.

Definition one (p : ascii -> bool) : item := Item p 1 (Some 1%nat).
Definition chr (c : ascii) : item := one (Ascii.eqb c).
Definition lit (s : string) : list item := List.map chr (list_ascii_of_string s).

Definition more (h : option nat) : bool :=
  match h with Some O => false | _ => true end.

(** [accept r s]: the whole of [s] is matched by the items [r]. *)
Fixpoint accept (r : list item) : string -> bool :=
  match r with
  | [] => fun s => match s with EmptyString => true | _ => false end
  | it :: r' =>
      let k := accept r' in
      (fix rep (l : nat) (h : option nat) (s : string) {struct s} : bool :=
         if match l with O => k s | _ => false end then true
         else match s with
              | String c s' =>
                  if cls it c && more h
                  then rep (Nat.pred l) (option_map Nat.pred h) s'
                  else false
              | EmptyString => false
              end) (lo it) (hi it)
  end.

(** The leftmost position from which [r] matches up to the end. *)
Fixpoint search_from (r : list item) (i : nat) (s : string) : option nat :=
  if accept r s then Some i
  else match s with
       | EmptyString => None
       | String _ s' => search_from r (S i) s'
       end.

(** [/^r$/.test(s)] *)
Definition test_whole (r : list item) (s : string) : bool := accept r s.

(** [/r$/.test(s)] *)
Definition test_end (r : list item) (s : string) : bool :=
  match search_from r 0 s with Some _ => true | None => false end.

(** [s.replace(/r$/, '')] *)
Definition strip_end (r : list item) (s : string) : string :=
  match search_from r 0 s with Some i => Str.take i s | None => s end.

(** [\d{4}-\d{2}-\d{2}] *)
Definition date_re : list item :=
  [Item Str.is_digit 4 (Some 4%nat); chr "-";
   Item Str.is_digit 2 (Some 2%nat); chr "-";
   Item Str.is_digit 2 (Some 2%nat)].

(** [\.[a-zA-Z]{2,5}] *)
Definition extension_re : list item :=
  [chr "."; Item Str.is_alpha 2 (Some 5%nat)].

(** [\.reimbursed\..+] *)
Definition reimbursed_re : list item :=
  (lit ".reimbursed." ++
   [Item (fun c => negb (Str.is_line_terminator c)) 1 None])%list.

(** [\.[^.]+] *)
Definition last_dot_re : list item :=
  [chr "."; Item (fun c => negb (Ascii.eqb c ".")) 1 None].

(** [\d+\.\d{2}] *)
Definition amount_re : list item :=
  [Item Str.is_digit 1 None; chr "."; Item Str.is_digit 2 (Some 2%nat)].

End Re.

(* ================================================================== *)
(** * Dates *)
(* ================================================================== *)

Module JsDate.

Definition is_leap (y : Z) : bool :=
  (y mod 4 =? 0) && (negb (y mod 100 =? 0) || (y mod 400 =? 0)).

Definition days_in_month (y m : Z) : Z :=
  if m =? 2 then (if is_leap y then 29 else 28)
  else if (m =? 4) || (m =? 6) || (m =? 9) || (m =? 11) then 30
  else 31.

(** A [Date]: the local year, month (from 0) and day of the month, or
    nothing for an invalid date. *)
Definition t := option (Z * Z * Z).

(** The date that a year, a month in 1..12 and a day in 1..31 stand
    for: a day past the end of its month runs over into the next
    month. *)
Definition make_day (y m d : Z) : t :=
  if (1 <=? m) && (m <=? 12) && (1 <=? d) && (d <=? 31) then
    if d <=? days_in_month y m then Some (y, m - 1, d)
    else Some (y, m, d - days_in_month y m)
  else None.

(** [new Date(s)] for [s] of the form [yyyy-mm-ddT00:00:00], midnight
    in local time.  A month outside 1..12 or a day outside 1..31 makes
    the date invalid.  Local midnight is taken to fall on the calendar
    day that was written. *)
Definition of_local_midnight (s : string) : t :=
  if Re.test_whole (Re.date_re ++ Re.lit "T00:00:00")%list s then
    make_day (digits_val (Str.take 4 s))
             (digits_val (Str.take 2 (Str.drop 5 s)))
             (digits_val (Str.take 2 (Str.drop 8 s)))
  else None.

Definition getFullYear (d : t) : option Z :=
  match d with Some (y, _, _) => Some y | None => None end.
Definition getMonth (d : t) : option Z :=
  match d with Some (_, m, _) => Some m | None => None end.
Definition getDate (d : t) : option Z :=
  match d with Some (_, _, d') => Some d' | None => None end.

(** [a !== b] where [a] may be [NaN] *)
Definition differs (a : option Z) (b : Z) : bool :=
  match a with Some a' => negb (a' =? b) | None => true end.

End JsDate.

(* ================================================================== *)
(** * parseFileName *)
(* ================================================================== *)

Module Parsed.
Record t := Build {
  year : option string;
  description : option string;
  amount : number;
  isReimbursement : bool;
  isValid : bool;
  error : option string
}.

(** [null] and a missing property are both [None]. *)
End Parsed.

Definition quote : string := String (ascii_of_nat 34) EmptyString.

Definition format_error : string :=
  "File name should have format " ++ quote ++
  "yyyy-mm-dd - description - $amount.ext" ++ quote.
Definition date_error (date : string) : string :=
  "Date " ++ quote ++ date ++ quote ++ " should be yyyy-mm-dd format".
Definition dollar_error (amountPart : string) : string :=
  "Amount " ++ quote ++ amountPart ++ quote ++ " should start with $".
Definition extension_error : string :=
  "File is missing extension (should end with .pdf, .jpg, etc.)".
Definition amount_error (amountPart : string) : string :=
  "Amount " ++ quote ++ amountPart ++ quote ++ " should be a valid format like $50.00".
Definition number_error (amountPart : string) : string :=
  "Amount " ++ quote ++ amountPart ++ quote ++ " should be a valid number".

(** [Number] on the pieces of a date that has matched [date_re]. *)
Definition date_numbers (date : string) : list Z :=
  List.map digits_val (Str.split "-" date).

(** The amount token without its [$] and without its extension. *)
Definition strip_amount (amountPart : string) : string :=
  let amountStr := Str.substring_from 1 amountPart in
  if Str.includes ".reimbursed." amountStr
  then Re.strip_end Re.reimbursed_re amountStr
  else Re.strip_end Re.last_dot_re amountStr.

Definition parseFileName (fileName : string) : Parsed.t :=
  match Str.split " - " fileName with
  | [date; description; amountPart] =>
      if negb (Re.test_whole Re.date_re date) then
        Parsed.Build None None zero false false (Some (date_error date))
      else
        let dateObj := JsDate.of_local_midnight (date ++ "T00:00:00") in
        match date_numbers date with
        | yearNum :: monthNum :: dayNum :: _ =>
            if JsDate.differs (JsDate.getFullYear dateObj) yearNum
               || JsDate.differs (JsDate.getMonth dateObj) (monthNum - 1)
               || JsDate.differs (JsDate.getDate dateObj) dayNum
            then Parsed.Build None None zero false false (Some (date_error date))
            else if negb (Str.startsWith "$" amountPart) then
              Parsed.Build None None zero false false (Some (dollar_error amountPart))
            else if negb (Re.test_end Re.extension_re amountPart) then
              Parsed.Build None None zero false false (Some extension_error)
            else
              let amountStr := strip_amount amountPart in
              if negb (Re.test_whole Re.amount_re amountStr) then
                Parsed.Build None None zero false false (Some (amount_error amountPart))
              else
                let amount := parseFloat amountStr in
                if isNaN amount then Parsed.Build None None zero false false (Some (number_error amountPart))
                else
                  let year := hd EmptyString (Str.split "-" date) in
                  let isReimbursement := Str.includes ".reimbursed." fileName in
                  Parsed.Build (Some year) (Some description) amount
                               isReimbursement true None
        | _ => Parsed.Build None None zero false false (Some (date_error date))
        end
  | _ => Parsed.Build None None zero false false (Some format_error)
  end.

(* ================================================================== *)
(** * Objects *)
(* ================================================================== *)

Module Obj.

(** The own properties of an ordinary object, in the order
    [Object.keys] gives them: the array indices in increasing order,
    then the other keys in the order they were added. *)
Definition t (V : Type) : Type := list (string * V).

(** [{}] *)
Definition empty {V : Type} : t V := [].

(** A canonical numeric string below [2^32 - 1]. *)
Definition is_array_index (k : string) : bool :=
  match k with
  | EmptyString => false
  | String c rest =>
      Str.all Str.is_digit k
      && (negb (Ascii.eqb c "0") || String.eqb rest EmptyString)
      && (digits_val k <=? 4294967294)
  end.

Fixpoint get_own {V} (o : t V) (k : string) : option V :=
  match o with
  | [] => None
  | (k', v) :: o' => if String.eqb k' k then Some v else get_own o' k
  end.

Fixpoint replace {V} (k : string) (v : V) (o : t V) : t V :=
  match o with
  | [] => []
  | (k', v') :: o' =>
      if String.eqb k' k then (k', v) :: o' else (k', v') :: replace k v o'
  end.

Fixpoint insert_index {V} (k : string) (v : V) (o : t V) : t V :=
  match o with
  | [] => [(k, v)]
  | (k', v') :: o' =>
      if is_array_index k' && (digits_val k' <? digits_val k)
      then (k', v') :: insert_index k v o'
      else (k, v) :: o
  end.

(** [o[k] = v] *)
Definition set {V} (k : string) (v : V) (o : t V) : t V :=
  match get_own o k with
  | Some _ => replace k v o
  | None => if is_array_index k then insert_index k v o else (o ++ [(k, v)])%list
  end.

(** [Object.keys(o)], [Object.values(o)] *)
Definition keys {V} (o : t V) : list string := List.map fst o.
Definition values {V} (o : t V) : list V := List.map snd o.

(** The properties every object created by [{}] inherits from
    [Object.prototype]; each of them is a function or an object. *)
Definition prototype_names : list string :=
  ["constructor"; "__defineGetter__"; "__defineSetter__"; "hasOwnProperty";
   "__lookupGetter__"; "__lookupSetter__"; "isPrototypeOf";
   "propertyIsEnumerable"; "toString"; "valueOf"; "__proto__";
   "toLocaleString"].

Definition is_prototype_name (k : string) : bool :=
  existsb (String.eqb k) prototype_names.

(** What [o[k]] finds: an own property, a member of
    [Object.prototype], or nothing. *)
Inductive found (V : Type) : Type :=
| Own (v : V)
| Inherited
| Undefined.
Arguments Own {V} v.
Arguments Inherited {V}.
Arguments Undefined {V}.

Definition get {V} (o : t V) (k : string) : found V :=
  match get_own o k with
  | Some v => Own v
  | None => if is_prototype_name k then Inherited else Undefined
  end.

End Obj.

(** [o[k] || 0] for a dictionary of numbers read by year.  A year is
    made of digits, so that it names no member of [Object.prototype]. *)
Definition or_zero (o : Obj.t number) (k : string) : number :=
  match Obj.get_own o k with
  | Some v => if truthy v then v else zero
  | None => zero
  end.

(** [o[k]] in an arithmetic expression: [undefined] counts as [NaN]. *)
Definition num_at (o : Obj.t number) (k : string) : number :=
  match Obj.get_own o k with
  | Some v => v
  | None => NaN
  end.

(* ================================================================== *)
(** * getTotalsByYear *)
(* ================================================================== *)

Inductive outcome (A : Type) : Type :=
| Ok (a : A)
| Throw (message : string).
Arguments Ok {A} a.
Arguments Throw {A} message.

Module Receipt.
Record t := Build {
  date : string;
  year : string;
  description : string;
  amount : number;
  isReimbursed : bool;
  category : string
}.
End Receipt.

Module Category.
Record t := Build {
  expenses : number;
  reimbursements : number;
  count : number
}.
End Category.

Module Invalid.
Record t := Build {
  fileName : string;
  error : option string
}.
End Invalid.

Module Totals.
Record t := Build {
  expensesByYear : Obj.t number;
  reimbursementsByYear : Obj.t number;
  receiptCounts : Obj.t number;
  invalidFiles : list Invalid.t;
  expensesByCategory : Obj.t (Obj.t Category.t);
  validReceipts : list Receipt.t
}.

Definition empty : t := Build Obj.empty Obj.empty Obj.empty [] Obj.empty [].
End Totals.

Definition one : number := of_Z 1.

(** [(description.trim().split(' ')[0] || 'uncategorized').toLowerCase()] *)
Definition category_of (description : string) : string :=
  let word := hd EmptyString (Str.split " " (Str.trim description)) in
  Str.toLowerCase
    (match word with EmptyString => "uncategorized" | _ => word end).

(** A property key made from [year]: [null] reads as the key ["null"]. *)
Definition year_key (year : option string) : string :=
  match year with Some y => y | None => "null" end.

(** The body of the [if (amount > 0)] block. *)
Definition record_receipt (st : Totals.t) (fileName year description : string)
    (amount : number) (isReimbursement : bool) (category : string)
  : outcome Totals.t :=
  let validReceipts :=
    (Totals.validReceipts st ++
     [Receipt.Build (hd EmptyString (Str.split " - " fileName)) year description
                    amount isReimbursement category])%list in
  (* Initialize year data if not exists *)
  let fresh :=
    match Obj.get_own (Totals.expensesByYear st) year with
    | Some v => negb (truthy v)
    | None => true
    end in
  let expensesByYear :=
    if fresh then Obj.set year zero (Totals.expensesByYear st)
    else Totals.expensesByYear st in
  let reimbursementsByYear :=
    if fresh then Obj.set year zero (Totals.reimbursementsByYear st)
    else Totals.reimbursementsByYear st in
  let receiptCounts :=
    if fresh then Obj.set year zero (Totals.receiptCounts st)
    else Totals.receiptCounts st in
  let expensesByCategory :=
    if fresh then Obj.set year Obj.empty (Totals.expensesByCategory st)
    else Totals.expensesByCategory st in
  match Obj.get_own expensesByCategory year with
  | None => Throw "TypeError: Cannot read properties of undefined"
  | Some categories =>
      (* Initialize category data if not exists for this year *)
      let categories :=
        match Obj.get categories category with
        | Obj.Undefined =>
            Obj.set category (Category.Build zero zero zero) categories
        | _ => categories
        end in
      let expensesByYear :=
        Obj.set year (round2 (add (num_at expensesByYear year) amount))
                expensesByYear in
      match Obj.get categories category with
      | Obj.Undefined => Throw "TypeError: Cannot set properties of undefined"
      | found =>
          (* An inherited member of Object.prototype is written to in
             place of a category of this year; no own property changes. *)
          let categories :=
            match found with
            | Obj.Own c =>
                let c1 :=
                  Category.Build
                    (round2 (add (Category.expenses c) amount))
                    (Category.reimbursements c)
                    (add (Category.count c) one) in
                let c2 :=
                  if isReimbursement
                  then Category.Build
                         (Category.expenses c1)
                         (round2 (add (Category.reimbursements c1) amount))
                         (Category.count c1)
                  else c1 in
                Obj.set category c2 categories
            | _ => categories
            end in
          let reimbursementsByYear :=
            if isReimbursement
            then Obj.set year
                   (round2 (add (num_at reimbursementsByYear year) amount))
                   reimbursementsByYear
            else reimbursementsByYear in
          let receiptCounts :=
            Obj.set year (add (num_at receiptCounts year) one) receiptCounts in
          Ok (Totals.Build expensesByYear reimbursementsByYear receiptCounts
                           (Totals.invalidFiles st)
                           (Obj.set year categories expensesByCategory)
                           validReceipts)
      end
  end.

(** One turn of the loop over the directory entries. *)
Definition process_file (st : Totals.t) (fileName : string) : outcome Totals.t :=
  if Str.startsWith "." fileName then Ok st
  else
    let p := parseFileName fileName in
    if negb (Parsed.isValid p) then
      Ok (Totals.Build (Totals.expensesByYear st) (Totals.reimbursementsByYear st)
                       (Totals.receiptCounts st)
                       (Totals.invalidFiles st ++
                          [Invalid.Build fileName (Parsed.error p)])%list
                       (Totals.expensesByCategory st) (Totals.validReceipts st))
    else
      match Parsed.description p with
      | None => Throw "TypeError: Cannot read properties of undefined"
      | Some description =>
          let category := category_of description in
          if gt (Parsed.amount p) zero then
            record_receipt st fileName (year_key (Parsed.year p)) description
                           (Parsed.amount p) (Parsed.isReimbursement p) category
          else Ok st
      end.

Fixpoint process_files (st : Totals.t) (fileNames : list string)
  : outcome Totals.t :=
  match fileNames with
  | [] => Ok st
  | fileName :: rest =>
      match process_file st fileName with
      | Ok st' => process_files st' rest
      | Throw m => Throw m
      end
  end.

(** [readdir] is what [fs.readdirSync(directory)] does: the entries of
    the directory, or the message of the error it throws. *)
Definition getTotalsByYear (readdir : outcome (list string)) : outcome Totals.t :=
  match readdir with
  | Throw message => Throw ("Cannot access directory: " ++ message)
  | Ok fileNames => process_files Totals.empty fileNames
  end.

(* ================================================================== *)
(** * calculateSummaryStats *)
(* ================================================================== *)

(** A value that is either a number or a string: [toFixed] gives a
    string where the guard of a rate holds, and the rate is the number
    [0] where it does not. *)
Inductive num_or_str : Type :=
| JNum (x : number)
| JStr (s : string).

Module Stats.
Record t := Build {
  totalFiles : number;
  totalValidFiles : number;
  totalInvalidFiles : number;
  invalidFilePercentage : num_or_str;
  totalExpenses : number;
  totalReimbursements : number;
  totalReimburseable : number;
  reimbursementRate : num_or_str;
  reimburseableRate : num_or_str;
  avgExpensePerYear : num_or_str;
  avgReceiptsPerYear : number;
  mostExpensiveYear : option string;
  mostExpensiveYearAmount : number;
  mostExpensiveYearReceipts : number;
  expensePercentage : num_or_str;
  receiptPercentage : num_or_str
}.
End Stats.

Definition hundred : number := of_Z 100.

(** [den > 0 ? ((num / den) * 100).toFixed(1) : 0] *)
Definition percentage (num den : number) : num_or_str :=
  if gt den zero then JStr (toFixed (mul (div num den) hundred) 1)
  else JNum zero.

(** The callback of [years.reduce] that looks for the most expensive
    year. *)
Definition more_expensive (expensesByYear : Obj.t number)
    (maxYear year : string) : string :=
  if gt (or_zero expensesByYear year) (or_zero expensesByYear maxYear)
  then year else maxYear.

(** [years.length > 0 ? years.reduce(more_expensive) : null]; without
    an initial value [reduce] starts from the first element. *)
Definition find_mostExpensiveYear (years : list string)
    (expensesByYear : Obj.t number) : option string :=
  match years with
  | [] => None
  | first :: rest => Some (fold_left (more_expensive expensesByYear) rest first)
  end.

Definition calculateSummaryStats (years : list string)
    (expensesByYear reimbursementsByYear receiptCounts : Obj.t number)
    (invalidFiles : list Invalid.t) : Stats.t :=
  let totalValidFiles := fold_left add (Obj.values receiptCounts) zero in
  let totalInvalidFiles := of_Z (Z.of_nat (List.length invalidFiles)) in
  let totalFiles := add totalValidFiles totalInvalidFiles in
  let totalExpenses :=
    fold_left (fun sum year => add sum (or_zero expensesByYear year)) years zero in
  let totalReimbursements :=
    fold_left (fun sum year => add sum (or_zero reimbursementsByYear year))
              years zero in
  let nyears := of_Z (Z.of_nat (List.length years)) in
  let invalidFilePercentage := percentage totalInvalidFiles totalFiles in
  let avgExpensePerYear :=
    if gt nyears zero then JStr (toFixed (div totalExpenses nyears) 2)
    else JNum zero in
  let avgReceiptsPerYear :=
    if gt nyears zero then round (div totalValidFiles nyears) else zero in
  let reimbursementRate := percentage totalReimbursements totalExpenses in
  let totalReimburseable := sub totalExpenses totalReimbursements in
  let reimburseableRate := percentage totalReimburseable totalExpenses in
  (* Find the most expensive year *)
  let mostExpensiveYear := find_mostExpensiveYear years expensesByYear in
  let mostExpensiveYearReceipts :=
    match mostExpensiveYear with
    | Some y => or_zero receiptCounts y
    | None => zero
    end in
  let mostExpensiveYearAmount :=
    match mostExpensiveYear with
    | Some y => or_zero expensesByYear y
    | None => zero
    end in
  let expensePercentage := percentage mostExpensiveYearAmount totalExpenses in
  let receiptPercentage := percentage mostExpensiveYearReceipts totalValidFiles in
  Stats.Build totalFiles totalValidFiles totalInvalidFiles invalidFilePercentage
              totalExpenses totalReimbursements totalReimburseable
              reimbursementRate reimburseableRate avgExpensePerYear
              avgReceiptsPerYear mostExpensiveYear mostExpensiveYearAmount
              mostExpensiveYearReceipts expensePercentage receiptPercentage.

(* ================================================================== *)
(** * buildYearlyResultObject *)
(* ================================================================== *)

(** A line of a category breakdown. *)
Module Line.
Record t := Build {
  expenses : string;
  reimbursements : string;
  receipts : number
}.
End Line.

(** A line of the report: a year or the total.  [byCategory] is present
    on the line of a year that has a category breakdown. *)
Module Row.
Record t := Build {
  expenses : string;
  reimbursements : string;
  receipts : number;
  byCategory : option (Obj.t Line.t)
}.
End Row.

(** [`$${x.toFixed(2)}`] *)
Definition dollars (x : number) : string := "$" ++ toFixed x 2.

(** [entries.sort((a, b) => b[1].expenses - a[1].expenses)]: [a] moves
    behind [b] when the difference is positive; the sort keeps the
    order of entries it does not tell apart. *)
Definition sorts_after (a b : string * Category.t) : bool :=
  gt (sub (Category.expenses (snd b)) (Category.expenses (snd a))) zero.

Fixpoint sort_insert (a : string * Category.t) (l : list (string * Category.t))
  : list (string * Category.t) :=
  match l with
  | [] => [a]
  | b :: l' => if sorts_after a b then b :: sort_insert a l' else a :: l
  end.

Definition sort_by_expenses (l : list (string * Category.t))
  : list (string * Category.t) :=
  fold_right sort_insert [] l.

Definition category_line (data : Category.t) : Line.t :=
  Line.Build (dollars (Category.expenses data))
             (dollars (Category.reimbursements data))
             (Category.count data).

(** The running state of the loop over [years]. *)
Module Report.
Record t := Build {
  result : Obj.t Row.t;
  totalExpenses : number;
  totalReimbursements : number;
  totalReceipts : number
}.
End Report.

Definition report_year
    (expensesByYear reimbursementsByYear receiptCounts : Obj.t number)
    (expensesByCategory : Obj.t (Obj.t Category.t))
    (acc : Report.t) (year : string) : Report.t :=
  let yearExpenses := or_zero expensesByYear year in
  let yearReimbursements := or_zero reimbursementsByYear year in
  let yearReceipts := or_zero receiptCounts year in
  let byCategory :=
    match Obj.get_own expensesByCategory year with
    | Some categories =>
        Some (fold_left
                (fun byCategory entry =>
                   Obj.set (fst entry) (category_line (snd entry)) byCategory)
                (sort_by_expenses categories) Obj.empty)
    | None => None
    end in
  Report.Build
    (Obj.set year
       (Row.Build (dollars yearExpenses) (dollars yearReimbursements)
                  yearReceipts byCategory)
       (Report.result acc))
    (add (Report.totalExpenses acc) yearExpenses)
    (add (Report.totalReimbursements acc) yearReimbursements)
    (add (Report.totalReceipts acc) yearReceipts).

(** [expensesByCategory] is [[]] where the caller leaves it out. *)
Definition buildYearlyResultObject (years : list string)
    (expensesByYear reimbursementsByYear receiptCounts : Obj.t number)
    (expensesByCategory : Obj.t (Obj.t Category.t)) : Obj.t Row.t :=
  let final :=
    fold_left
      (report_year expensesByYear reimbursementsByYear receiptCounts
                   expensesByCategory)
      years (Report.Build Obj.empty zero zero zero) in
  Obj.set "Total"
    (Row.Build (dollars (Report.totalExpenses final))
               (dollars (Report.totalReimbursements final))
               (Report.totalReceipts final) None)
    (Report.result final).

(* ================================================================== *)
(** * Notions used to state the properties *)
(* ================================================================== *)

(** The four dictionaries keyed by year have the same keys. *)
Definition same_years (st : Totals.t) : Prop :=
  Obj.keys (Totals.expensesByYear st) = Obj.keys (Totals.reimbursementsByYear st) /\
  Obj.keys (Totals.reimbursementsByYear st) = Obj.keys (Totals.receiptCounts st) /\
  Obj.keys (Totals.receiptCounts st) = Obj.keys (Totals.expensesByCategory st).

(** [expensesByYear[year]] holds a sum already: the test that guards
    the initialisation of a year fails. *)
Definition started (expensesByYear : Obj.t number) (year : string) : bool :=
  match Obj.get_own expensesByYear year with
  | Some v => truthy v
  | None => false
  end.

(** What [record_receipt] makes of the categories of a year. *)
Definition categories_after (categories : Obj.t Category.t)
    (category : string) (amount : number) (isReimbursement : bool)
  : Obj.t Category.t :=
  let categories1 :=
    match Obj.get categories category with
    | Obj.Undefined => Obj.set category (Category.Build zero zero zero) categories
    | _ => categories
    end in
  match Obj.get categories1 category with
  | Obj.Own c =>
      Obj.set category
        (Category.Build
           (round2 (add (Category.expenses c) amount))
           (if isReimbursement
            then round2 (add (Category.reimbursements c) amount)
            else Category.reimbursements c)
           (add (Category.count c) one))
        categories1
  | _ => categories1
  end.

(** What [record_receipt] makes of the whole state. *)
Definition state_after (st : Totals.t) (fileName year description : string)
    (amount : number) (isReimbursement : bool) (category : string) : Totals.t :=
  let fresh := negb (started (Totals.expensesByYear st) year) in
  let init {V} (v : V) (o : Obj.t V) := if fresh then Obj.set year v o else o in
  let e := init zero (Totals.expensesByYear st) in
  let r := init zero (Totals.reimbursementsByYear st) in
  let n := init zero (Totals.receiptCounts st) in
  let c := init Obj.empty (Totals.expensesByCategory st) in
  Totals.Build
    (Obj.set year (round2 (add (num_at e year) amount)) e)
    (if isReimbursement
     then Obj.set year (round2 (add (num_at r year) amount)) r else r)
    (Obj.set year (add (num_at n year) one) n)
    (Totals.invalidFiles st)
    (Obj.set year
       (categories_after
          (match Obj.get_own c year with Some cs => cs | None => Obj.empty end)
          category amount isReimbursement) c)
    (Totals.validReceipts st ++
     [Receipt.Build (hd EmptyString (Str.split " - " fileName)) year description
                    amount isReimbursement category])%list.

(** ** The validation rules of a file name

    The checks of [parseFileName] as an ordered list of rules: what a
    rule requires of the file name, and the message when it fails. *)

Definition segments (fileName : string) : list string :=
  Str.split " - " fileName.

Definition date_segment (fileName : string) : string :=
  nth 0 (segments fileName) EmptyString.

Definition amount_token (fileName : string) : string :=
  nth 2 (segments fileName) EmptyString.

(** The day of the month exists in the month of the year. *)
Definition is_calendar_date (date : string) : bool :=
  let y := digits_val (Str.take 4 date) in
  let m := digits_val (Str.take 2 (Str.drop 5 date)) in
  let d := digits_val (Str.take 2 (Str.drop 8 date)) in
  (1 <=? m) && (m <=? 12) && (1 <=? d) && (d <=? JsDate.days_in_month y m).

Record rule := Rule {
  holds : string -> bool;
  message : string -> string
}.

Definition validation_rules : list rule :=
  [ Rule (fun f => (List.length (segments f) =? 3)%nat)
         (fun _ => format_error);
    Rule (fun f => Re.test_whole Re.date_re (date_segment f))
         (fun f => date_error (date_segment f));
    Rule (fun f => is_calendar_date (date_segment f))
         (fun f => date_error (date_segment f));
    Rule (fun f => Str.startsWith "$" (amount_token f))
         (fun f => dollar_error (amount_token f));
    Rule (fun f => Re.test_end Re.extension_re (amount_token f))
         (fun _ => extension_error);
    Rule (fun f => Re.test_whole Re.amount_re (strip_amount (amount_token f)))
         (fun f => amount_error (amount_token f)) ].

(** The first rule that a file name breaks. *)
Definition first_failure (fileName : string) : option rule :=
  find (fun r => negb (holds r fileName)) validation_rules.

(** ** Amounts in cents *)

(** The digits of an amount without its point. *)
Definition undotted (amountStr : string) : string :=
  Str.take (String.length amountStr - 3) amountStr ++
  Str.drop (String.length amountStr - 2) amountStr.

(** The cents written in the amount of a valid file name. *)
Definition written_cents (fileName : string) : Z :=
  if Parsed.isValid (parseFileName fileName)
  then digits_val (undotted (strip_amount (amount_token fileName)))
  else 0.

(** An amount written without a needless zero in front: it does not
    start with [0], or the [0] is all there is before the point. *)
Definition plainly_written (amountStr : string) : bool :=
  negb (Str.startsWith "0" amountStr) || Str.startsWith "0." amountStr.

(** The cents [toFixed(2)] writes for a number that is not negative. *)
Definition cents_of (x : number) : Z :=
  match x with
  | S754_finite false m e => scaled_round (Zpos m) e 2
  | _ => 0
  end.

(** ** Doubles as integers

    A double that is finite and not negative is a whole number of
    units of [2^-1074]; the rounding of the arithmetic is stated on
    these whole numbers. *)

(** The shift that brings [m * 2^e] to the exponent of its format. *)
Definition shift_of (m e : Z) : Z :=
  Z.max 0 (fexp prec emax (Zdigits2 m + e) - e).

(** [2^e] in units of [2^-1074]. *)
Definition unit_at (e : Z) : Z := 2 ^ (e + 1074).

(** The value of a finite double that is not negative, in units of
    [2^-1074]. *)
Definition scaled (x : number) : Z :=
  match x with
  | S754_finite false m e => Zpos m * 2 ^ (e + 1074)
  | _ => 0
  end.

(** The double of an amount of [c] cents. *)
Definition money (c : Z) : number := of_ratio c 100.

(** ** Sums to the cent *)

Definition sumZ {A : Type} (g : A -> Z) (l : list A) : Z :=
  fold_right (fun x acc => g x + acc) 0 l.

(** The cents of the receipts recorded so far. *)
Definition spent (st : Totals.t) : Z :=
  sumZ (fun r => cents_of (Receipt.amount r)) (Totals.validReceipts st).

(** The cents written in the valid file names of a listing. *)
Definition total_cents (fileNames : list string) : Z :=
  sumZ written_cents fileNames.

(** The cents of the values of a dictionary of sums. *)
Definition year_cents (sums : Obj.t number) : Z :=
  sumZ cents_of (Obj.values sums).

(** The cents of the expenses of the categories of a year. *)
Definition category_cents (categories : Obj.t Category.t) : Z :=
  sumZ (fun c => cents_of (Category.expenses c)) (Obj.values categories).

(** The sums by year are doubles of whole cents, and their cents add
    up to the cents of the receipts. *)
Definition years_in_cents (st : Totals.t) : Prop :=
  (forall y v,
      Obj.get_own (Totals.expensesByYear st) y = Some v ->
      exists a, 1 <= a <= spent st /\ v = money a) /\
  year_cents (Totals.expensesByYear st) = spent st.

(** The sums by category of a year are doubles of whole cents, and
    their cents add up to the cents of the year. *)
Definition categories_in_cents (st : Totals.t) : Prop :=
  forall y v,
    Obj.get_own (Totals.expensesByYear st) y = Some v ->
    exists categories,
      Obj.get_own (Totals.expensesByCategory st) y = Some categories /\
      category_cents categories = cents_of v /\
      forall c t,
        Obj.get_own categories c = Some t ->
        exists b, 1 <= b <= spent st /\ Category.expenses t = money b.

(** No valid file name of the listing falls in a category named like
    a member of [Object.prototype]. *)
Definition own_categories (fileNames : list string) : Prop :=
  forall fileName description,
    In fileName fileNames ->
    Parsed.description (parseFileName fileName) = Some description ->
    Obj.is_prototype_name (category_of description) = false.

(** ** Sums of doubles *)

(** [values.reduce((sum, v) => sum + v, 0)] *)
Definition sum_numbers (values : list number) : number :=
  fold_left add values zero.




(** ** A sample listing *)




(** The numeric part of the amount of a file name. *)
Definition amount_text (fileName : string) : string :=
  strip_amount (amount_token fileName).

(** The four ways a turn of the loop can go. *)
Inductive turn (st : Totals.t) (fileName : string) : Totals.t -> Prop :=
| turn_hidden :
    Str.startsWith "." fileName = true -> turn st fileName st
| turn_invalid :
    Str.startsWith "." fileName = false ->
    Parsed.isValid (parseFileName fileName) = false ->
    turn st fileName
      (Totals.Build (Totals.expensesByYear st) (Totals.reimbursementsByYear st)
         (Totals.receiptCounts st)
         (Totals.invalidFiles st ++
            [Invalid.Build fileName (Parsed.error (parseFileName fileName))])%list
         (Totals.expensesByCategory st) (Totals.validReceipts st))
| turn_dropped :
    Str.startsWith "." fileName = false ->
    Parsed.isValid (parseFileName fileName) = true ->
    gt (Parsed.amount (parseFileName fileName)) zero = false ->
    turn st fileName st
| turn_recorded year description :
    Str.startsWith "." fileName = false ->
    Parsed.isValid (parseFileName fileName) = true ->
    Parsed.year (parseFileName fileName) = Some year ->
    Parsed.description (parseFileName fileName) = Some description ->
    gt (Parsed.amount (parseFileName fileName)) zero = true ->
    turn st fileName
      (state_after st fileName year description
         (Parsed.amount (parseFileName fileName))
         (Parsed.isReimbursement (parseFileName fileName))
         (category_of description)).


(* ================================================================== *)
(** * prepareChartData *)
(* ================================================================== *)

(** A bar of a chart. *)
Module Point.
Record t := Build {
  label : string;
  value : number
}.
End Point.

Module Chart.
Record t := Build {
  expenseData : list Point.t;
  reimbursementData : list Point.t
}.
End Chart.

(** The body of the loop over [years]: one [push] on each array. *)
Definition chart_year (expensesByYear reimbursementsByYear : Obj.t number)
    (acc : Chart.t) (year : string) : Chart.t :=
  let expenseAmount := or_zero expensesByYear year in
  let reimbursementAmount := or_zero reimbursementsByYear year in
  Chart.Build
    (Chart.expenseData acc ++ [Point.Build year expenseAmount])%list
    (Chart.reimbursementData acc ++ [Point.Build year reimbursementAmount])%list.

Definition prepareChartData (years : list string)
    (expensesByYear reimbursementsByYear : Obj.t number) : Chart.t :=
  fold_left (chart_year expensesByYear reimbursementsByYear) years
            (Chart.Build [] []).

(* ================================================================== *)
(** * formatReceipt, formatReceiptList *)
(* ================================================================== *)

Definition newline : string := String (ascii_of_nat 10) EmptyString.

(** [l.join(sep)] for an array of strings *)
Fixpoint join (sep : string) (l : list string) : string :=
  match l with
  | [] => EmptyString
  | x :: l' =>
      match l' with
      | [] => x
      | _ :: _ => x ++ sep ++ join sep l'
      end
  end.

(** [includeReimbursedStatus] is [true] where the caller leaves it
    out. *)
Definition formatReceipt (receipt : Receipt.t) (includeReimbursedStatus : bool)
  : string :=
  let base :=
    Receipt.date receipt ++ " | " ++ Receipt.description receipt ++ " | " ++
    dollars (Receipt.amount receipt) in
  if negb includeReimbursedStatus then base
  else base ++ " | " ++
       (if Receipt.isReimbursed receipt then "reimbursed" else "not reimbursed").

Definition formatReceiptList (receipts : list Receipt.t)
    (includeReimbursedStatus : bool) : string :=
  join newline
       (List.map (fun r => formatReceipt r includeReimbursedStatus) receipts).

(* ================================================================== *)
(** * createExpenseTools: the handlers of the tools *)
(* ================================================================== *)

(** [x >= y] *)
Definition ge (x y : number) : bool := SFleb y x.

(** [l.sort((a, b) => key(b) - key(a))]: [a] moves behind [b] when
    the difference is positive, and the sort keeps the order of the
    elements it does not tell apart. *)
Definition larger_first {A : Type} (key : A -> number) (a b : A) : bool :=
  gt (sub (key b) (key a)) zero.

Fixpoint insert_by {A : Type} (after : A -> A -> bool) (a : A) (l : list A)
  : list A :=
  match l with
  | [] => [a]
  | b :: l' => if after a b then b :: insert_by after a l' else a :: l
  end.

Definition sort_by {A : Type} (after : A -> A -> bool) (l : list A) : list A :=
  fold_right (insert_by after) [] l.

(** The integer part of a finite number, [0] for [NaN]. *)
Definition trunc (x : number) : Z :=
  match x with
  | S754_finite sg m e =>
      let n := if 0 <=? e then Zpos m * 2 ^ e else Zpos m / 2 ^ (- e) in
      if sg then - n else n
  | _ => 0
  end.

(** [l.slice(0, count)]: a negative [count] is taken from the end. *)
Definition slice_to {A : Type} (count : number) (l : list A) : list A :=
  let len := Z.of_nat (List.length l) in
  let final :=
    match count with
    | S754_infinity false => len
    | S754_infinity true => 0
    | _ =>
        let relativeEnd := trunc count in
        if relativeEnd <? 0 then Z.max (len + relativeEnd) 0
        else Z.min relativeEnd len
    end in
  firstn (Z.to_nat final) l.

(** [if (year) receipts = receipts.filter(r => r.year === year)]: the
    filter is applied for a [year] that is given and not empty. *)
Definition filter_year (year : option string) (receipts : list Receipt.t)
  : list Receipt.t :=
  match year with
  | Some (String c y) =>
      filter (fun r => String.eqb (Receipt.year r) (String c y)) receipts
  | _ => receipts
  end.

(** [l.length] in a template *)
Definition count_text {A : Type} (l : list A) : string :=
  digits_of (Z.of_nat (List.length l)).

Definition sum_amounts (receipts : list Receipt.t) : number :=
  fold_left (fun sum r => add sum (Receipt.amount r)) receipts zero.

Module CategoryTotal.
Record t := Build {
  expenses : number;
  count : Z
}.
End CategoryTotal.

Module Tools.

Definition search_receipts (validReceipts : list Receipt.t) (keyword : string)
  : string :=
  let results :=
    filter (fun r => Str.includes (Str.toLowerCase keyword)
                                  (Str.toLowerCase (Receipt.description r)))
           validReceipts in
  match results with
  | [] => "No receipts found matching " ++ quote ++ keyword ++ quote ++ "."
  | _ :: _ => formatReceiptList results true
  end.

(** [count] is [10] where the caller leaves it out. *)
Definition get_largest_expenses (validReceipts : list Receipt.t)
    (count : option number) (year : option string) : string :=
  let count := match count with Some c => c | None => of_Z 10 end in
  let receipts := filter_year year validReceipts in
  let sorted := slice_to count (sort_by (larger_first Receipt.amount) receipts) in
  match sorted with
  | [] =>
      match year with
      | Some (String c y) => "No receipts found for year " ++ String c y ++ "."
      | _ => "No receipts found."
      end
  | _ :: _ => formatReceiptList sorted true
  end.

(** [minAmount] is [0] where the caller leaves it out. *)
Definition get_unreimbursed_expenses (validReceipts : list Receipt.t)
    (year : option string) (minAmount : option number) : string :=
  let minAmount := match minAmount with Some m => m | None => zero end in
  let receipts :=
    filter (fun r => negb (Receipt.isReimbursed r)
                     && ge (Receipt.amount r) minAmount) validReceipts in
  let receipts := filter_year year receipts in
  let sorted := sort_by (larger_first Receipt.amount) receipts in
  match sorted with
  | [] => "No unreimbursed expenses found matching criteria."
  | _ :: _ =>
      let total := sum_amounts sorted in
      formatReceiptList sorted false ++ newline ++ newline ++
      "Total unreimbursed: " ++ dollars total ++
      " (" ++ count_text sorted ++ " receipts)"
  end.

Definition get_receipts_by_category (validReceipts : list Receipt.t)
    (category : string) (year : option string) : string :=
  let receipts :=
    filter (fun r => String.eqb (Str.toLowerCase (Receipt.category r))
                                (Str.toLowerCase category)) validReceipts in
  let receipts := filter_year year receipts in
  match receipts with
  | [] =>
      "No receipts found for category " ++ quote ++ category ++ quote ++
      match year with
      | Some (String c y) => " in " ++ String c y
      | _ => EmptyString
      end ++ "."
  | _ :: _ =>
      let sorted := sort_by (larger_first Receipt.amount) receipts in
      let total := sum_amounts sorted in
      formatReceiptList sorted true ++ newline ++ newline ++
      "Total for " ++ category ++ ": " ++ dollars total ++
      " (" ++ count_text sorted ++ " receipts)"
  end.

(** The body of the loop of [list_categories].  A category named like
    a member of [Object.prototype] passes the test
    [!categoryTotals[receipt.category]] through that member, which is
    then written to; no own property changes. *)
Definition count_category (categoryTotals : Obj.t CategoryTotal.t)
    (receipt : Receipt.t) : Obj.t CategoryTotal.t :=
  let category := Receipt.category receipt in
  let categoryTotals :=
    match Obj.get categoryTotals category with
    | Obj.Undefined => Obj.set category (CategoryTotal.Build zero 0) categoryTotals
    | _ => categoryTotals
    end in
  match Obj.get categoryTotals category with
  | Obj.Own t =>
      Obj.set category
        (CategoryTotal.Build (add (CategoryTotal.expenses t) (Receipt.amount receipt))
                             (CategoryTotal.count t + 1))
        categoryTotals
  | _ => categoryTotals
  end.

Definition category_totals (validReceipts : list Receipt.t)
  : Obj.t CategoryTotal.t :=
  fold_left count_category validReceipts Obj.empty.

Definition list_categories (validReceipts : list Receipt.t) : string :=
  let categoryTotals := category_totals validReceipts in
  let sorted :=
    sort_by (larger_first (fun entry : string * CategoryTotal.t =>
                             CategoryTotal.expenses (snd entry)))
            categoryTotals in
  join newline
       (List.map (fun entry : string * CategoryTotal.t =>
                    fst entry ++ ": " ++ dollars (CategoryTotal.expenses (snd entry)) ++
                    " (" ++ digits_of (CategoryTotal.count (snd entry)) ++ " receipts)")
                 sorted).

End Tools.

(* ================================================================== *)
(** * main: the years of the report and the table of invalid files *)
(* ================================================================== *)

(** [[...new Set(l)]]: the first occurrence of each string, in order. *)
Fixpoint unique_onto (seen : list string) (l : list string) : list string :=
  match l with
  | [] => []
  | x :: l' =>
      if existsb (String.eqb x) seen then unique_onto seen l'
      else x :: unique_onto (x :: seen) l'
  end.

Definition unique (l : list string) : list string := unique_onto [] l.

(** [a < b] on strings: the order of the code units. *)
Fixpoint string_lt (a b : string) : bool :=
  match a, b with
  | _, EmptyString => false
  | EmptyString, String _ _ => true
  | String x a', String y b' =>
      if Str.code x <? Str.code y then true
      else if Str.code y <? Str.code x then false
      else string_lt a' b'
  end.

(** [l.sort()] on strings: [a] moves behind [b] when [b < a]. *)
Definition sort_strings (l : list string) : list string :=
  sort_by (fun a b => string_lt b a) l.

(** [[...new Set([...Object.keys(expensesByYear),
    ...Object.keys(reimbursementsByYear)])].sort()] *)
Definition report_years (r : Totals.t) : list string :=
  sort_strings
    (unique (Obj.keys (Totals.expensesByYear r) ++
             Obj.keys (Totals.reimbursementsByYear r))%list).

Inductive color : Type :=
| reset | red | green | yellow | cyan | dim.

Definition escape : ascii := ascii_of_nat 27.

(** [colors[color]] for the keys of [colors] *)
Definition color_code (c : color) : string :=
  String escape
    match c with
    | reset => "[0m"
    | red => "[31m"
    | green => "[32m"
    | yellow => "[33m"
    | cyan => "[36m"
    | dim => "[2m"
    end.

(** [noColor] is [process.argv.includes('--no-color')]. *)
Definition colorize (noColor : bool) (text : string) (c : color) : string :=
  if noColor then text else color_code c ++ text ++ color_code reset.

(** [s.padEnd(target)] *)
Definition padEnd (target : Z) (s : string) : string :=
  s ++ Str.repeat " " (Z.to_nat (target - Z.of_nat (String.length s))).

Definition COLUMN_PADDING : Z := 4.

Definition code_length (c : color) : Z := Z.of_nat (String.length (color_code c)).

(** A string or [null] in a template *)
Definition text_of (s : option string) : string :=
  match s with Some s' => s' | None => "null" end.

(** The lines of the table of invalid files, as [main] logs them when
    [invalidFiles] is not empty: the heading, the rule under it and a
    line for each file. *)
Definition invalid_table (noColor : bool) (invalidFiles : list Invalid.t)
  : list string :=
  match invalidFiles with
  | [] => []
  | first :: rest =>
      let length_of f := Z.of_nat (String.length (Invalid.fileName f)) in
      let maxFileNameLength :=
        fold_left Z.max (List.map length_of rest) (length_of first) in
      let extraPadding := if noColor then - COLUMN_PADDING - 1 else COLUMN_PADDING in
      let padding :=
        Z.max (maxFileNameLength + extraPadding)
              (Z.of_nat (String.length "Filename") + extraPadding) in
      (newline ++
       padEnd (padding + code_length cyan + code_length reset)
              (colorize noColor "Filename" cyan) ++
       colorize noColor "Error" cyan)
      :: (padEnd (padding + code_length cyan + code_length reset)
                 (colorize noColor "--------" cyan) ++
          colorize noColor "-----" cyan)
      :: List.map
           (fun f =>
              padEnd (padding + code_length yellow + code_length reset)
                     (colorize noColor (Invalid.fileName f) yellow) ++
              colorize noColor (text_of (Invalid.error f)) red)
           invalidFiles
  end.

(* ================================================================== *)
(** * Notions used to state further properties *)
(* ================================================================== *)

(** The entries that [getTotalsByYear] reports as invalid. *)
Definition is_invalid_entry (fileName : string) : bool :=
  negb (Str.startsWith "." fileName)
  && negb (Parsed.isValid (parseFileName fileName)).

(** The entries that [getTotalsByYear] counts. *)
Definition is_recorded (fileName : string) : bool :=
  Parsed.isValid (parseFileName fileName)
  && gt (Parsed.amount (parseFileName fileName)) zero.

Definition invalid_of (fileName : string) : Invalid.t :=
  Invalid.Build fileName (Parsed.error (parseFileName fileName)).

Definition year_of (fileName : string) : string :=
  year_key (Parsed.year (parseFileName fileName)).

Definition description_of (fileName : string) : string :=
  match Parsed.description (parseFileName fileName) with
  | Some description => description
  | None => EmptyString
  end.

(** The receipt kept for a counted entry. *)
Definition receipt_of (fileName : string) : Receipt.t :=
  Receipt.Build (hd EmptyString (Str.split " - " fileName))
                (year_of fileName) (description_of fileName)
                (Parsed.amount (parseFileName fileName))
                (Parsed.isReimbursement (parseFileName fileName))
                (category_of (description_of fileName)).

(** The cents written in the counted entries of a year, and in those
    of them that are reimbursed. *)
Definition cents_in_year (year : string) (fileNames : list string) : Z :=
  sumZ written_cents
       (filter (fun f => is_recorded f && String.eqb (year_of f) year) fileNames).

Definition reimbursed_in_year (year : string) (fileNames : list string) : Z :=
  sumZ written_cents
       (filter (fun f => is_recorded f
                         && Parsed.isReimbursement (parseFileName f)
                         && String.eqb (year_of f) year) fileNames).

(** No year is named like a member of [Object.prototype]. *)
Definition plain_years (years : list string) : Prop :=
  forall year, In year years -> Obj.is_prototype_name year = false.

(** The breakdown by category of a year of the report: a line for
    each category, written in the order of the sort. *)
Definition category_lines (categories : Obj.t Category.t) : Obj.t Line.t :=
  fold_left
    (fun byCategory entry =>
       Obj.set (fst entry) (category_line (snd entry)) byCategory)
    (sort_by_expenses categories) Obj.empty.

(** The line of a year in the report. *)
Definition year_row
    (expensesByYear reimbursementsByYear receiptCounts : Obj.t number)
    (expensesByCategory : Obj.t (Obj.t Category.t)) (year : string) : Row.t :=
  Row.Build (dollars (or_zero expensesByYear year))
            (dollars (or_zero reimbursementsByYear year))
            (or_zero receiptCounts year)
            (option_map category_lines (Obj.get_own expensesByCategory year)).

(** A file name put together from its parts. *)
Definition file_name (date description amountStr : string) (reimbursed : bool)
    (extension : string) : string :=
  date ++ " - " ++ description ++ " - $" ++ amountStr ++
  (if reimbursed then ".reimbursed." else ".") ++ extension.

(* ================================================================== *)
(** * Properties of objects *)
(* ================================================================== *)

Section ObjFacts.
Context {V : Type}.
Implicit Types (o : Obj.t V) (k : string) (v : V).

Lemma get_own_replace_same o k v v0 :
  Obj.get_own o k = Some v0 -> Obj.get_own (Obj.replace k v o) k = Some v.
Proof.
  induction o as [|[k' v'] o IH]; simpl; [discriminate|].
  destruct (String.eqb k' k) eqn:E; simpl; rewrite E; auto.
Qed.

Lemma get_own_replace_other o k k' v :
  k <> k' -> Obj.get_own (Obj.replace k v o) k' = Obj.get_own o k'.
Proof.
  intros Hne. induction o as [|[k0 v0] o IH]; simpl; [reflexivity|].
  destruct (String.eqb k0 k) eqn:E; simpl.
  - apply String.eqb_eq in E. subst k0.
    destruct (String.eqb k k') eqn:E'; [apply String.eqb_eq in E'; contradiction|reflexivity].
  - destruct (String.eqb k0 k'); auto.
Qed.

Lemma get_own_insert_index_same o k v :
  Obj.get_own o k = None -> Obj.get_own (Obj.insert_index k v o) k = Some v.
Proof.
  induction o as [|[k0 v0] o IH]; simpl; intros H.
  - now rewrite String.eqb_refl.
  - destruct (String.eqb k0 k) eqn:E; [discriminate|].
    destruct (Obj.is_array_index k0 && (digits_val k0 <? digits_val k)); simpl.
    + rewrite E. auto.
    + now rewrite String.eqb_refl.
Qed.

Lemma get_own_insert_index_other o k k' v :
  k <> k' -> Obj.get_own (Obj.insert_index k v o) k' = Obj.get_own o k'.
Proof.
  intros Hne. induction o as [|[k0 v0] o IH]; simpl.
  - destruct (String.eqb k k') eqn:E; [apply String.eqb_eq in E; contradiction|reflexivity].
  - destruct (Obj.is_array_index k0 && (digits_val k0 <? digits_val k)); simpl.
    + destruct (String.eqb k0 k'); auto.
    + destruct (String.eqb k k') eqn:E; [apply String.eqb_eq in E; contradiction|reflexivity].
Qed.

Lemma get_own_app o o' k :
  Obj.get_own (o ++ o')%list k =
  match Obj.get_own o k with Some v => Some v | None => Obj.get_own o' k end.
Proof.
  induction o as [|[k0 v0] o IH]; simpl; [reflexivity|].
  destruct (String.eqb k0 k); auto.
Qed.

(** Reading back what was just written. *)
Lemma get_own_set_same o k v : Obj.get_own (Obj.set k v o) k = Some v.
Proof.
  unfold Obj.set. destruct (Obj.get_own o k) eqn:E.
  - eapply get_own_replace_same; eauto.
  - destruct (Obj.is_array_index k).
    + now apply get_own_insert_index_same.
    + rewrite get_own_app, E. simpl. now rewrite String.eqb_refl.
Qed.

(** Writing one key leaves the others as they were. *)
Lemma get_own_set_other o k k' v :
  k <> k' -> Obj.get_own (Obj.set k v o) k' = Obj.get_own o k'.
Proof.
  intros Hne. unfold Obj.set. destruct (Obj.get_own o k) eqn:E.
  - now apply get_own_replace_other.
  - destruct (Obj.is_array_index k).
    + now apply get_own_insert_index_other.
    + rewrite get_own_app. destruct (Obj.get_own o k'); [reflexivity|].
      simpl. destruct (String.eqb k k') eqn:E'; [apply String.eqb_eq in E'; contradiction|reflexivity].
Qed.

Lemma get_own_in_keys o k :
  In k (Obj.keys o) <-> Obj.get_own o k <> None.
Proof.
  induction o as [|[k0 v0] o IH]; simpl.
  - split; [tauto|congruence].
  - destruct (String.eqb k0 k) eqn:E.
    + apply String.eqb_eq in E. split; [congruence|auto].
    + apply String.eqb_neq in E. rewrite <- IH. split; [intros [?|?]; [contradiction|assumption]|auto].
Qed.

End ObjFacts.

(** The keys after a write depend on the keys before it alone. *)
Lemma get_own_keys_eq {V W} (o : Obj.t V) (o' : Obj.t W) k :
  Obj.keys o = Obj.keys o' ->
  (Obj.get_own o k = None <-> Obj.get_own o' k = None).
Proof.
  revert o'. induction o as [|[k0 v0] o IH]; intros [|[k1 v1] o'] H;
    simpl in *; try discriminate; [tauto|].
  injection H as -> H. destruct (String.eqb k1 k); [split; discriminate|auto].
Qed.

Lemma keys_replace {V} (o : Obj.t V) k v :
  Obj.keys (Obj.replace k v o) = Obj.keys o.
Proof.
  induction o as [|[k0 v0] o IH]; simpl; [reflexivity|].
  destruct (String.eqb k0 k); simpl; congruence.
Qed.

Lemma keys_insert_index {V W} (o : Obj.t V) (o' : Obj.t W) k v w :
  Obj.keys o = Obj.keys o' ->
  Obj.keys (Obj.insert_index k v o) = Obj.keys (Obj.insert_index k w o').
Proof.
  revert o'. induction o as [|[k0 v0] o IH]; intros [|[k1 v1] o'] H;
    simpl in *; try discriminate; [reflexivity|].
  injection H as -> H.
  destruct (Obj.is_array_index k1 && (digits_val k1 <? digits_val k)); simpl.
  - f_equal. now apply IH.
  - f_equal. f_equal. exact H.
Qed.

Lemma keys_set {V W} (o : Obj.t V) (o' : Obj.t W) k v w :
  Obj.keys o = Obj.keys o' ->
  Obj.keys (Obj.set k v o) = Obj.keys (Obj.set k w o').
Proof.
  intros H. unfold Obj.set.
  pose proof (get_own_keys_eq o o' k H) as Hk.
  destruct (Obj.get_own o k) eqn:E, (Obj.get_own o' k) eqn:E'.
  - now rewrite !keys_replace.
  - exfalso. destruct Hk as [_ Hk]. specialize (Hk eq_refl). discriminate.
  - exfalso. destruct Hk as [Hk _]. specialize (Hk eq_refl). discriminate.
  - destruct (Obj.is_array_index k).
    + now apply keys_insert_index.
    + unfold Obj.keys in *. rewrite !List.map_app, H. reflexivity.
Qed.

Lemma keys_set_present {V} (o : Obj.t V) k v :
  Obj.get_own o k <> None -> Obj.keys (Obj.set k v o) = Obj.keys o.
Proof.
  intros H. unfold Obj.set. destruct (Obj.get_own o k); [|congruence].
  apply keys_replace.
Qed.

(* ================================================================== *)
(** * Properties of parseFileName *)
(* ================================================================== *)

Ltac split_cases :=
  repeat match goal with
         | |- context [match ?x with _ => _ end] => destruct x eqn:?
         end.

(** A valid parse carries a year and a description. *)
Lemma parse_valid_fields fileName :
  Parsed.isValid (parseFileName fileName) = true ->
  exists year description,
    Parsed.year (parseFileName fileName) = Some year /\
    Parsed.description (parseFileName fileName) = Some description.
Proof.
  unfold parseFileName. split_cases; simpl; intros H; try discriminate; eauto.
Qed.

(** C9. Whenever [parseFileName] returns a record whose [isValid] is
    false, the record has [year] null, [amount] 0 and [isReimbursement]
    false: an invalid parse carries no part of a date, of an amount or
    of the reimbursement mark. *)
Theorem parseFileName_invalid_blank fileName :
  Parsed.isValid (parseFileName fileName) = false ->
  Parsed.year (parseFileName fileName) = None /\
  Parsed.amount (parseFileName fileName) = zero /\
  Parsed.isReimbursement (parseFileName fileName) = false.
Proof.
  unfold parseFileName. split_cases; simpl; intros H; try discriminate; auto.
Qed.

Lemma parseFileName_invalid_blank_witness :
  Parsed.isValid (parseFileName "2021-02-30 - x - $50.00.reimbursed.pdf") = false /\
  Parsed.year (parseFileName "2021-02-30 - x - $50.00.reimbursed.pdf") = None /\
  Parsed.amount (parseFileName "2021-02-30 - x - $50.00.reimbursed.pdf") = zero /\
  Parsed.isReimbursement (parseFileName "2021-02-30 - x - $50.00.reimbursed.pdf") = false.
Proof.
  split; [reflexivity|].
  apply (parseFileName_invalid_blank "2021-02-30 - x - $50.00.reimbursed.pdf").
  reflexivity.
Defined.

(* ================================================================== *)
(** * The loop of getTotalsByYear *)
(* ================================================================== *)

Lemma get_after_init {V} (categories : Obj.t V) category init :
  Obj.get (match Obj.get categories category with
           | Obj.Undefined => Obj.set category init categories
           | _ => categories
           end) category <> Obj.Undefined.
Proof.
  destruct (Obj.get categories category) eqn:E; try congruence.
  unfold Obj.get. now rewrite get_own_set_same.
Qed.

(** With the four dictionaries on the same years, recording a receipt
    never fails, and its effect is [state_after]. *)
Lemma record_receipt_eq st fileName year description amount reimb category :
  same_years st ->
  record_receipt st fileName year description amount reimb category
  = Ok (state_after st fileName year description amount reimb category).
Proof.
  intros (H1 & H2 & H3).
  assert (Hc : started (Totals.expensesByYear st) year = true ->
               exists cs, Obj.get_own (Totals.expensesByCategory st) year = Some cs).
  { unfold started. intros Hs.
    assert (Hk : Obj.get_own (Totals.expensesByCategory st) year <> None).
    { apply get_own_in_keys. rewrite <- H3, <- H2, <- H1.
      apply get_own_in_keys. destruct (Obj.get_own _ year); congruence. }
    destruct (Obj.get_own (Totals.expensesByCategory st) year); [eauto|congruence]. }
  unfold record_receipt, state_after, categories_after, started in *.
  cbv zeta.
  destruct (Obj.get_own (Totals.expensesByYear st) year) as [v|];
    [destruct (truthy v)|]; cbn [negb]; cbv iota.
  - destruct (Hc eq_refl) as (cs & Hcs). rewrite Hcs.
    pose proof (get_after_init cs category (Category.Build zero zero zero)) as Hn.
    destruct (Obj.get (match Obj.get cs category with
                       | Obj.Undefined => _ | _ => cs end) category);
      try congruence; destruct reimb; reflexivity.
  - rewrite get_own_set_same.
    pose proof (get_after_init (@Obj.empty Category.t) category
                               (Category.Build zero zero zero)) as Hn.
    destruct (Obj.get (match Obj.get Obj.empty category with
                       | Obj.Undefined => _ | _ => Obj.empty end) category);
      try congruence; destruct reimb; reflexivity.
  - rewrite get_own_set_same.
    pose proof (get_after_init (@Obj.empty Category.t) category
                               (Category.Build zero zero zero)) as Hn.
    destruct (Obj.get (match Obj.get Obj.empty category with
                       | Obj.Undefined => _ | _ => Obj.empty end) category);
      try congruence; destruct reimb; reflexivity.
Qed.

Lemma state_after_same_years st fileName year description amount reimb category :
  same_years st ->
  same_years (state_after st fileName year description amount reimb category).
Proof.
  intros (H1 & H2 & H3). unfold same_years, state_after. simpl.
  destruct (started (Totals.expensesByYear st) year) eqn:Es; simpl.
  - assert (He : Obj.get_own (Totals.expensesByYear st) year <> None).
    { unfold started in Es. destruct (Obj.get_own _ year); congruence. }
    assert (Hr : Obj.get_own (Totals.reimbursementsByYear st) year <> None).
    { apply get_own_in_keys. rewrite <- H1. now apply get_own_in_keys. }
    assert (Hn : Obj.get_own (Totals.receiptCounts st) year <> None).
    { apply get_own_in_keys. rewrite <- H2. now apply get_own_in_keys. }
    assert (Hc : Obj.get_own (Totals.expensesByCategory st) year <> None).
    { apply get_own_in_keys. rewrite <- H3. now apply get_own_in_keys. }
    destruct reimb; rewrite ?keys_set_present by assumption; auto.
  - assert (K1 : forall v w, Obj.keys (Obj.set year v (Totals.expensesByYear st))
                 = Obj.keys (Obj.set year w (Totals.reimbursementsByYear st)))
      by (intros; now apply keys_set).
    assert (K2 : forall v w, Obj.keys (Obj.set year v (Totals.reimbursementsByYear st))
                 = Obj.keys (Obj.set year w (Totals.receiptCounts st)))
      by (intros; now apply keys_set).
    assert (K3 : forall v (w : Obj.t Category.t),
                 Obj.keys (Obj.set year v (Totals.receiptCounts st))
                 = Obj.keys (Obj.set year w (Totals.expensesByCategory st)))
      by (intros; now apply keys_set).
    assert (P : forall {V} (o : Obj.t V) v w,
               Obj.keys (Obj.set year w (Obj.set year v o)) = Obj.keys (Obj.set year v o)).
    { intros. apply keys_set_present. rewrite get_own_set_same. discriminate. }
    destruct reimb; rewrite ?P; auto.
Qed.

(** The outcome of one turn of the loop, by the kind of entry. *)
Lemma process_file_hidden st fileName :
  Str.startsWith "." fileName = true -> process_file st fileName = Ok st.
Proof. unfold process_file. now intros ->. Qed.

Lemma process_file_invalid st fileName :
  Str.startsWith "." fileName = false ->
  Parsed.isValid (parseFileName fileName) = false ->
  process_file st fileName =
  Ok (Totals.Build (Totals.expensesByYear st) (Totals.reimbursementsByYear st)
        (Totals.receiptCounts st)
        (Totals.invalidFiles st ++
           [Invalid.Build fileName (Parsed.error (parseFileName fileName))])%list
        (Totals.expensesByCategory st) (Totals.validReceipts st)).
Proof. unfold process_file. now intros -> ->. Qed.

Lemma process_file_dropped st fileName :
  Parsed.isValid (parseFileName fileName) = true ->
  gt (Parsed.amount (parseFileName fileName)) zero = false ->
  process_file st fileName = Ok st.
Proof.
  intros Hv Ha. unfold process_file.
  destruct (Str.startsWith "." fileName); [reflexivity|].
  rewrite Hv. simpl.
  destruct (parse_valid_fields _ Hv) as (y & d & _ & ->). now rewrite Ha.
Qed.

Lemma process_file_recorded st fileName year description :
  same_years st ->
  Str.startsWith "." fileName = false ->
  Parsed.isValid (parseFileName fileName) = true ->
  Parsed.year (parseFileName fileName) = Some year ->
  Parsed.description (parseFileName fileName) = Some description ->
  gt (Parsed.amount (parseFileName fileName)) zero = true ->
  process_file st fileName =
  Ok (state_after st fileName year description
        (Parsed.amount (parseFileName fileName))
        (Parsed.isReimbursement (parseFileName fileName))
        (category_of description)).
Proof.
  intros Hs Hh Hv Hy Hd Ha. unfold process_file.
  rewrite Hh, Hv, Hd, Ha, Hy. simpl. now apply record_receipt_eq.
Qed.

Lemma process_file_turn st fileName :
  same_years st ->
  exists st', process_file st fileName = Ok st' /\ turn st fileName st' /\ same_years st'.
Proof.
  intros Hs.
  destruct (Str.startsWith "." fileName) eqn:Hh.
  { exists st. split; [now apply process_file_hidden|]. split; [now constructor|assumption]. }
  destruct (Parsed.isValid (parseFileName fileName)) eqn:Hv.
  2:{ eexists. split; [now apply process_file_invalid|].
      split; [now constructor|exact Hs]. }
  destruct (gt (Parsed.amount (parseFileName fileName)) zero) eqn:Ha.
  2:{ exists st. split; [now apply process_file_dropped|].
      split; [now apply turn_dropped|assumption]. }
  destruct (parse_valid_fields _ Hv) as (y & d & Hy & Hd).
  eexists. split; [now apply (process_file_recorded st fileName y d)|].
  split; [now apply turn_recorded|now apply state_after_same_years].
Qed.


Lemma same_years_empty : same_years Totals.empty.
Proof. repeat split. Qed.

(** ** Lookups in the state after a receipt *)

Section StateAfter.
Variables (st : Totals.t) (fileName year description : string)
          (amount : number) (reimb : bool) (category : string).

Let st' := state_after st fileName year description amount reimb category.

Lemma get_own_init_other {V} (b : bool) (v : V) (o : Obj.t V) y :
  year <> y -> Obj.get_own (if b then Obj.set year v o else o) y = Obj.get_own o y.
Proof. intros H. destruct b; [now apply get_own_set_other|reflexivity]. Qed.

Lemma expenses_after_other y :
  year <> y ->
  Obj.get_own (Totals.expensesByYear st') y
  = Obj.get_own (Totals.expensesByYear st) y.
Proof.
  intros H. unfold st', state_after. simpl.
  rewrite get_own_set_other by assumption. now apply get_own_init_other.
Qed.

Lemma reimbursements_after_other y :
  year <> y ->
  Obj.get_own (Totals.reimbursementsByYear st') y
  = Obj.get_own (Totals.reimbursementsByYear st) y.
Proof.
  intros H. unfold st', state_after. simpl.
  destruct reimb; rewrite ?get_own_set_other by assumption;
    now apply get_own_init_other.
Qed.

Lemma categories_after_other y :
  year <> y ->
  Obj.get_own (Totals.expensesByCategory st') y
  = Obj.get_own (Totals.expensesByCategory st) y.
Proof.
  intros H. unfold st', state_after. simpl.
  rewrite get_own_set_other by assumption. now apply get_own_init_other.
Qed.

(** The sum a year starts from: what it holds, or [0] for a year
    that is initialised by this receipt. *)
Lemma expenses_after_same :
  Obj.get_own (Totals.expensesByYear st') year
  = Some (round2 (add (if started (Totals.expensesByYear st) year
                       then num_at (Totals.expensesByYear st) year
                       else zero) amount)).
Proof.
  unfold st', state_after. simpl. rewrite get_own_set_same.
  destruct (started (Totals.expensesByYear st) year); simpl; [reflexivity|].
  unfold num_at. now rewrite get_own_set_same.
Qed.

Lemma reimbursements_after_same :
  Obj.get_own (Totals.expensesByYear st) year <> None ->
  Obj.get_own (Totals.reimbursementsByYear st) year <> None ->
  Obj.get_own (Totals.reimbursementsByYear st') year
  = Some (let r0 := if started (Totals.expensesByYear st) year
                    then num_at (Totals.reimbursementsByYear st) year
                    else zero in
          if reimb then round2 (add r0 amount) else r0).
Proof.
  intros He Hr. unfold st', state_after. simpl.
  destruct (started (Totals.expensesByYear st) year); simpl.
  - destruct reimb; [now rewrite get_own_set_same|].
    unfold num_at. destruct (Obj.get_own (Totals.reimbursementsByYear st) year);
      congruence.
  - destruct reimb; rewrite ?get_own_set_same; unfold num_at;
      now rewrite ?get_own_set_same.
Qed.

Lemma reimbursements_after_fresh :
  started (Totals.expensesByYear st) year = false ->
  Obj.get_own (Totals.reimbursementsByYear st') year
  = Some (if reimb then round2 (add zero amount) else zero).
Proof.
  intros Hs. unfold st', state_after. simpl. rewrite Hs. simpl.
  destruct reimb; rewrite ?get_own_set_same; unfold num_at;
    now rewrite ?get_own_set_same.
Qed.

Lemma categories_after_same :
  Obj.get_own (Totals.expensesByCategory st') year
  = Some (categories_after
            (if started (Totals.expensesByYear st) year
             then match Obj.get_own (Totals.expensesByCategory st) year with
                  | Some cs => cs
                  | None => Obj.empty
                  end
             else Obj.empty)
            category amount reimb).
Proof.
  unfold st', state_after. simpl. rewrite get_own_set_same.
  destruct (started (Totals.expensesByYear st) year); simpl; [reflexivity|].
  now rewrite get_own_set_same.
Qed.

Lemma receipts_after :
  Totals.validReceipts st'
  = (Totals.validReceipts st ++
     [Receipt.Build (hd EmptyString (Str.split " - " fileName)) year
                    description amount reimb category])%list.
Proof. reflexivity. Qed.

End StateAfter.


(** ** The years of the four dictionaries *)



(** C8. An entry whose name parses as valid but whose amount is not
    above 0 changes nothing: the state after it is the state before it,
    so that it reaches no aggregate and no list, [invalidFiles]
    included; the result for a listing is the result for the listing
    without that entry. *)
Theorem zero_amount_dropped (before after : list string) (fileName : string) :
  Parsed.isValid (parseFileName fileName) = true ->
  gt (Parsed.amount (parseFileName fileName)) zero = false ->
  (forall st, process_file st fileName = Ok st) /\
  getTotalsByYear (Ok (before ++ fileName :: after)%list)
  = getTotalsByYear (Ok (before ++ after)%list).
Proof.
  intros Hv Ha.
  assert (Hd : forall st, process_file st fileName = Ok st)
    by (intros; now apply process_file_dropped).
  split; [exact Hd|].
  simpl. generalize Totals.empty.
  induction before as [|f rest IH]; intros st; simpl.
  - now rewrite Hd.
  - destruct (process_file st f); [apply IH|reflexivity].
Qed.

Lemma zero_amount_dropped_witness :
  (forall st, process_file st "2021-03-04 - josh exam - $0.00.pdf" = Ok st) /\
  getTotalsByYear
    (Ok (["2021-01-01 - josh doctor - $50.00.pdf"] ++
         "2021-03-04 - josh exam - $0.00.pdf" ::
         ["2021-05-06 - jane dentist - $30.00.reimbursed.pdf"; "notes.txt"])%list)
  = getTotalsByYear
      (Ok (["2021-01-01 - josh doctor - $50.00.pdf"] ++
           ["2021-05-06 - jane dentist - $30.00.reimbursed.pdf"; "notes.txt"])%list).
Proof.
  apply (zero_amount_dropped
           ["2021-01-01 - josh doctor - $50.00.pdf"]
           ["2021-05-06 - jane dentist - $30.00.reimbursed.pdf"; "notes.txt"]
           "2021-03-04 - josh exam - $0.00.pdf"); reflexivity.
Defined.

(* ================================================================== *)
(** * The order of numbers *)
(* ================================================================== *)





(* ================================================================== *)
(** * The most expensive year *)
(* ================================================================== *)

Section MostExpensive.
Variable expensesByYear : Obj.t number.

Let value (year : string) : number := or_zero expensesByYear year.


End MostExpensive.


(* ================================================================== *)
(** * The report *)
(* ================================================================== *)

Section Report.
Variables (expensesByYear reimbursementsByYear receiptCounts : Obj.t number)
          (expensesByCategory : Obj.t (Obj.t Category.t)).

Let step := report_year expensesByYear reimbursementsByYear receiptCounts
                        expensesByCategory.

(** The three totals of the loop are the sums of the values of the
    listed years, added in the order of the list. *)
Lemma report_totals years :
  forall acc,
    let final := fold_left step years acc in
    Report.totalExpenses final
    = fold_left add (List.map (or_zero expensesByYear) years)
                (Report.totalExpenses acc) /\
    Report.totalReimbursements final
    = fold_left add (List.map (or_zero reimbursementsByYear) years)
                (Report.totalReimbursements acc) /\
    Report.totalReceipts final
    = fold_left add (List.map (or_zero receiptCounts) years)
                (Report.totalReceipts acc).
Proof.
  induction years as [|y years IH]; intros acc; simpl; [auto|].
  apply (IH (step acc y)).
Qed.

End Report.


(* ================================================================== *)
(** * Rounding to a double *)
(* ================================================================== *)

Section Rounding.

Lemma digits2_pos_size p : digits2_pos p = Pos.size p.
Proof. induction p; simpl; congruence. Qed.

Lemma Zdigits2_log2 m : 0 < m -> Zdigits2 m = Z.log2 m + 1.
Proof.
  destruct m as [|p|p]; try lia. intros _. simpl.
  rewrite digits2_pos_size. destruct p; simpl; lia.
Qed.

Lemma Zdigits2_nonneg m : 0 <= Zdigits2 m.
Proof. destruct m; simpl; lia. Qed.

Lemma Zdigits2_le m k : 0 <= m < 2 ^ k -> 0 <= k -> Zdigits2 m <= k.
Proof.
  intros [H0 H1] Hk. destruct (Z.eq_dec m 0) as [->|Hn]; [simpl; lia|].
  rewrite Zdigits2_log2 by lia.
  apply Z.log2_lt_pow2 in H1; lia.
Qed.

Lemma Zdigits2_succ m : 0 <= m -> Zdigits2 (m + 1) <= Zdigits2 m + 1.
Proof.
  intros H. destruct (Z.eq_dec m 0) as [->|Hn]; [simpl; lia|].
  rewrite !Zdigits2_log2 by lia.
  pose proof (Z.log2_succ_le m). unfold Z.succ in *. lia.
Qed.

Lemma Zdigits2_div_pow2 m n :
  0 < m -> 0 <= n -> 0 < m / 2 ^ n -> Zdigits2 (m / 2 ^ n) = Zdigits2 m - n.
Proof.
  intros Hm Hn Hq. rewrite !Zdigits2_log2 by lia.
  rewrite <- Z.shiftr_div_pow2 in * by lia.
  rewrite Z.log2_shiftr by lia.
  assert (n <= Z.log2 m).
  { destruct (Z_lt_le_dec (Z.log2 m) n) as [Hlt|]; [|lia].
    rewrite Z.shiftr_eq_0 in Hq by lia. lia. }
  lia.
Qed.

Lemma shr_1_m mrs : 0 <= shr_m mrs -> shr_m (shr_1 mrs) = shr_m mrs / 2.
Proof.
  destruct mrs as [m r s]. simpl. intros H.
  destruct m as [|[p|p|]|p]; simpl; try lia; try reflexivity.
  - change (Z.pos p~1) with (2 * Z.pos p + 1). apply Z.div_unique with 1; lia.
  - change (Z.pos p~0) with (2 * Z.pos p). apply Z.div_unique with 0; lia.
Qed.

Lemma iter_shr_1_m p : forall mrs,
  0 <= shr_m mrs ->
  shr_m (iter_pos shr_1 p mrs) = shr_m mrs / 2 ^ Zpos p.
Proof.
  assert (Hnn : forall mrs, 0 <= shr_m mrs -> 0 <= shr_m (shr_1 mrs)).
  { intros mrs H. rewrite shr_1_m by assumption. apply Z.div_pos; lia. }
  induction p as [p IH|p IH|]; intros mrs H; cbn [iter_pos].
  - rewrite IH, IH, shr_1_m; auto.
    + rewrite !Z.div_div by lia. f_equal.
      change (Z.pos p~1) with (2 * Z.pos p + 1).
      replace (2 * Z.pos p + 1) with (1 + Z.pos p + Z.pos p) by lia.
      rewrite !Z.pow_add_r by lia. lia.
    + rewrite IH by auto. apply Z.div_pos; auto. lia.
  - rewrite IH, IH; auto.
    + rewrite !Z.div_div by lia. f_equal.
      change (Z.pos p~0) with (2 * Z.pos p).
      replace (2 * Z.pos p) with (Z.pos p + Z.pos p) by lia.
      rewrite !Z.pow_add_r by lia. lia.
    + rewrite IH by auto. apply Z.div_pos; auto. lia.
  - rewrite shr_1_m by assumption. now rewrite Z.pow_1_r.
Qed.

Lemma shr_spec mrs e n :
  0 <= shr_m mrs ->
  shr_m (fst (shr mrs e n)) = shr_m mrs / 2 ^ Z.max 0 n /\
  snd (shr mrs e n) = e + Z.max 0 n.
Proof.
  intros H. destruct n as [|p|p]; simpl.
  - rewrite Z.div_1_r. lia.
  - rewrite iter_shr_1_m by assumption. split; [reflexivity|lia].
  - rewrite Z.div_1_r. lia.
Qed.

Lemma shr_m_of_loc m l : shr_m (shr_record_of_loc m l) = m.
Proof. destruct l as [|[]]; reflexivity. Qed.

Lemma shr_fexp_spec m e l :
  0 <= m ->
  shr_m (fst (shr_fexp prec emax m e l)) = m / 2 ^ shift_of m e /\
  snd (shr_fexp prec emax m e l) = e + shift_of m e.
Proof.
  intros H. unfold shr_fexp, shift_of.
  pose proof (shr_spec (shr_record_of_loc m l) e
                (fexp prec emax (Zdigits2 m + e) - e)) as Hs.
  rewrite shr_m_of_loc in Hs. auto.
Qed.

Lemma round_nearest_even_range q l :
  q <= round_nearest_even q l <= q + 1.
Proof.
  destruct l as [|[]]; simpl; try lia. destruct (Z.even q); lia.
Qed.

(** After the first shift the mantissa fits the format. *)
Lemma fexp_after_shift m e :
  0 <= m ->
  fexp prec emax (Zdigits2 (m / 2 ^ shift_of m e) + (e + shift_of m e))
  <= e + shift_of m e.
Proof.
  intros Hm. unfold shift_of.
  set (d := Zdigits2 m).
  destruct (Z_le_gt_dec (fexp prec emax (d + e) - e) 0) as [Hle|Hgt].
  - rewrite Z.max_l by lia. rewrite Z.pow_0_r, Z.div_1_r. fold d.
    unfold fexp, emin, prec, emax in *. lia.
  - rewrite Z.max_r by lia.
    set (n := fexp prec emax (d + e) - e) in *.
    destruct (Z.eq_dec (m / 2 ^ n) 0) as [Hq|Hq].
    + rewrite Hq. simpl. unfold fexp, emin, prec, emax in *. lia.
    + assert (0 <= m / 2 ^ n) by (apply Z.div_pos; lia).
      assert (0 < m).
      { destruct (Z.eq_dec m 0) as [->|]; [|lia]. rewrite Z.div_0_l in Hq; lia. }
      rewrite Zdigits2_div_pow2 by lia. fold d.
      replace (d - n + (e + n)) with (d + e) by lia. unfold n. lia.
Qed.

Lemma fexp_succ z : fexp prec emax (z + 1) <= fexp prec emax z + 1.
Proof. unfold fexp, emin, prec, emax. lia. Qed.

Lemma fexp_le z z' : z <= z' -> fexp prec emax z <= fexp prec emax z'.
Proof. unfold fexp, emin, prec, emax. lia. Qed.

(** What [binary_round_aux] returns for a mantissa that is not
    negative: with [q] the mantissa shifted to its format and [e1]
    its exponent, a mantissa [m2] and an exponent [e1 + n2] whose
    value lies between [q * 2^e1] and [(q + 1) * 2^e1]. *)
Lemma binary_round_aux_spec m e l :
  0 <= m ->
  let q := m / 2 ^ shift_of m e in
  let e1 := e + shift_of m e in
  exists m2 n2,
    0 <= n2 <= 1 /\ 0 <= m2 /\ q <= m2 * 2 ^ n2 <= q + 1 /\
    binary_round_aux prec emax false m e l =
    match m2 with
    | Z0 => S754_zero false
    | Zpos p => if e1 + n2 <=? emax - prec
                then S754_finite false p (e1 + n2)
                else S754_infinity false
    | Zneg _ => S754_nan
    end.
Proof.
  intros Hm q e1. unfold binary_round_aux.
  destruct (shr_fexp_spec m e l Hm) as [H1 H2].
  destruct (shr_fexp prec emax m e l) as [mrs' e'] eqn:E1. simpl in H1, H2.
  fold q in H1. fold e1 in H2. subst e'.
  set (m1 := round_nearest_even (shr_m mrs') (loc_of_shr_record mrs')).
  assert (Hq : 0 <= q) by (apply Z.div_pos; [lia|apply Z.pow_pos_nonneg; unfold shift_of; lia]).
  assert (Hm1 : q <= m1 <= q + 1).
  { unfold m1. rewrite H1. apply round_nearest_even_range. }
  assert (H0m1 : 0 <= m1) by lia.
  destruct (shr_fexp_spec m1 e1 loc_Exact H0m1) as [H3 H4].
  destruct (shr_fexp prec emax m1 e1 loc_Exact) as [mrs'' e''] eqn:E2.
  simpl in H3, H4.
  pose proof (fexp_after_shift m e Hm) as HA. fold q e1 in HA.
  assert (Hn2 : 0 <= shift_of m1 e1 <= 1).
  { unfold shift_of. split; [lia|].
    assert (Zdigits2 m1 <= Zdigits2 q + 1).
    { destruct (Z.eq_dec m1 q) as [->|]; [lia|].
      replace m1 with (q + 1) by lia. now apply Zdigits2_succ. }
    pose proof (fexp_le (Zdigits2 m1 + e1) (Zdigits2 q + e1 + 1)).
    pose proof (fexp_succ (Zdigits2 q + e1)). lia. }
  exists (shr_m mrs''), (shift_of m1 e1).
  split; [exact Hn2|]. rewrite H3, H4.
  assert (Hd : 0 <= m1 / 2 ^ shift_of m1 e1)
    by (apply Z.div_pos; [lia|apply Z.pow_pos_nonneg; lia]).
  split; [exact Hd|]. split.
  - destruct (Z.eq_dec (shift_of m1 e1) 0) as [->|Hne].
    + rewrite Z.pow_0_r, Z.div_1_r. lia.
    + replace (shift_of m1 e1) with 1 by lia.
      rewrite Z.pow_1_r.
      assert (m1 <> q).
      { intros ->. unfold shift_of in Hne. lia. }
      pose proof (Z.div_mod m1 2 ltac:(lia)).
      pose proof (Z.mod_pos_bound m1 2 ltac:(lia)). lia.
  - destruct (m1 / 2 ^ shift_of m1 e1); reflexivity.
Qed.

End Rounding.

(** ** Values in units of [2^-1074] *)

Lemma unit_at_pos e : -1074 <= e -> 0 < unit_at e.
Proof. intros H. unfold unit_at. apply Z.pow_pos_nonneg; lia. Qed.

Lemma unit_at_add e n : -1074 <= e -> 0 <= n -> unit_at (e + n) = 2 ^ n * unit_at e.
Proof.
  intros He Hn. unfold unit_at.
  replace (e + n + 1074) with (n + (e + 1074)) by lia.
  apply Z.pow_add_r; lia.
Qed.

Lemma unit_at_le e e' : -1074 <= e <= e' -> unit_at e <= unit_at e'.
Proof. intros H. unfold unit_at. apply Z.pow_le_mono_r; lia. Qed.

Lemma shift_of_exponent m e :
  -1074 <= e + shift_of m e /\
  e + shift_of m e = Z.max e (fexp prec emax (Zdigits2 m + e)).
Proof. unfold shift_of, fexp, emin, prec, emax. lia. Qed.

(** [binary_round_aux] in scaled values: the result and the value
    [m * 2^e] both lie between [q] and [q + 1] units of the format. *)
Lemma binary_round_aux_scaled m e l :
  0 <= m -> -1074 <= e ->
  e + shift_of m e + 1 <= emax - prec ->
  let q := m / 2 ^ shift_of m e in
  let e1 := e + shift_of m e in
  let r := binary_round_aux prec emax false m e l in
  (r = S754_zero false \/
   exists p e2, r = S754_finite false p e2 /\ e1 <= e2 <= e1 + 1) /\
  q * unit_at e1 <= scaled r <= (q + 1) * unit_at e1 /\
  q * unit_at e1 <= m * unit_at e /\
  (m + 1) * unit_at e <= (q + 1) * unit_at e1.
Proof.
  intros Hm He Hmax q e1 r.
  destruct (binary_round_aux_spec m e l Hm) as (m2 & n2 & Hn2 & Hm2 & Hq & Hr).
  fold q e1 r in Hq, Hr.
  assert (Hs : 0 <= shift_of m e) by (unfold shift_of; lia).
  assert (Hu : 0 < unit_at e) by now apply unit_at_pos.
  assert (Hu1 : unit_at e1 = 2 ^ shift_of m e * unit_at e)
    by (unfold e1; now apply unit_at_add).
  assert (Hp : 0 < 2 ^ shift_of m e) by (apply Z.pow_pos_nonneg; lia).
  assert (Hdiv : q * 2 ^ shift_of m e <= m < (q + 1) * 2 ^ shift_of m e).
  { unfold q. pose proof (Z.div_mod m (2 ^ shift_of m e) ltac:(lia)).
    pose proof (Z.mod_pos_bound m (2 ^ shift_of m e) Hp). nia. }
  assert (He1 : -1074 <= e1) by (unfold e1; lia).
  assert (Hu1p : 0 < unit_at e1) by now apply unit_at_pos.
  repeat split.
  - destruct m2 as [|p|p]; [now left| |lia]. right.
    rewrite Hr. replace (e1 + n2 <=? emax - prec) with true
      by (symmetry; apply Z.leb_le; lia).
    exists p, (e1 + n2). split; [reflexivity|lia].
  - rewrite Hr. destruct m2 as [|p|p]; [simpl; nia| |lia].
    replace (e1 + n2 <=? emax - prec) with true
      by (symmetry; apply Z.leb_le; lia).
    change (scaled (S754_finite false p (e1 + n2)))
      with (Zpos p * unit_at (e1 + n2)).
    rewrite unit_at_add, Z.mul_assoc by lia.
    apply Z.mul_le_mono_nonneg_r; lia.
  - rewrite Hr. destruct m2 as [|p|p]; [simpl; nia| |lia].
    replace (e1 + n2 <=? emax - prec) with true
      by (symmetry; apply Z.leb_le; lia).
    change (scaled (S754_finite false p (e1 + n2)))
      with (Zpos p * unit_at (e1 + n2)).
    rewrite unit_at_add, Z.mul_assoc by lia.
    apply Z.mul_le_mono_nonneg_r; lia.
  - rewrite Hu1, Z.mul_assoc. apply Z.mul_le_mono_nonneg_r; lia.
  - rewrite Hu1, Z.mul_assoc. apply Z.mul_le_mono_nonneg_r; lia.
Qed.

Lemma unit_at_0 : unit_at 0 = 2 ^ 1074.
Proof. reflexivity. Qed.

Lemma unit_at_split e n : -1074 <= e -> 0 <= n -> unit_at e * 2 ^ n = unit_at (e + n).
Proof. intros. rewrite unit_at_add by lia. lia. Qed.

(** ** Division *)

Lemma div_core_spec p q :
  forall mz ez lz,
    SFdiv_core_binary prec emax (Zpos p) 0 (Zpos q) 0 = (mz, ez, lz) ->
    ez = Z.min (fexp prec emax (Zdigits2 (Zpos p) - Zdigits2 (Zpos q))) 0 /\
    mz = (Zpos p * 2 ^ (- ez)) / Zpos q.
Proof.
  intros mz ez lz. unfold SFdiv_core_binary.
  replace (Zdigits2 (Z.pos p) + 0 - (Zdigits2 (Z.pos q) + 0))
    with (Zdigits2 (Z.pos p) - Zdigits2 (Z.pos q)) by lia.
  change (0 - 0) with 0.
  set (e' := Z.min (fexp prec emax (Zdigits2 (Z.pos p) - Zdigits2 (Z.pos q))) 0).
  assert (He' : e' <= 0) by (unfold e'; lia).
  set (m' := match 0 - e' with
             | Zpos _ => Z.shiftl (Zpos p) (0 - e')
             | Z0 => Zpos p
             | Zneg _ => 0
             end).
  assert (Hm' : m' = Zpos p * 2 ^ (- e')).
  { unfold m'. replace (0 - e') with (- e') by lia.
    destruct (- e') as [|s|s] eqn:Es; try lia.
    rewrite Z.shiftl_mul_pow2 by lia. reflexivity. }
  destruct (Z.div_eucl m' (Zpos q)) as [a b] eqn:Ed.
  intros H. injection H as <- <- _. split; [reflexivity|].
  rewrite <- Hm'. unfold Z.div. now rewrite Ed.
Qed.

(** The double nearest to [c / 100], for an amount of [c] cents below
    [2^t] dollars: a positive finite number within a unit of exponent
    [t - 53] of [c / 100]. *)
Lemma money_spec c t :
  1 <= c < 100 * 2 ^ t -> 0 <= t <= 44 ->
  exists p e,
    of_ratio c 100 = S754_finite false p e /\
    -1074 <= e <= t - 52 /\
    Z.abs (100 * scaled (of_ratio c 100) - c * unit_at 0) <= 100 * unit_at (t - 53).
Proof.
  intros Hc Ht. destruct c as [|c|c]; try lia.
  unfold of_ratio, SFdiv.
  destruct (SFdiv_core_binary prec emax (Zpos c) 0 100 0) as [[mz ez] lz] eqn:Ed.
  destruct (div_core_spec c 100 mz ez lz Ed) as [Hez Hmz].
  change (Zdigits2 100) with 7 in Hez.
  change (xorb false false) with false.
  assert (H2t : 0 < 2 ^ t) by (apply Z.pow_pos_nonneg; lia).
  assert (Hd1 : Zdigits2 (Zpos c) <= t + 7).
  { apply Zdigits2_le; [|lia]. rewrite Z.pow_add_r by lia.
    change (2 ^ 7) with 128. lia. }
  assert (Hez' : -1074 <= ez <= t - 53)
    by (unfold fexp, emin, prec, emax in Hez; lia).
  set (s := - ez) in *.
  assert (H2s : 0 < 2 ^ s) by (apply Z.pow_pos_nonneg; lia).
  assert (Hdm : 100 * mz <= Zpos c * 2 ^ s < 100 * (mz + 1)).
  { pose proof (Z.div_mod (Zpos c * 2 ^ s) 100 ltac:(lia)).
    pose proof (Z.mod_pos_bound (Zpos c * 2 ^ s) 100 ltac:(lia)).
    rewrite <- Hmz in *. lia. }
  assert (Hmz0 : 0 <= mz) by (rewrite Hmz; apply Z.div_pos; lia).
  assert (Hmzt : mz < 2 ^ (t + s)) by (rewrite Z.pow_add_r by lia; nia).
  assert (Hdz : Zdigits2 mz <= t + s) by (apply Zdigits2_le; lia).
  destruct (shift_of_exponent mz ez) as [He1 He1'].
  assert (He1t : ez + shift_of mz ez <= t - 53).
  { rewrite He1'. unfold fexp, emin, prec, emax. lia. }
  destruct (binary_round_aux_scaled mz ez lz Hmz0 ltac:(lia)
              ltac:(unfold emax, prec; lia)) as (Hr & Hs & Hlo & Hhi).
  set (q := mz / 2 ^ shift_of mz ez) in *.
  set (e1 := ez + shift_of mz ez) in *.
  set (r := binary_round_aux prec emax false mz ez lz) in *.
  assert (HT : unit_at 0 = 2 ^ s * unit_at ez).
  { rewrite <- unit_at_add by lia. f_equal. lia. }
  assert (Hu : 0 < unit_at ez) by (apply unit_at_pos; lia).
  assert (HU : 0 < unit_at e1) by (apply unit_at_pos; lia).
  assert (HUt : unit_at e1 <= unit_at (t - 53)) by (apply unit_at_le; lia).
  assert (Hbound : Z.abs (100 * scaled r - Zpos c * unit_at 0) <= 100 * unit_at e1).
  { rewrite HT.
    assert (100 * mz * unit_at ez <= Zpos c * 2 ^ s * unit_at ez)
      by (apply Z.mul_le_mono_nonneg_r; lia).
    assert (Zpos c * 2 ^ s * unit_at ez <= 100 * (mz + 1) * unit_at ez)
      by (apply Z.mul_le_mono_nonneg_r; lia).
    lia. }
  assert (Hsmall : 100 * unit_at (t - 53) < unit_at 0).
  { assert (unit_at (t - 53) <= unit_at (-9)) by (apply unit_at_le; lia).
    assert (unit_at 0 = 2 ^ 9 * unit_at (-9))
      by (rewrite <- unit_at_add by lia; reflexivity).
    assert (0 < unit_at (-9)) by (apply unit_at_pos; lia).
    change (2 ^ 9) with 512 in *. lia. }
  destruct Hr as [Hr|(p & e2 & Hr & He2)].
  - exfalso. rewrite Hr in Hbound. change (scaled (S754_zero false)) with 0 in Hbound. nia.
  - exists p, e2. split; [exact Hr|]. split; [lia|]. lia.
Qed.

(** ** Cents *)

Lemma scaled_round_cents p e c :
  -1074 <= e < 0 ->
  - unit_at 0 <= 200 * scaled (S754_finite false p e) - 2 * c * unit_at 0 < unit_at 0 ->
  scaled_round (Zpos p) e 2 = c.
Proof.
  intros He H. unfold scaled_round.
  replace (0 <=? e) with false by (symmetry; apply Z.leb_gt; lia).
  change (10 ^ Z.of_nat 2) with 100.
  change (scaled (S754_finite false p e)) with (Zpos p * unit_at e) in H.
  assert (HT : unit_at 0 = 2 ^ (- e) * unit_at e).
  { rewrite <- unit_at_add by lia. f_equal. lia. }
  assert (Hu : 0 < unit_at e) by (apply unit_at_pos; lia).
  assert (HE : 0 < 2 ^ (- e)) by (apply Z.pow_pos_nonneg; lia).
  replace (- e + 1) with (1 + - e) by lia.
  rewrite Z.pow_add_r by lia. change (2 ^ 1) with 2.
  set (E := 2 ^ (- e)) in *. set (G := unit_at e) in *.
  rewrite HT in H.
  symmetry. apply Z.div_unique with (2 * (Zpos p * 100) + E - 2 * E * c).
  - left. split.
    + assert (0 <= (200 * Zpos p + E - 2 * E * c) * G) by nia. nia.
    + assert ((200 * Zpos p + E - 2 * E * c) * G < 2 * E * G) by nia. nia.
  - lia.
Qed.

(** ** Addition *)

Lemma iter_xO m d : Zpos (Pos.iter xO m d) = Zpos m * 2 ^ Zpos d.
Proof.
  induction d as [|d IH] using Pos.peano_ind.
  - simpl. lia.
  - rewrite Pos.iter_succ. change (Zpos (Pos.iter xO m d)~0) with (2 * Zpos (Pos.iter xO m d)).
    rewrite IH, Pos2Z.inj_succ, Z.pow_succ_r by lia. lia.
Qed.

Lemma shl_align_spec m e e' :
  snd (shl_align m e e') = Z.min e e' /\
  Zpos (fst (shl_align m e e')) = Zpos m * 2 ^ (e - Z.min e e').
Proof.
  unfold shl_align. destruct (e' - e) as [|d|d] eqn:Ed; cbn [fst snd].
  - rewrite Z.min_l by lia. rewrite Z.sub_diag, Z.pow_0_r. lia.
  - rewrite Z.min_l by lia. rewrite Z.sub_diag, Z.pow_0_r. lia.
  - rewrite Z.min_r by lia. split; [reflexivity|].
    rewrite iter_xO. f_equal. f_equal. lia.
Qed.

Lemma shl_align_scaled m e e' :
  -1074 <= e -> -1074 <= e' ->
  Zpos (fst (shl_align m e e')) * unit_at (snd (shl_align m e e')) = Zpos m * unit_at e.
Proof.
  intros He He'. destruct (shl_align_spec m e e') as [-> ->].
  rewrite <- Z.mul_assoc. f_equal.
  rewrite Z.mul_comm, unit_at_split by lia. f_equal. lia.
Qed.

(** The sum of two positive numbers whose exponents are at most [k],
    when it stays below [2^t] with [t - 53 <= k]: zero or a positive
    finite number within a unit of exponent [k] of the exact sum. *)
Lemma add_scaled pa ea pb eb t k :
  -1074 <= ea <= k -> -1074 <= eb <= k -> k + 1 <= emax - prec ->
  0 <= t -> t - 53 <= k <= t ->
  let x := S754_finite false pa ea in
  let y := S754_finite false pb eb in
  scaled x + scaled y < unit_at t ->
  (add x y = S754_zero false \/
   exists p e, add x y = S754_finite false p e /\ -1074 <= e <= k + 1) /\
  Z.abs (scaled (add x y) - (scaled x + scaled y)) <= unit_at k.
Proof.
  intros Hea Heb Hk Ht Htk x y HS.
  unfold add, x, y, SFadd.
  set (ez := Z.min ea eb).
  destruct (shl_align_spec pa ea ez) as [_ Ha].
  destruct (shl_align_spec pb eb ez) as [_ Hb].
  replace (Z.min ea ez) with ez in Ha by (unfold ez; lia).
  replace (Z.min eb ez) with ez in Hb by (unfold ez; lia).
  unfold cond_Zopp.
  set (ma := fst (shl_align pa ea ez)) in *.
  set (mb := fst (shl_align pb eb ez)) in *.
  change (Zpos ma + Zpos mb) with (Zpos (ma + mb)).
  unfold binary_normalize, binary_round.
  set (mz := (ma + mb)%positive).
  assert (Hez : -1074 <= ez <= k) by (unfold ez; lia).
  assert (Hsum : Zpos mz * unit_at ez = scaled x + scaled y).
  { unfold mz, x, y.
    change (scaled (S754_finite false pa ea)) with (Zpos pa * unit_at ea).
    change (scaled (S754_finite false pb eb)) with (Zpos pb * unit_at eb).
    rewrite Pos2Z.inj_add, Z.mul_add_distr_r, Ha, Hb.
    rewrite <- !Z.mul_assoc, !(Z.mul_comm (2 ^ _)), !unit_at_split by lia.
    f_equal; f_equal; f_equal; lia. }
  set (ef := fexp prec emax (Zpos (digits2_pos mz) + ez)).
  assert (Hef : -1074 <= ef) by (unfold ef, fexp, emin, prec, emax; lia).
  pose proof (shl_align_scaled mz ez ef ltac:(lia) Hef) as Hal.
  destruct (shl_align_spec mz ez ef) as [Hez' _].
  destruct (shl_align mz ez ef) as [mz' ez'] eqn:Eal. cbn [fst snd] in Hal, Hez'.
  cbv iota beta.
  assert (Hez'b : -1074 <= ez' <= k) by lia.
  assert (Hu' : 0 < unit_at ez') by (apply unit_at_pos; lia).
  assert (Hlt : Zpos mz' < 2 ^ (t - ez')).
  { assert (Zpos mz' * unit_at ez' < 2 ^ (t - ez') * unit_at ez'); [|nia].
    rewrite Z.mul_comm with (n := 2 ^ (t - ez')), unit_at_split by lia.
    replace (ez' + (t - ez')) with t by lia. unfold x, y in *. lia. }
  assert (Hdz : Zdigits2 (Zpos mz') <= t - ez') by (apply Zdigits2_le; lia).
  destruct (shift_of_exponent (Zpos mz') ez') as [He1 He1'].
  assert (He1k : ez' + shift_of (Zpos mz') ez' <= k).
  { rewrite He1'. unfold fexp, emin, prec, emax in *. lia. }
  destruct (binary_round_aux_scaled (Zpos mz') ez' loc_Exact ltac:(lia) ltac:(lia)
              ltac:(lia)) as (Hr & Hs & Hlo & Hhi).
  set (q := Zpos mz' / 2 ^ shift_of (Zpos mz') ez') in *.
  set (e1 := ez' + shift_of (Zpos mz') ez') in *.
  set (r := binary_round_aux prec emax false (Zpos mz') ez' loc_Exact) in *.
  assert (HU : 0 < unit_at e1) by (apply unit_at_pos; lia).
  assert (HUk : unit_at e1 <= unit_at k) by (apply unit_at_le; lia).
  split.
  - destruct Hr as [Hr|(p & e2 & Hr & He2)]; [now left|right].
    exists p, e2. split; [exact Hr|lia].
  - unfold x, y in Hsum. rewrite <- Hsum, <- Hal. lia.
Qed.

(** ** Amounts in cents *)

Lemma unit_at_0_eq k : -1074 <= k <= 0 -> unit_at 0 = 2 ^ (- k) * unit_at k.
Proof. intros H. rewrite <- unit_at_add by lia. f_equal. lia. Qed.

(** Below ten trillion dollars, the double of an amount rounds back to
    its cents. *)
Lemma money_cents c :
  1 <= c < 10 ^ 15 ->
  exists p e,
    money c = S754_finite false p e /\ -1074 <= e < 0 /\
    scaled_round (Zpos p) e 2 = c.
Proof.
  intros Hc. unfold money.
  destruct (money_spec c 44) as (p & e & Hm & He & Hb);
    [change (2 ^ 44) with 17592186044416; change (10 ^ 15) with 1000000000000000 in Hc; lia|lia|].
  exists p, e. split; [exact Hm|]. split; [lia|].
  apply scaled_round_cents; [lia|].
  rewrite Hm in Hb.
  pose proof (unit_at_0_eq (-9) ltac:(lia)) as HT.
  change (44 - 53) with (-9) in Hb. change (2 ^ (- -9)) with 512 in HT.
  assert (0 < unit_at (-9)) by (apply unit_at_pos; lia).
  lia.
Qed.

(** Below a trillion dollars, the sum of the doubles of two amounts
    rounds to the cents of their sum. *)
Lemma add_money_cents a b :
  1 <= a -> 1 <= b -> a + b < 10 ^ 14 ->
  exists p e,
    add (money a) (money b) = S754_finite false p e /\ -1074 <= e < 0 /\
    scaled_round (Zpos p) e 2 = a + b.
Proof.
  intros Ha Hb Hab. change (10 ^ 14) with 100000000000000 in Hab.
  destruct (money_spec a 40) as (pa & ea & Hma & Hea & Hba);
    [change (2 ^ 40) with 1099511627776; lia|lia|].
  destruct (money_spec b 40) as (pb & eb & Hmb & Heb & Hbb);
    [change (2 ^ 40) with 1099511627776; lia|lia|].
  unfold money.
  change (40 - 53) with (-13) in *. change (40 - 52) with (-12) in *.
  pose proof (unit_at_0_eq (-13) ltac:(lia)) as HT13.
  pose proof (unit_at_0_eq (-12) ltac:(lia)) as HT12.
  change (2 ^ (- -13)) with 8192 in HT13. change (2 ^ (- -12)) with 4096 in HT12.
  assert (H13 : 0 < unit_at (-13)) by (apply unit_at_pos; lia).
  assert (H41 : unit_at 41 = 2 ^ 41 * unit_at 0)
    by (rewrite <- unit_at_add by lia; reflexivity).
  change (2 ^ 41) with 2199023255552 in H41.
  rewrite Hma, Hmb in *.
  assert (H0 : 0 < unit_at 0) by (apply unit_at_pos; lia).
  assert (Hsum : (a + b) * unit_at 0 <= 99999999999999 * unit_at 0)
    by (apply Z.mul_le_mono_nonneg_r; lia).
  assert (Ha1 : 1 * unit_at 0 <= a * unit_at 0)
    by (apply Z.mul_le_mono_nonneg_r; lia).
  assert (Hb1 : 1 * unit_at 0 <= b * unit_at 0)
    by (apply Z.mul_le_mono_nonneg_r; lia).
  assert (HS : scaled (S754_finite false pa ea) + scaled (S754_finite false pb eb)
               < unit_at 41) by lia.
  pose proof (add_scaled pa ea pb eb 41 (-12) ltac:(lia) ltac:(lia)
                ltac:(unfold emax, prec; lia) ltac:(lia) ltac:(lia) HS) as H.
  cbv zeta in H. destruct H as (Hr & Hs).
  destruct Hr as [Hr|(p & e & Hr & He)].
  - exfalso. rewrite Hr in Hs. change (scaled (S754_zero false)) with 0 in Hs. lia.
  - exists p, e. split; [exact Hr|]. split; [lia|].
    apply scaled_round_cents; [lia|]. rewrite <- Hr. lia.
Qed.

(* ================================================================== *)
(** * Strings *)
(* ================================================================== *)

Lemma append_assoc (a b c : string) : (a ++ b) ++ c = a ++ (b ++ c).
Proof. induction a as [|x a IH]; simpl; [reflexivity|now rewrite IH]. Qed.

Lemma append_nil_r (a : string) : a ++ "" = a.
Proof. induction a as [|x a IH]; simpl; [reflexivity|now rewrite IH]. Qed.

Lemma length_append (a b : string) :
  String.length (a ++ b) = (String.length a + String.length b)%nat.
Proof. induction a as [|x a IH]; simpl; [reflexivity|now rewrite IH]. Qed.

Lemma all_append p (a b : string) :
  Str.all p (a ++ b) = Str.all p a && Str.all p b.
Proof.
  induction a as [|x a IH]; simpl; [reflexivity|].
  rewrite IH. now rewrite andb_assoc.
Qed.

Lemma take_while_append p a c r :
  Str.all p a = true -> p c = false -> Str.take_while p (a ++ String c r) = a.
Proof.
  intros Ha Hc. induction a as [|x a IH]; simpl in *.
  - now rewrite Hc.
  - apply andb_true_iff in Ha. destruct Ha as [-> Ha]. now rewrite IH.
Qed.

Lemma drop_while_append p a c r :
  Str.all p a = true -> p c = false ->
  Str.drop_while p (a ++ String c r) = String c r.
Proof.
  intros Ha Hc. induction a as [|x a IH]; simpl in *.
  - now rewrite Hc.
  - apply andb_true_iff in Ha. destruct Ha as [-> Ha]. now apply IH.
Qed.

Lemma take_while_all p a : Str.all p a = true -> Str.take_while p a = a.
Proof.
  induction a as [|x a IH]; simpl; [reflexivity|].
  intros H. apply andb_true_iff in H. destruct H as [-> H]. now rewrite IH.
Qed.

Lemma drop_while_all p a : Str.all p a = true -> Str.drop_while p a = "".
Proof.
  induction a as [|x a IH]; simpl; [reflexivity|].
  intros H. apply andb_true_iff in H. destruct H as [-> H]. now apply IH.
Qed.

Lemma take_append (a b : string) : Str.take (String.length a) (a ++ b) = a.
Proof. induction a as [|x a IH]; simpl; [now destruct b|now rewrite IH]. Qed.

Lemma drop_append (a b : string) : Str.drop (String.length a) (a ++ b) = b.
Proof. induction a as [|x a IH]; simpl; [reflexivity|exact IH]. Qed.

Lemma take_drop n (s : string) : Str.take n s ++ Str.drop n s = s.
Proof.
  revert s. induction n as [|n IH]; intros [|x s]; simpl; try reflexivity.
  now rewrite IH.
Qed.

Lemma length_take n (s : string) :
  (n <= String.length s)%nat -> String.length (Str.take n s) = n.
Proof.
  revert s. induction n as [|n IH]; intros [|x s]; simpl; intros H;
    try reflexivity; try lia. rewrite IH; lia.
Qed.

Lemma length_drop n (s : string) :
  String.length (Str.drop n s) = (String.length s - n)%nat.
Proof.
  revert s. induction n as [|n IH]; intros [|x s]; simpl; try reflexivity; try lia.
  apply IH.
Qed.

Lemma rev_onto_spec (s acc : string) : Str.rev_onto s acc = Str.rev s ++ acc.
Proof.
  unfold Str.rev. revert acc. induction s as [|x s IH]; intros acc; simpl.
  - reflexivity.
  - rewrite IH, (IH (String x "")), append_assoc. reflexivity.
Qed.

Lemma rev_cons x (s : string) : Str.rev (String x s) = Str.rev s ++ String x "".
Proof. unfold Str.rev. simpl. apply rev_onto_spec. Qed.

Lemma rev_snoc (s : string) c : Str.rev (s ++ String c "") = String c (Str.rev s).
Proof.
  induction s as [|x s IH]; [reflexivity|].
  simpl. rewrite !rev_cons, IH. reflexivity.
Qed.

Lemma rev_involutive (s : string) : Str.rev (Str.rev s) = s.
Proof.
  induction s as [|x s IH]; [reflexivity|].
  rewrite rev_cons, rev_snoc. now rewrite IH.
Qed.

(** [trim] leaves a string alone that neither starts nor ends with
    white space. *)
Lemma trim_inner c (s : string) d :
  Str.is_space c = false -> Str.is_space d = false ->
  Str.trim (String c (s ++ String d "")) = String c (s ++ String d "").
Proof.
  intros Hc Hd. unfold Str.trim. simpl Str.drop_while at 2. rewrite Hc.
  change (String c (s ++ String d "")) with ((String c s) ++ String d "") at 1.
  rewrite rev_snoc. simpl Str.drop_while. rewrite Hd.
  rewrite <- rev_snoc. apply rev_involutive.
Qed.

(** ** Digits *)

Lemma is_digit_code c : Str.is_digit c = true <-> 48 <= Str.code c <= 57.
Proof. unfold Str.is_digit. rewrite andb_true_iff, !Z.leb_le. tauto. Qed.

Lemma code_digit_char d : 0 <= d <= 9 -> Str.code (digit_char d) = 48 + d.
Proof.
  intros H.
  assert (Hd : d = 0 \/ d = 1 \/ d = 2 \/ d = 3 \/ d = 4 \/ d = 5 \/ d = 6
               \/ d = 7 \/ d = 8 \/ d = 9) by lia.
  repeat (destruct Hd as [->|Hd]; [reflexivity|]). subst d. reflexivity.
Qed.

Lemma digit_val_digit_char d : 0 <= d <= 9 -> digit_val (digit_char d) = d.
Proof. intros H. unfold digit_val. rewrite code_digit_char by lia. lia. Qed.

Lemma is_digit_digit_char d : 0 <= d <= 9 -> Str.is_digit (digit_char d) = true.
Proof. intros H. apply is_digit_code. rewrite code_digit_char by lia. lia. Qed.

Lemma digit_char_digit_val c :
  Str.is_digit c = true -> digit_char (digit_val c) = c.
Proof.
  intros H. apply is_digit_code in H. unfold digit_char, digit_val.
  replace (48 + (Str.code c - 48)) with (Str.code c) by lia.
  unfold Str.code. rewrite N2Z.id. apply ascii_N_embedding.
Qed.

Lemma digit_val_range c : Str.is_digit c = true -> 0 <= digit_val c <= 9.
Proof. intros H. apply is_digit_code in H. unfold digit_val. lia. Qed.

Lemma digits_val_acc_append a (s t : string) :
  digits_val_acc a (s ++ t) = digits_val_acc (digits_val_acc a s) t.
Proof. revert a. induction s as [|x s IH]; intros a; simpl; [reflexivity|apply IH]. Qed.

Lemma digits_val_acc_nonneg (s : string) a :
  0 <= a -> Str.all Str.is_digit s = true -> 0 <= digits_val_acc a s.
Proof.
  revert a. induction s as [|x s IH]; intros a Ha H;
    cbn [digits_val_acc Str.all] in *; [assumption|].
  apply andb_true_iff in H. destruct H as [Hx H].
  apply IH; [|assumption]. apply digit_val_range in Hx. lia.
Qed.

Lemma digits_val_nonneg (s : string) :
  Str.all Str.is_digit s = true -> 0 <= digits_val s.
Proof. apply digits_val_acc_nonneg. lia. Qed.

Lemma digits_val_zeros n (s : string) :
  digits_val (Str.repeat "0" n ++ s) = digits_val s.
Proof.
  unfold digits_val. induction n as [|n IH]; [reflexivity|].
  simpl. exact IH.
Qed.

Lemma all_digits_zeros n : Str.all Str.is_digit (Str.repeat "0" n) = true.
Proof. induction n as [|n IH]; [reflexivity|]. simpl. exact IH. Qed.

Lemma length_repeat c n : String.length (Str.repeat c n) = n.
Proof. induction n as [|n IH]; [reflexivity|]. simpl. now rewrite IH. Qed.

(** ** Writing digits *)

Lemma digits_onto_acc fuel : forall n acc,
  digits_onto fuel n acc = digits_onto fuel n "" ++ acc.
Proof.
  induction fuel as [|fuel IH]; intros n acc; simpl; [reflexivity|].
  destruct (n <? 10); [reflexivity|].
  rewrite IH, (IH _ (String _ "")), append_assoc. reflexivity.
Qed.

Lemma digits_val_digits_onto fuel : forall n,
  0 <= n < 10 ^ Z.of_nat fuel -> digits_val (digits_onto fuel n "") = n.
Proof.
  induction fuel as [|fuel IH]; intros n H.
  - change (10 ^ Z.of_nat 0) with 1 in H. cbn [digits_onto].
    unfold digits_val. cbn [digits_val_acc]. lia.
  - rewrite Nat2Z.inj_succ, Z.pow_succ_r in H by lia. cbn [digits_onto].
    destruct (Z.ltb_spec n 10).
    + unfold digits_val. cbn [digits_val_acc].
      rewrite digit_val_digit_char by lia. lia.
    + rewrite digits_onto_acc. unfold digits_val in *.
      rewrite digits_val_acc_append, IH.
      * cbn [digits_val_acc]. pose proof (Z.mod_pos_bound n 10 ltac:(lia)).
        rewrite digit_val_digit_char by lia.
        pose proof (Z.div_mod n 10 ltac:(lia)). lia.
      * split; [apply Z.div_pos; lia|apply Z.div_lt_upper_bound; lia].
Qed.

Lemma fuel_enough n : 0 <= n -> n < 10 ^ Z.of_nat (S (Z.to_nat (Z.log2 n))).
Proof.
  intros H. rewrite Nat2Z.inj_succ, Z2Nat.id by apply Z.log2_nonneg.
  destruct (Z.eq_dec n 0) as [->|Hn]; [reflexivity|].
  pose proof (Z.log2_spec n ltac:(lia)) as [_ Hs].
  pose proof (Z.log2_nonneg n).
  assert (2 ^ Z.succ (Z.log2 n) <= 10 ^ Z.succ (Z.log2 n))
    by (apply Z.pow_le_mono_l; lia).
  lia.
Qed.

(** Reading back the digits that were written. *)
Lemma digits_val_digits_of n : 0 <= n -> digits_val (digits_of n) = n.
Proof.
  intros H. unfold digits_of. apply digits_val_digits_onto.
  split; [assumption|now apply fuel_enough].
Qed.

Lemma all_digits_onto fuel : forall n acc,
  0 <= n -> Str.all Str.is_digit acc = true ->
  Str.all Str.is_digit (digits_onto fuel n acc) = true.
Proof.
  induction fuel as [|fuel IH]; intros n acc Hn Ha; simpl; [assumption|].
  destruct (Z.ltb_spec n 10).
  - simpl. rewrite is_digit_digit_char by lia. assumption.
  - apply IH; [apply Z.div_pos; lia|].
    simpl. pose proof (Z.mod_pos_bound n 10 ltac:(lia)).
    rewrite is_digit_digit_char by lia. assumption.
Qed.

Lemma all_digits_of n : 0 <= n -> Str.all Str.is_digit (digits_of n) = true.
Proof. intros H. now apply all_digits_onto. Qed.

Lemma length_digits_of n : (1 <= String.length (digits_of n))%nat.
Proof.
  unfold digits_of. simpl. destruct (n <? 10); simpl; [lia|].
  rewrite digits_onto_acc, length_append. simpl. lia.
Qed.

(** The digits written do not depend on the fuel, given enough of it. *)
Lemma digits_onto_fuel f : forall f' n,
  0 <= n -> n < 10 ^ Z.of_nat f -> n < 10 ^ Z.of_nat f' ->
  (1 <= f)%nat -> (1 <= f')%nat ->
  digits_onto f n "" = digits_onto f' n "".
Proof.
  induction f as [|f IH]; intros f' n Hn Hf Hf' H1 H1'; [lia|].
  destruct f' as [|f']; [lia|]. simpl.
  destruct (Z.ltb_spec n 10); [reflexivity|].
  rewrite Nat2Z.inj_succ, Z.pow_succ_r in Hf, Hf' by lia.
  rewrite digits_onto_acc, (digits_onto_acc f'). f_equal.
  apply IH.
  - apply Z.div_pos; lia.
  - apply Z.div_lt_upper_bound; lia.
  - apply Z.div_lt_upper_bound; lia.
  - destruct f; [simpl in Hf; lia|lia].
  - destruct f'; [simpl in Hf'; lia|lia].
Qed.

Lemma digits_of_small d : 0 <= d <= 9 -> digits_of d = String (digit_char d) "".
Proof.
  intros H. unfold digits_of. cbn [digits_onto].
  replace (d <? 10) with true by (symmetry; apply Z.ltb_lt; lia). reflexivity.
Qed.

(** One more digit on the right of a positive number. *)
Lemma digits_of_snoc a d :
  1 <= a -> 0 <= d <= 9 ->
  digits_of (10 * a + d) = digits_of a ++ String (digit_char d) "".
Proof.
  intros Ha Hd. set (n := 10 * a + d).
  assert (Hq : n / 10 = a) by (symmetry; apply Z.div_unique with d; lia).
  assert (Hr : n mod 10 = d) by (symmetry; apply Z.mod_unique with a; lia).
  unfold digits_of at 1. cbn [digits_onto].
  replace (n <? 10) with false by (symmetry; apply Z.ltb_ge; lia).
  rewrite Hq, Hr, digits_onto_acc. f_equal. unfold digits_of.
  pose proof (Z.log2_spec n ltac:(lia)) as [Hlo Hhi].
  assert (H3 : 3 <= Z.log2 n) by (apply Z.log2_le_pow2; [lia|change (2 ^ 3) with 8; lia]).
  rewrite Z.pow_succ_r in Hhi by lia.
  assert (H210 : 2 ^ Z.log2 n <= 10 ^ Z.log2 n) by (apply Z.pow_le_mono_l; lia).
  apply digits_onto_fuel.
  - lia.
  - rewrite Z2Nat.id by lia. lia.
  - apply fuel_enough; lia.
  - lia.
  - lia.
Qed.

Lemma digits_of_digits_val_acc (s : string) : forall pre a,
  1 <= a -> digits_of a = pre -> Str.all Str.is_digit s = true ->
  digits_of (digits_val_acc a s) = pre ++ s.
Proof.
  induction s as [|x s IH]; intros pre a Ha Hp Hs;
    cbn [digits_val_acc Str.all] in *.
  - now rewrite append_nil_r.
  - apply andb_true_iff in Hs. destruct Hs as [Hx Hs].
    pose proof (digit_val_range x Hx).
    rewrite (IH (pre ++ String x "")); try assumption; try lia.
    + now rewrite append_assoc.
    + rewrite digits_of_snoc by lia. rewrite digit_char_digit_val by assumption.
      now rewrite Hp.
Qed.

(** Writing the value of digits that do not start with [0] gives the
    same digits. *)
Lemma digits_of_digits_val c (s : string) :
  Str.is_digit c = true -> Ascii.eqb c "0" = false ->
  Str.all Str.is_digit s = true ->
  digits_of (digits_val (String c s)) = String c s /\
  1 <= digits_val (String c s).
Proof.
  intros Hc H0 Hs. pose proof (digit_val_range c Hc) as Hr.
  assert (H1 : 1 <= digit_val c).
  { destruct (Z.eq_dec (digit_val c) 0) as [Hz|]; [|lia].
    apply Ascii.eqb_neq in H0. exfalso. apply H0.
    rewrite <- (digit_char_digit_val c Hc), Hz. reflexivity. }
  unfold digits_val. cbn [digits_val_acc].
  replace (10 * 0 + digit_val c) with (digit_val c) by lia. split.
  - apply (digits_of_digits_val_acc s (String c "")); try assumption; try lia.
    rewrite digits_of_small by lia. now rewrite digit_char_digit_val.
  - clear - H1 Hs.
    assert (forall a, 1 <= a -> 1 <= digits_val_acc a s); [|auto].
    induction s as [|x s IH]; intros a Ha; cbn [digits_val_acc Str.all] in *;
      [assumption|].
    apply andb_true_iff in Hs. destruct Hs as [Hx Hs].
    pose proof (digit_val_range x Hx). apply IH; [assumption|lia].
Qed.

(** What a digit is not. *)
Lemma digit_facts c :
  Str.is_digit c = true ->
  Str.is_space c = false /\
  (Str.code c =? 45) = false /\ (Str.code c =? 43) = false /\
  (Str.code c =? 46) = false /\
  Ascii.eqb c "I" = false /\ Ascii.eqb "I" c = false /\
  Ascii.eqb "-" c = false /\ Ascii.eqb c "." = false /\
  Ascii.eqb "." c = false.
Proof.
  destruct c as [[] [] [] [] [] [] [] []]; intros H; vm_compute in H;
    try discriminate; repeat split.
Qed.

(** ** Amounts written with two decimals *)

(** [fixed_digits n 2] is made of at least one digit, a point and two
    digits, which read as [n]. *)
Lemma fixed_digits_shape n :
  0 <= n ->
  exists c ip a b,
    fixed_digits n 2 = String c ip ++ String "." (String a (String b "")) /\
    Str.all Str.is_digit (String c ip) = true /\
    Str.is_digit a = true /\ Str.is_digit b = true /\
    digits_val (String c ip ++ String a (String b "")) = n.
Proof.
  intros Hn. unfold fixed_digits.
  set (m := digits_of n).
  set (m' := if (String.length m <=? 2)%nat
             then Str.repeat "0" (2 + 1 - String.length m) ++ m else m).
  assert (Hall : Str.all Str.is_digit m' = true).
  { unfold m'. destruct (String.length m <=? 2)%nat.
    - rewrite all_append, all_digits_zeros. now apply all_digits_of.
    - now apply all_digits_of. }
  assert (Hval : digits_val m' = n).
  { unfold m'. destruct (String.length m <=? 2)%nat.
    - rewrite digits_val_zeros. now apply digits_val_digits_of.
    - now apply digits_val_digits_of. }
  assert (Hlen : (3 <= String.length m')%nat).
  { unfold m'. pose proof (length_digits_of n). fold m in H.
    destruct (Nat.leb_spec (String.length m) 2).
    - rewrite length_append, length_repeat. lia.
    - lia. }
  set (k := String.length m') in *.
  pose proof (take_drop (k - 2) m') as Htd.
  pose proof (length_take (k - 2) m' ltac:(lia)) as Hlt.
  pose proof (length_drop (k - 2) m') as Hld. fold k in Hld.
  destruct (Str.take (k - 2) m') as [|c ip] eqn:Et; [simpl in Hlt; lia|].
  destruct (Str.drop (k - 2) m') as [|a [|b [|x fp]]] eqn:Ed;
    try (simpl in Hld; lia).
  exists c, ip, a, b. rewrite <- Htd in Hall, Hval.
  rewrite all_append in Hall. apply andb_true_iff in Hall.
  destruct Hall as [H1 H2]. simpl in H2.
  apply andb_true_iff in H2. destruct H2 as [Ha H2].
  apply andb_true_iff in H2. destruct H2 as [Hb _].
  repeat split; assumption.
Qed.

Lemma of_decimal_cents d : of_decimal d (-2) = money d.
Proof. reflexivity. Qed.

Lemma scan_decimal_amount c ip a b :
  Str.all Str.is_digit (String c ip) = true ->
  Str.is_digit a = true -> Str.is_digit b = true ->
  scan_decimal (String c ip ++ String "." (String a (String b "")))
  = Some (digits_val (String c ip ++ String a (String b "")), -2, "").
Proof.
  intros Hip Ha Hb. unfold scan_decimal.
  rewrite take_while_append, drop_while_append by (assumption || reflexivity).
  change (Str.code "." =? 46) with true. cbv iota.
  cbn [Str.take_while Str.drop_while]. rewrite Ha, Hb. reflexivity.
Qed.

(** [parseFloat] on what [amount_re] accepts. *)
Lemma parseFloat_amount c ip a b :
  Str.all Str.is_digit (String c ip) = true ->
  Str.is_digit a = true -> Str.is_digit b = true ->
  parseFloat (String c ip ++ String "." (String a (String b "")))
  = money (digits_val (String c ip ++ String a (String b ""))).
Proof.
  intros Hip Ha Hb.
  assert (Hc : Str.is_digit c = true)
    by (simpl in Hip; apply andb_true_iff in Hip; tauto).
  destruct (digit_facts c Hc) as (Hs & H45 & H43 & _ & HI & HI' & _).
  unfold parseFloat. cbn [append Str.drop_while]. rewrite Hs.
  unfold scan_sign. rewrite H45, H43.
  cbn [Str.startsWith]. rewrite HI'. cbn [andb].
  pose proof (scan_decimal_amount c ip a b Hip Ha Hb) as E.
  cbn [append] in E. rewrite E. reflexivity.
Qed.

(** Unary [+] on what [toFixed(2)] writes. *)
Lemma of_string_amount c ip a b :
  Str.all Str.is_digit (String c ip) = true ->
  Str.is_digit a = true -> Str.is_digit b = true ->
  of_string (String c ip ++ String "." (String a (String b "")))
  = money (digits_val (String c ip ++ String a (String b ""))).
Proof.
  intros Hip Ha Hb.
  assert (Hc : Str.is_digit c = true)
    by (simpl in Hip; apply andb_true_iff in Hip; tauto).
  destruct (digit_facts c Hc) as (Hs & H45 & H43 & _ & HI & HI' & _).
  destruct (digit_facts b Hb) as (Hsb & _).
  unfold of_string.
  replace (Str.trim (String c ip ++ String "." (String a (String b ""))))
    with (String c ip ++ String "." (String a (String b ""))).
  2:{ symmetry.
      replace (String c ip ++ String "." (String a (String b "")))
        with (String c ((ip ++ String "." (String a "")) ++ String b ""))
        by (cbn [append]; now rewrite !append_assoc).
      now apply trim_inner. }
  cbn [append]. unfold scan_sign. rewrite H45, H43.
  cbn [String.eqb]. rewrite HI.
  pose proof (scan_decimal_amount c ip a b Hip Ha Hb) as E.
  cbn [append] in E. rewrite E. reflexivity.
Qed.

Lemma of_string_fixed n : 0 <= n -> of_string (fixed_digits n 2) = money n.
Proof.
  intros Hn.
  destruct (fixed_digits_shape n Hn) as (c & ip & a & b & -> & Hip & Ha & Hb & Hv).
  rewrite of_string_amount by assumption. now rewrite Hv.
Qed.

Lemma toFixed_finite p e :
  e < 0 ->
  toFixed (S754_finite false p e) 2 = fixed_digits (scaled_round (Zpos p) e 2) 2.
Proof.
  intros He. unfold toFixed.
  replace (0 <=? e) with false by (symmetry; apply Z.leb_gt; lia).
  reflexivity.
Qed.

(** Below ten trillion dollars [toFixed(2)] writes the cents an amount
    was read from. *)
Lemma toFixed_money c :
  0 <= c < 10 ^ 15 -> toFixed (money c) 2 = fixed_digits c 2.
Proof.
  intros Hc. destruct (Z.eq_dec c 0) as [->|Hne]; [reflexivity|].
  destruct (money_cents c ltac:(lia)) as (p & e & -> & He & Hs).
  rewrite toFixed_finite by lia. now rewrite Hs.
Qed.

Lemma round2_money c : 0 <= c < 10 ^ 15 -> round2 (money c) = money c.
Proof.
  intros Hc. unfold round2. rewrite toFixed_money by assumption.
  apply of_string_fixed. lia.
Qed.

(** Below a trillion dollars a rounded sum is the double of the sum of
    the cents. *)
Lemma round2_add_money a b :
  1 <= a -> 1 <= b -> a + b < 10 ^ 14 ->
  round2 (add (money a) (money b)) = money (a + b).
Proof.
  intros Ha Hb Hab. unfold round2.
  destruct (add_money_cents a b Ha Hb Hab) as (p & e & -> & He & Hs).
  rewrite toFixed_finite by lia. rewrite Hs. apply of_string_fixed. lia.
Qed.

Lemma money_finite c :
  1 <= c < 10 ^ 15 -> exists p e, money c = S754_finite false p e.
Proof.
  intros Hc. destruct (money_cents c Hc) as (p & e & H & _). eauto.
Qed.

Lemma round2_add_zero_money a :
  1 <= a < 10 ^ 15 -> round2 (add zero (money a)) = money a.
Proof.
  intros Ha. destruct (money_finite a Ha) as (p & e & H).
  rewrite H. change (add zero (S754_finite false p e)) with (S754_finite false p e).
  rewrite <- H. apply round2_money. lia.
Qed.

Lemma money_positive c : 1 <= c < 10 ^ 15 -> gt (money c) zero = true.
Proof. intros Hc. destruct (money_finite c Hc) as (p & e & ->). reflexivity. Qed.

Lemma money_truthy c : 1 <= c < 10 ^ 15 -> truthy (money c) = true.
Proof. intros Hc. destruct (money_finite c Hc) as (p & e & ->). reflexivity. Qed.

(* ================================================================== *)
(** * The regular expressions of parseFileName *)
(* ================================================================== *)

Lemma accept_nil (s : string) :
  Re.accept [] s = match s with EmptyString => true | _ => false end.
Proof. reflexivity. Qed.

Lemma accept_more p l h r c (s : string) :
  Re.accept (Re.Item p (S l) h :: r) (String c s)
  = p c && Re.more h && Re.accept (Re.Item p l (option_map Nat.pred h) :: r) s.
Proof. reflexivity. Qed.

Lemma accept_more_nil p l h r :
  Re.accept (Re.Item p (S l) h :: r) "" = false.
Proof. reflexivity. Qed.

Lemma accept_any p h r (s : string) :
  Re.accept (Re.Item p 0 h :: r) s
  = Re.accept r s ||
    match s with
    | String c s' =>
        p c && Re.more h && Re.accept (Re.Item p 0 (option_map Nat.pred h) :: r) s'
    | EmptyString => false
    end.
Proof. destruct s; reflexivity. Qed.

Lemma accept_done p r (s : string) :
  Re.accept (Re.Item p 0 (Some 0%nat) :: r) s = Re.accept r s.
Proof.
  rewrite accept_any. destruct s as [|c s]; [apply orb_false_r|].
  cbn [Re.more]. now rewrite andb_false_r, orb_false_r.
Qed.

(** A class repeated without bound takes a run of its characters. *)
Lemma accept_star p r (s : string) :
  Re.accept (Re.Item p 0 None :: r) s = true ->
  exists run rest,
    s = run ++ rest /\ Str.all p run = true /\ Re.accept r rest = true.
Proof.
  induction s as [|c s IH]; rewrite accept_any; intros H.
  - rewrite orb_false_r in H. exists "", "". auto.
  - apply orb_true_iff in H. destruct H as [H|H].
    + exists "", (String c s). auto.
    + cbn [Re.more option_map] in H. rewrite andb_true_r in H.
      apply andb_true_iff in H. destruct H as [Hc H].
      destruct (IH H) as (run & rest & -> & Hr & Ha).
      exists (String c run), rest. simpl. rewrite Hc, Hr. auto.
Qed.

Ltac accept_step H :=
  match type of H with
  | Re.accept (Re.Item _ (S _) _ :: _) ?s = true =>
      let c := fresh "c" in
      let Hc := fresh "Hc" in
      destruct s as [|c s];
      [rewrite accept_more_nil in H; discriminate
      |rewrite accept_more in H;
       apply andb_true_iff in H; destruct H as [Hc H];
       apply andb_true_iff in Hc; destruct Hc as [Hc _];
       cbn [option_map Nat.pred] in H]
  | Re.accept (Re.Item _ 0 (Some 0%nat) :: _) _ = true =>
      rewrite accept_done in H
  | Re.accept [] ?s = true =>
      destruct s; [clear H|discriminate H]
  end.

(** What [/^\d+\.\d{2}$/] accepts. *)
Lemma amount_re_shape (s : string) :
  Re.test_whole Re.amount_re s = true ->
  exists c ip a b,
    s = String c ip ++ String "." (String a (String b "")) /\
    Str.all Str.is_digit (String c ip) = true /\
    Str.is_digit a = true /\ Str.is_digit b = true.
Proof.
  unfold Re.test_whole, Re.amount_re, Re.chr, Re.one. intros H.
  accept_step H.
  destruct (accept_star _ _ _ H) as (run & rest & -> & Hrun & Hrest).
  clear H. repeat accept_step Hrest.
  apply Ascii.eqb_eq in Hc0. subst.
  exists c, run, c1, c2. simpl. rewrite Hc, Hrun. auto.
Qed.

(** What [/^\d{4}-\d{2}-\d{2}$/] accepts. *)
Lemma date_re_shape (s : string) :
  Re.test_whole Re.date_re s = true ->
  exists y1 y2 y3 y4 m1 m2 d1 d2,
    s = String y1 (String y2 (String y3 (String y4 (String "-"
          (String m1 (String m2 (String "-" (String d1 (String d2 ""))))))))) /\
    Str.is_digit y1 = true /\ Str.is_digit y2 = true /\
    Str.is_digit y3 = true /\ Str.is_digit y4 = true /\
    Str.is_digit m1 = true /\ Str.is_digit m2 = true /\
    Str.is_digit d1 = true /\ Str.is_digit d2 = true.
Proof.
  unfold Re.test_whole, Re.date_re, Re.chr, Re.one. intros H.
  repeat accept_step H.
  apply Ascii.eqb_eq in Hc3, Hc6. subst.
  exists c, c0, c1, c2, c4, c5, c7, c8. repeat split; assumption.
Qed.

(* ================================================================== *)
(** * The checks of parseFileName *)
(* ================================================================== *)

Lemma days_in_month_range y m : 28 <= JsDate.days_in_month y m <= 31.
Proof.
  unfold JsDate.days_in_month.
  destruct (m =? 2); [destruct (JsDate.is_leap y); lia|].
  destruct ((m =? 4) || (m =? 6) || (m =? 9) || (m =? 11)); lia.
Qed.

(** The date object gives back the year, month and day it was made
    from exactly when the day exists in the month. *)
Lemma make_day_roundtrip y m d :
  let dateObj := JsDate.make_day y m d in
  JsDate.differs (JsDate.getFullYear dateObj) y
  || JsDate.differs (JsDate.getMonth dateObj) (m - 1)
  || JsDate.differs (JsDate.getDate dateObj) d
  = negb ((1 <=? m) && (m <=? 12) && (1 <=? d) && (d <=? JsDate.days_in_month y m)).
Proof.
  pose proof (days_in_month_range y m) as Hr.
  unfold JsDate.make_day.
  destruct (Z.leb_spec 1 m), (Z.leb_spec m 12), (Z.leb_spec 1 d); cbn [andb negb];
    try reflexivity.
  destruct (Z.leb_spec d 31), (Z.leb_spec d (JsDate.days_in_month y m));
    cbn [andb negb JsDate.differs JsDate.getFullYear JsDate.getMonth JsDate.getDate orb];
    try reflexivity; lia.
Qed.

Section DateText.
Variables y1 y2 y3 y4 m1 m2 d1 d2 : ascii.
Hypotheses (Hy1 : Str.is_digit y1 = true) (Hy2 : Str.is_digit y2 = true)
           (Hy3 : Str.is_digit y3 = true) (Hy4 : Str.is_digit y4 = true)
           (Hm1 : Str.is_digit m1 = true) (Hm2 : Str.is_digit m2 = true)
           (Hd1 : Str.is_digit d1 = true) (Hd2 : Str.is_digit d2 = true).

Let date : string :=
  String y1 (String y2 (String y3 (String y4 (String "-"
    (String m1 (String m2 (String "-" (String d1 (String d2 ""))))))))).

Lemma split_date :
  Str.split "-" date
  = [String y1 (String y2 (String y3 (String y4 "")));
     String m1 (String m2 ""); String d1 (String d2 "")].
Proof.
  destruct (digit_facts y1 Hy1) as (_ & _ & _ & _ & _ & _ & E1 & _).
  destruct (digit_facts y2 Hy2) as (_ & _ & _ & _ & _ & _ & E2 & _).
  destruct (digit_facts y3 Hy3) as (_ & _ & _ & _ & _ & _ & E3 & _).
  destruct (digit_facts y4 Hy4) as (_ & _ & _ & _ & _ & _ & E4 & _).
  destruct (digit_facts m1 Hm1) as (_ & _ & _ & _ & _ & _ & E5 & _).
  destruct (digit_facts m2 Hm2) as (_ & _ & _ & _ & _ & _ & E6 & _).
  destruct (digit_facts d1 Hd1) as (_ & _ & _ & _ & _ & _ & E7 & _).
  destruct (digit_facts d2 Hd2) as (_ & _ & _ & _ & _ & _ & E8 & _).
  unfold Str.split, date.
  repeat (cbn [Str.split_go Str.startsWith String.length Nat.sub andb append];
          rewrite ?E1, ?E2, ?E3, ?E4, ?E5, ?E6, ?E7, ?E8).
  reflexivity.
Qed.

Lemma local_midnight_date :
  JsDate.of_local_midnight (date ++ "T00:00:00")
  = JsDate.make_day (digits_val (Str.take 4 date))
                    (digits_val (Str.take 2 (Str.drop 5 date)))
                    (digits_val (Str.take 2 (Str.drop 8 date))).
Proof.
  unfold JsDate.of_local_midnight.
  replace (Re.test_whole (Re.date_re ++ Re.lit "T00:00:00")
                         (date ++ "T00:00:00")) with true; [reflexivity|].
  symmetry. unfold Re.test_whole, Re.date_re, Re.lit, Re.chr, Re.one, date.
  cbn [app List.map list_ascii_of_string append].
  repeat first [rewrite accept_more | rewrite accept_done];
    cbn [option_map Nat.pred Re.more].
  rewrite Hy1, Hy2, Hy3, Hy4, Hm1, Hm2, Hd1, Hd2. reflexivity.
Qed.

(** The second date check of [parseFileName] fails exactly when the
    date is not a calendar date. *)
Lemma date_check :
  exists yearNum monthNum dayNum,
    date_numbers date = [yearNum; monthNum; dayNum] /\
    (let dateObj := JsDate.of_local_midnight (date ++ "T00:00:00") in
     JsDate.differs (JsDate.getFullYear dateObj) yearNum
     || JsDate.differs (JsDate.getMonth dateObj) (monthNum - 1)
     || JsDate.differs (JsDate.getDate dateObj) dayNum)
    = negb (is_calendar_date date).
Proof.
  unfold date_numbers. rewrite split_date, local_midnight_date.
  cbn [List.map]. do 3 eexists. split; [reflexivity|].
  apply make_day_roundtrip.
Qed.

End DateText.

Lemma of_ratio_not_NaN p q : 0 <= p -> 0 < q -> isNaN (of_ratio p q) = false.
Proof.
  intros Hp Hq. destruct p as [|p|p], q as [|q|q]; try lia; [reflexivity|].
  unfold of_ratio, SFdiv.
  destruct (SFdiv_core_binary prec emax (Zpos p) 0 (Zpos q) 0) as [[mz ez] lz] eqn:Ed.
  destruct (div_core_spec p q mz ez lz Ed) as [_ Hmz].
  assert (Hmz0 : 0 <= mz).
  { rewrite Hmz. apply Z.div_pos; [|lia].
    apply Z.mul_nonneg_nonneg; [lia|]. apply Z.pow_nonneg. lia. }
  destruct (binary_round_aux_spec mz ez lz Hmz0) as (m2 & n2 & _ & Hm2 & _ & Hr).
  change (xorb false false) with false. rewrite Hr.
  destruct m2 as [|m2|m2]; [reflexivity| |lia].
  now destruct (_ <=? _).
Qed.

(** The defensive check on the parsed amount never fires. *)
Lemma parseFloat_not_NaN (s : string) :
  Re.test_whole Re.amount_re s = true -> isNaN (parseFloat s) = false.
Proof.
  intros H. destruct (amount_re_shape s H) as (c & ip & a & b & -> & Hip & Ha & Hb).
  rewrite parseFloat_amount by assumption. apply of_ratio_not_NaN; [|lia].
  apply digits_val_nonneg. rewrite all_append, Hip. simpl. now rewrite Ha, Hb.
Qed.

(** C1. [parseFileName] applies its checks in a fixed order: three
    segments, the form of the date, the date being a calendar date, the
    amount starting with [$], the extension, the form of the stripped
    amount.  The first check that fails decides the record returned,
    with the message of that check; when no check fails the record has
    [isValid] true. *)
Theorem validation_order (fileName : string) :
  match first_failure fileName with
  | Some r =>
      parseFileName fileName
      = Parsed.Build None None zero false false (Some (message r fileName))
  | None => Parsed.isValid (parseFileName fileName) = true
  end.
Proof.
  unfold first_failure, validation_rules, parseFileName.
  cbn [find holds message].
  unfold date_segment, amount_token, segments.
  destruct (Str.split " - " fileName) as [|date [|descr [|amt [|x rest]]]] eqn:E;
    cbn [List.length Nat.eqb negb nth message]; try reflexivity.
  destruct (Re.test_whole Re.date_re date) eqn:Hd; cbn [negb message];
    [|unfold date_segment, segments; now rewrite E].
  destruct (date_re_shape date Hd)
    as (y1 & y2 & y3 & y4 & m1 & m2 & d1 & d2 & Hdate & H1 & H2 & H3 & H4 & H5 & H6 & H7 & H8).
  destruct (date_check y1 y2 y3 y4 m1 m2 d1 d2 H1 H2 H3 H4 H5 H6 H7 H8)
    as (yearNum & monthNum & dayNum & Hnum & Hchk).
  rewrite <- Hdate in Hnum, Hchk.
  rewrite Hnum. cbv zeta in Hchk. rewrite Hchk.
  destruct (is_calendar_date date); cbn [negb message];
    [|unfold date_segment, segments; now rewrite E].
  destruct (Str.startsWith "$" amt); cbn [negb message];
    [|unfold amount_token, segments; now rewrite E].
  destruct (Re.test_end Re.extension_re amt); cbn [negb message]; [|reflexivity].
  destruct (Re.test_whole Re.amount_re (strip_amount amt)) eqn:Ha;
    cbn [negb message]; [|unfold amount_token, segments; now rewrite E].
  rewrite parseFloat_not_NaN by assumption. reflexivity.
Qed.

(** ** The amount of a valid file name *)

Lemma drop_append_more (x y : string) n :
  Str.drop (String.length x + n) (x ++ y) = Str.drop n y.
Proof. induction x as [|c x IH]; simpl; [reflexivity|exact IH]. Qed.

Lemma undotted_amount c ip a b :
  undotted (String c ip ++ String "." (String a (String b "")))
  = String c ip ++ String a (String b "").
Proof.
  unfold undotted. rewrite length_append.
  replace (String.length (String c ip) + String.length (String "." (String a (String b ""))) - 3)%nat
    with (String.length (String c ip)) by (simpl; lia).
  replace (String.length (String c ip) + String.length (String "." (String a (String b ""))) - 2)%nat
    with (String.length (String c ip) + 1)%nat by (simpl; lia).
  now rewrite take_append, drop_append_more.
Qed.

(** The amount of a valid file name is the double of the cents
    written in it. *)
Lemma parse_valid_amount (fileName : string) :
  Parsed.isValid (parseFileName fileName) = true ->
  Parsed.amount (parseFileName fileName) = money (written_cents fileName) /\
  0 <= written_cents fileName.
Proof.
  intros Hv. unfold written_cents. rewrite Hv.
  unfold amount_token, segments. revert Hv. unfold parseFileName.
  destruct (Str.split " - " fileName) as [|date [|descr [|amt [|x rest]]]];
    try discriminate.
  destruct (Re.test_whole Re.date_re date); try discriminate. cbn [negb].
  destruct (date_numbers date) as [|? [|? [|? ?]]]; try discriminate.
  destruct (_ || _); try discriminate.
  destruct (Str.startsWith "$" amt); try discriminate. cbn [negb].
  destruct (Re.test_end Re.extension_re amt); try discriminate. cbn [negb].
  destruct (Re.test_whole Re.amount_re (strip_amount amt)) eqn:Ha;
    try discriminate. cbn [negb nth].
  rewrite parseFloat_not_NaN by assumption. intros _. cbn [Parsed.amount].
  destruct (amount_re_shape _ Ha) as (c & ip & a & b & -> & Hip & Hda & Hdb).
  rewrite undotted_amount, parseFloat_amount by assumption.
  split; [reflexivity|].
  apply digits_val_nonneg. rewrite all_append, Hip. simpl. now rewrite Hda, Hdb.
Qed.

(* ================================================================== *)
(** * Writing an amount back *)
(* ================================================================== *)

Lemma digits_val_acc_bound (s : string) : forall a,
  0 <= a -> Str.all Str.is_digit s = true ->
  digits_val_acc a s < (a + 1) * 10 ^ Z.of_nat (String.length s).
Proof.
  induction s as [|x s IH]; intros a Ha Hs;
    cbn [digits_val_acc Str.all String.length] in *.
  - change (10 ^ Z.of_nat 0) with 1. lia.
  - apply andb_true_iff in Hs. destruct Hs as [Hx Hs].
    pose proof (digit_val_range x Hx).
    specialize (IH (10 * a + digit_val x) ltac:(lia) Hs).
    rewrite Nat2Z.inj_succ, Z.pow_succ_r by lia.
    assert (0 < 10 ^ Z.of_nat (String.length s)) by (apply Z.pow_pos_nonneg; lia).
    nia.
Qed.

Lemma digits_val_bound (s : string) :
  Str.all Str.is_digit s = true ->
  digits_val s < 10 ^ Z.of_nat (String.length s).
Proof.
  intros H. pose proof (digits_val_acc_bound s 0 ltac:(lia) H). unfold digits_val. lia.
Qed.

(** Less than a dollar is written with a [0] before the point. *)
Lemma fixed_digits_small a b :
  Str.is_digit a = true -> Str.is_digit b = true ->
  fixed_digits (digits_val (String "0" (String a (String b "")))) 2
  = String "0" (String "." (String a (String b ""))).
Proof.
  destruct a as [[] [] [] [] [] [] [] []]; intros Ha; vm_compute in Ha;
    try discriminate;
    destruct b as [[] [] [] [] [] [] [] []]; intros Hb; vm_compute in Hb;
    try discriminate; vm_compute; reflexivity.
Qed.

(** A dollar or more is written with the digits it was read from. *)
Lemma fixed_digits_plain c ip a b :
  Str.all Str.is_digit (String c ip) = true -> Ascii.eqb c "0" = false ->
  Str.is_digit a = true -> Str.is_digit b = true ->
  fixed_digits (digits_val (String c ip ++ String a (String b ""))) 2
  = String c ip ++ String "." (String a (String b "")).
Proof.
  intros Hip H0 Ha Hb.
  assert (Hc : Str.is_digit c = true)
    by (simpl in Hip; apply andb_true_iff in Hip; tauto).
  assert (Hall : Str.all Str.is_digit (ip ++ String a (String b "")) = true).
  { rewrite all_append. simpl in Hip. apply andb_true_iff in Hip.
    destruct Hip as [_ ->]. simpl. now rewrite Ha, Hb. }
  destruct (digits_of_digits_val c (ip ++ String a (String b "")) Hc H0 Hall)
    as [Hd _].
  unfold fixed_digits. cbn [append] in *. rewrite Hd.
  set (X := String c (ip ++ String a (String b ""))).
  assert (HX : X = String c ip ++ String a (String b "")) by reflexivity.
  assert (Hlen : String.length X = (String.length ip + 3)%nat)
    by (rewrite HX, length_append; cbn [String.length]; lia).
  replace (String.length X <=? 2)%nat with false
    by (symmetry; apply Nat.leb_gt; lia).
  replace (String.length X - 2)%nat with (String.length (String c ip))
    by (cbn [String.length]; lia).
  rewrite HX, take_append, drop_append. reflexivity.
Qed.

(** The numeric part of a valid file name is what [amount_re]
    accepts, and the amount is that text read by [parseFloat]. *)
Lemma parse_valid_text (fileName : string) :
  Parsed.isValid (parseFileName fileName) = true ->
  Re.test_whole Re.amount_re (amount_text fileName) = true /\
  Parsed.amount (parseFileName fileName) = parseFloat (amount_text fileName).
Proof.
  unfold amount_text, amount_token, segments, parseFileName.
  destruct (Str.split " - " fileName) as [|date [|descr [|amt [|x rest]]]];
    try discriminate.
  destruct (Re.test_whole Re.date_re date); try discriminate. cbn [negb].
  destruct (date_numbers date) as [|? [|? [|? ?]]]; try discriminate.
  destruct (_ || _); try discriminate.
  destruct (Str.startsWith "$" amt); try discriminate. cbn [negb].
  destruct (Re.test_end Re.extension_re amt); try discriminate. cbn [negb].
  destruct (Re.test_whole Re.amount_re (strip_amount amt)) eqn:Ha;
    try discriminate. cbn [negb nth].
  rewrite parseFloat_not_NaN by assumption. intros _. cbn [Parsed.amount].
  split; [exact Ha|reflexivity].
Qed.

Lemma amount_text_written_back (amountStr : string) :
  Re.test_whole Re.amount_re amountStr = true ->
  plainly_written amountStr = true ->
  (String.length amountStr <= 16)%nat ->
  dollars (parseFloat amountStr) = "$" ++ amountStr.
Proof.
  intros Hre Hplain Hlen.
  destruct (amount_re_shape _ Hre) as (c & ip & a & b & -> & Hip & Ha & Hb).
  rewrite parseFloat_amount by assumption.
  unfold dollars. f_equal.
  assert (Hall : Str.all Str.is_digit (String c ip ++ String a (String b "")) = true).
  { rewrite all_append, Hip. simpl. now rewrite Ha, Hb. }
  rewrite length_append in Hlen.
  rewrite toFixed_money.
  2:{ split; [now apply digits_val_nonneg|].
      pose proof (digits_val_bound _ Hall) as Hbd.
      rewrite length_append in Hbd.
      assert (10 ^ Z.of_nat (String.length (String c ip) + String.length (String a (String b "")))
              <= 10 ^ 15); [|lia].
      apply Z.pow_le_mono_r; [lia|]. simpl in *. lia. }
  destruct (Ascii.eqb c "0") eqn:E0.
  - apply Ascii.eqb_eq in E0. subst c.
    destruct ip as [|x ip]; [now apply fixed_digits_small|].
    unfold plainly_written in Hplain.
    cbn [append Str.startsWith] in Hplain.
    rewrite Ascii.eqb_refl in Hplain.
    cbn [Str.all] in Hip. apply andb_true_iff in Hip. destruct Hip as [_ Hip].
    apply andb_true_iff in Hip. destruct Hip as [Hx _].
    destruct (digit_facts x Hx) as (_ & _ & _ & _ & _ & _ & _ & _ & Hdot).
    rewrite Hdot in Hplain. discriminate.
  - now apply fixed_digits_plain.
Qed.

(** C7, as amended. For a valid file name whose amount has a numeric
    part matching [^\d+\.\d{2}$] that is written without a needless
    zero in front and has at most 13 digits before the point,
    ["$" + amount.toFixed(2)] is ["$"] followed by that numeric part. *)
Theorem amount_written_back (fileName : string) :
  Parsed.isValid (parseFileName fileName) = true ->
  plainly_written (amount_text fileName) = true ->
  (String.length (amount_text fileName) <= 16)%nat ->
  dollars (Parsed.amount (parseFileName fileName)) = "$" ++ amount_text fileName.
Proof.
  intros Hv Hp Hl. destruct (parse_valid_text fileName Hv) as [Hre ->].
  now apply amount_text_written_back.
Qed.

Lemma amount_written_back_witness :
  dollars (Parsed.amount
             (parseFileName "2021-01-01 - josh doctor - $1234567890123.45.reimbursed.pdf"))
  = "$" ++ amount_text "2021-01-01 - josh doctor - $1234567890123.45.reimbursed.pdf".
Proof.
  apply (amount_written_back
           "2021-01-01 - josh doctor - $1234567890123.45.reimbursed.pdf");
    [vm_compute; reflexivity|vm_compute; reflexivity|vm_compute; lia].
Defined.

(** C7 as stated fails: an amount written with zeros in front is
    written back without them, and an amount too large for a double to
    hold to the cent comes back changed. *)
Lemma amount_not_written_back :
  Re.test_whole Re.amount_re "007.50" = true /\
  Parsed.amount (parseFileName "2021-01-01 - x - $007.50.pdf") = parseFloat "007.50" /\
  dollars (parseFloat "007.50") = "$7.50" /\
  dollars (parseFloat "007.50") <> "$" ++ "007.50" /\
  Re.test_whole Re.amount_re "12345678901234567890.12" = true /\
  dollars (parseFloat "12345678901234567890.12") = "$12345678901234567168.00".
Proof.
  repeat split; try (vm_compute; reflexivity).
  vm_compute. discriminate.
Qed.

(* ================================================================== *)
(** * Sums to the cent *)
(* ================================================================== *)

Lemma sumZ_app {A} (g : A -> Z) (l l' : list A) :
  sumZ g (l ++ l')%list = sumZ g l + sumZ g l'.
Proof. induction l as [|x l IH]; simpl; [reflexivity|]. rewrite IH. lia. Qed.

(** Writing a value changes the sum of the values by the difference
    between the value written and the value it replaces. *)
Lemma sumZ_values_set {V} (g : V -> Z) (o : Obj.t V) k v :
  sumZ g (Obj.values (Obj.set k v o))
  = sumZ g (Obj.values o)
    - match Obj.get_own o k with Some v0 => g v0 | None => 0 end
    + g v.
Proof.
  unfold Obj.set. destruct (Obj.get_own o k) as [v0|] eqn:E.
  - revert E. induction o as [|[k' v'] o IH]; simpl; [discriminate|].
    destruct (String.eqb k' k); simpl.
    + intros [= ->]. lia.
    + intros E. rewrite (IH E). lia.
  - destruct (Obj.is_array_index k).
    + clear E. induction o as [|[k' v'] o IH]; simpl; [lia|].
      destruct (Obj.is_array_index k' && (digits_val k' <? digits_val k)); simpl; lia.
    + unfold Obj.values. rewrite List.map_app, sumZ_app. simpl. lia.
Qed.

Lemma cents_of_money a : 0 <= a < 10 ^ 15 -> cents_of (money a) = a.
Proof.
  intros Ha. destruct (Z.eq_dec a 0) as [->|Hne]; [reflexivity|].
  destruct (money_cents a ltac:(lia)) as (p & e & -> & _ & Hs). exact Hs.
Qed.

Lemma money_zero : money 0 = zero.
Proof. reflexivity. Qed.

(** What a recorded receipt brings: an amount of at least a cent. *)
Lemma recorded_amount (fileName : string) :
  Parsed.isValid (parseFileName fileName) = true ->
  gt (Parsed.amount (parseFileName fileName)) zero = true ->
  Parsed.amount (parseFileName fileName) = money (written_cents fileName) /\
  1 <= written_cents fileName.
Proof.
  intros Hv Hg. destruct (parse_valid_amount fileName Hv) as [Ha H0].
  split; [exact Ha|].
  destruct (Z.eq_dec (written_cents fileName) 0) as [Hz|]; [|lia].
  rewrite Ha, Hz in Hg. discriminate.
Qed.

Lemma written_cents_nonneg (fileName : string) : 0 <= written_cents fileName.
Proof.
  destruct (Parsed.isValid (parseFileName fileName)) eqn:Hv.
  - now apply parse_valid_amount.
  - unfold written_cents. rewrite Hv. lia.
Qed.

Lemma total_cents_nonneg fileNames : 0 <= total_cents fileNames.
Proof.
  induction fileNames as [|f l IH]; simpl; [lia|].
  pose proof (written_cents_nonneg f). unfold total_cents in *. simpl. lia.
Qed.

Lemma spent_after st fileName year description amount reimb category :
  spent (state_after st fileName year description amount reimb category)
  = spent st + cents_of amount.
Proof. unfold spent. rewrite receipts_after, sumZ_app. simpl. lia. Qed.

Lemma cents_of_nonneg x : 0 <= cents_of x.
Proof.
  unfold cents_of. destruct x as [| | |[] m e]; try lia.
  unfold scaled_round. change (10 ^ Z.of_nat 2) with 100.
  destruct (Z.leb_spec 0 e).
  - apply Z.mul_nonneg_nonneg; [lia|]. apply Z.pow_nonneg. lia.
  - apply Z.div_pos; [|apply Z.pow_pos_nonneg; lia].
    assert (0 <= 2 ^ (- e)) by (apply Z.pow_nonneg; lia). lia.
Qed.

Lemma spent_nonneg st : 0 <= spent st.
Proof.
  unfold spent. induction (Totals.validReceipts st) as [|r l IH]; simpl; [lia|].
  pose proof (cents_of_nonneg (Receipt.amount r)). lia.
Qed.

(** A turn of the loop spends at most the cents written in the file
    name. *)
Lemma turn_spent st fileName st' :
  turn st fileName st' ->
  spent st + written_cents fileName < 10 ^ 14 ->
  spent st <= spent st' <= spent st + written_cents fileName.
Proof.
  pose proof (written_cents_nonneg fileName) as H0.
  pose proof (spent_nonneg st) as H0'.
  intros Ht Hb. destruct Ht as [| | |year description Hh Hv Hy Hd Ha];
    try (unfold spent; simpl; lia).
  destruct (recorded_amount fileName Hv Ha) as [Hm H1].
  rewrite spent_after, Hm, cents_of_money; [lia|].
  change (10 ^ 14) with 100000000000000 in Hb.
  change (10 ^ 15) with 1000000000000000. lia.
Qed.

(** An invariant kept by every turn that stays within a trillion
    dollars holds of the result of such a listing. *)
Lemma process_files_within (P : Totals.t -> Prop) fileNames :
  (forall st fileName st',
      In fileName fileNames -> same_years st -> P st ->
      spent st + written_cents fileName < 10 ^ 14 ->
      turn st fileName st' -> P st') ->
  forall st, same_years st -> P st ->
  spent st + total_cents fileNames < 10 ^ 14 ->
  exists st', process_files st fileNames = Ok st' /\ same_years st' /\ P st'.
Proof.
  induction fileNames as [|f rest IH]; intros Hstep st Hs HP Hb; simpl.
  - eauto.
  - destruct (process_file_turn st f Hs) as (st1 & -> & Ht & Hs1).
    pose proof (total_cents_nonneg rest) as Hr.
    unfold total_cents in Hb, Hr. simpl in Hb.
    assert (Hf : spent st + written_cents f < 10 ^ 14) by lia.
    pose proof (turn_spent st f st1 Ht Hf) as Hsp.
    apply IH.
    + intros st0 f0 st0' Hin. apply Hstep. now right.
    + exact Hs1.
    + apply (Hstep st f st1); auto. now left.
    + unfold total_cents. lia.
Qed.

Ltac bounds :=
  change (10 ^ 14) with 100000000000000 in *;
  change (10 ^ 15) with 1000000000000000 in *.

(** ** The sums by year *)

Lemma years_in_cents_kept st fileName st' :
  same_years st -> years_in_cents st ->
  spent st + written_cents fileName < 10 ^ 14 ->
  turn st fileName st' -> years_in_cents st'.
Proof.
  intros Hs [I1 I2] Hb Ht.
  destruct Ht as [| | |year description Hh Hv Hy Hd Ha];
    try (split; assumption).
  destruct (recorded_amount fileName Hv Ha) as [Hm H1].
  set (c := written_cents fileName) in *.
  pose proof (spent_nonneg st) as H0.
  assert (Hc15 : 1 <= c < 10 ^ 15) by (bounds; lia).
  unfold years_in_cents. rewrite spent_after, Hm, cents_of_money by lia.
  destruct (Obj.get_own (Totals.expensesByYear st) year) as [v|] eqn:E.
  - destruct (I1 year v E) as (a & Ha1 & ->).
    assert (Hst : started (Totals.expensesByYear st) year = true).
    { unfold started. rewrite E. apply money_truthy. bounds. lia. }
    assert (Hnew : Obj.get_own
                     (Totals.expensesByYear
                        (state_after st fileName year description (money c)
                           (Parsed.isReimbursement (parseFileName fileName))
                           (category_of description))) year
                   = Some (money (a + c))).
    { rewrite expenses_after_same, Hst. unfold num_at. rewrite E.
      rewrite round2_add_money by lia. reflexivity. }
    split.
    + intros y v Hy'. destruct (string_dec year y) as [<-|Hne].
      * rewrite Hnew in Hy'. injection Hy' as <-. exists (a + c). split; [lia|reflexivity].
      * rewrite expenses_after_other in Hy' by assumption.
        destruct (I1 y v Hy') as (a' & Ha' & ->). exists a'. split; [lia|reflexivity].
    + unfold state_after. cbn [Totals.expensesByYear]. rewrite Hst. cbn [negb].
      unfold year_cents in *. rewrite sumZ_values_set, E.
      unfold num_at. rewrite E. rewrite round2_add_money by lia.
      rewrite !cents_of_money by (bounds; lia). lia.
  - assert (Hst : started (Totals.expensesByYear st) year = false)
      by (unfold started; now rewrite E).
    assert (Hnew : Obj.get_own
                     (Totals.expensesByYear
                        (state_after st fileName year description (money c)
                           (Parsed.isReimbursement (parseFileName fileName))
                           (category_of description))) year
                   = Some (money c)).
    { rewrite expenses_after_same, Hst. now rewrite round2_add_zero_money. }
    split.
    + intros y v Hy'. destruct (string_dec year y) as [<-|Hne].
      * rewrite Hnew in Hy'. injection Hy' as <-. exists c. split; [lia|reflexivity].
      * rewrite expenses_after_other in Hy' by assumption.
        destruct (I1 y v Hy') as (a' & Ha' & ->). exists a'. split; [lia|reflexivity].
    + unfold state_after. cbn [Totals.expensesByYear]. rewrite Hst. cbn [negb].
      unfold year_cents in *. rewrite !sumZ_values_set, E, get_own_set_same.
      unfold num_at. rewrite get_own_set_same.
      rewrite round2_add_zero_money by lia.
      rewrite cents_of_money by lia. change (cents_of zero) with 0. lia.
Qed.

(** ** The sums by category *)

Lemma categories_after_cents categories category c reimb limit :
  (forall k t, Obj.get_own categories k = Some t ->
               exists b, 1 <= b <= limit /\ Category.expenses t = money b) ->
  0 <= limit -> 1 <= c -> limit + c < 10 ^ 14 ->
  Obj.is_prototype_name category = false ->
  category_cents (categories_after categories category (money c) reimb)
  = category_cents categories + c /\
  forall k t,
    Obj.get_own (categories_after categories category (money c) reimb) k = Some t ->
    exists b, 1 <= b <= limit + c /\ Category.expenses t = money b.
Proof.
  intros Hall Hl Hc Hb Hproto. unfold categories_after, Obj.get.
  destruct (Obj.get_own categories category) as [t0|] eqn:E.
  - rewrite E. destruct (Hall category t0 E) as (b & Hb1 & Hb2). split.
    + unfold category_cents. rewrite sumZ_values_set, E.
      cbn [Category.expenses]. rewrite Hb2, round2_add_money by lia.
      rewrite !cents_of_money by (bounds; lia). lia.
    + intros k t Hk. destruct (string_dec category k) as [<-|Hne].
      * rewrite get_own_set_same in Hk. injection Hk as <-.
        cbn [Category.expenses]. rewrite Hb2, round2_add_money by lia.
        exists (b + c). split; [lia|reflexivity].
      * rewrite get_own_set_other in Hk by assumption.
        destruct (Hall k t Hk) as (b' & Hb' & ->). exists b'. split; [lia|reflexivity].
  - rewrite Hproto, get_own_set_same. split.
    + unfold category_cents. rewrite !sumZ_values_set, E, get_own_set_same.
      cbn [Category.expenses]. rewrite round2_add_zero_money by (bounds; lia).
      rewrite cents_of_money by (bounds; lia). change (cents_of zero) with 0. lia.
    + intros k t Hk. destruct (string_dec category k) as [<-|Hne].
      * rewrite get_own_set_same in Hk. injection Hk as <-.
        cbn [Category.expenses]. rewrite round2_add_zero_money by (bounds; lia).
        exists c. split; [lia|reflexivity].
      * rewrite !get_own_set_other in Hk by assumption.
        destruct (Hall k t Hk) as (b' & Hb' & ->). exists b'. split; [lia|reflexivity].
Qed.

Lemma categories_in_cents_kept st fileName st' :
  same_years st -> years_in_cents st -> categories_in_cents st ->
  (forall description,
      Parsed.description (parseFileName fileName) = Some description ->
      Obj.is_prototype_name (category_of description) = false) ->
  spent st + written_cents fileName < 10 ^ 14 ->
  turn st fileName st' -> categories_in_cents st'.
Proof.
  intros Hs [I1 I2] IC Hown Hb Ht.
  destruct Ht as [| | |year description Hh Hv Hy Hd Ha]; try assumption.
  destruct (recorded_amount fileName Hv Ha) as [Hm H1].
  set (c := written_cents fileName) in *.
  pose proof (spent_nonneg st) as H0.
  assert (Hc15 : 1 <= c < 10 ^ 15) by (bounds; lia).
  specialize (Hown description Hd).
  unfold categories_in_cents. rewrite spent_after, Hm, cents_of_money by lia.
  intros y v Hy'. destruct (string_dec year y) as [<-|Hne].
  2:{ rewrite expenses_after_other in Hy' by assumption.
      rewrite categories_after_other by assumption.
      destruct (IC y v Hy') as (cats & Hc1 & Hc2 & Hc3).
      exists cats. repeat split; try assumption.
      intros k t Hk. destruct (Hc3 k t Hk) as (b & Hb1 & ->).
      exists b. split; [lia|reflexivity]. }
  rewrite categories_after_same. rewrite expenses_after_same in Hy'.
  destruct (Obj.get_own (Totals.expensesByYear st) year) as [v0|] eqn:E.
  - destruct (I1 year v0 E) as (a & Ha1 & ->).
    assert (Hst : started (Totals.expensesByYear st) year = true).
    { unfold started. rewrite E. apply money_truthy. bounds. lia. }
    rewrite Hst in *. unfold num_at in Hy'. rewrite E in Hy'.
    rewrite round2_add_money in Hy' by lia. injection Hy' as <-.
    destruct (IC year (money a) E) as (cats & Hc1 & Hc2 & Hc3).
    rewrite Hc1.
    destruct (categories_after_cents cats (category_of description) c
                (Parsed.isReimbursement (parseFileName fileName)) (spent st)
                Hc3 H0 ltac:(lia) Hb Hown) as [Hsum Hall].
    eexists. split; [reflexivity|]. split; [|exact Hall].
    rewrite Hsum, Hc2. rewrite !cents_of_money by (bounds; lia). reflexivity.
  - assert (Hst : started (Totals.expensesByYear st) year = false)
      by (unfold started; now rewrite E).
    rewrite Hst in *. rewrite round2_add_zero_money in Hy' by lia.
    injection Hy' as <-.
    destruct (categories_after_cents Obj.empty (category_of description) c
                (Parsed.isReimbursement (parseFileName fileName)) (spent st)
                ltac:(intros k t Hk; discriminate) H0 ltac:(lia) Hb Hown)
      as [Hsum Hall].
    eexists. split; [reflexivity|]. split; [|exact Hall].
    rewrite Hsum. rewrite cents_of_money by lia. reflexivity.
Qed.

(** C2, as amended. For a listing whose valid file names carry less
    than a trillion dollars in all, the values of [expensesByYear] and
    the amounts of [validReceipts] add up to the same number of cents,
    each value and amount taken to the cent as [toFixed(2)] writes
    it. *)
Theorem totals_agree_to_the_cent (fileNames : list string) :
  total_cents fileNames < 10 ^ 14 ->
  exists r,
    getTotalsByYear (Ok fileNames) = Ok r /\
    sumZ cents_of (Obj.values (Totals.expensesByYear r))
    = sumZ (fun receipt => cents_of (Receipt.amount receipt))
           (Totals.validReceipts r).
Proof.
  intros Hb.
  destruct (process_files_within years_in_cents fileNames)
    with (st := Totals.empty) as (r & Hr & _ & _ & HP).
  - intros st f st' _ Hs HP Hf Ht. eapply years_in_cents_kept; eauto.
  - apply same_years_empty.
  - split; [intros y v Hy; discriminate|reflexivity].
  - exact Hb.
  - exists r. split; [exact Hr|exact HP].
Qed.

Lemma totals_agree_to_the_cent_witness :
  exists r,
    getTotalsByYear
      (Ok ["2021-01-01 - josh doctor - $0.10.pdf";
           "2021-02-03 - josh dentist - $0.20.reimbursed.pdf";
           "2022-04-05 - jane glasses - $129.99.pdf"; "notes.txt"]) = Ok r /\
    sumZ cents_of (Obj.values (Totals.expensesByYear r))
    = sumZ (fun receipt => cents_of (Receipt.amount receipt))
           (Totals.validReceipts r).
Proof.
  apply (totals_agree_to_the_cent
           ["2021-01-01 - josh doctor - $0.10.pdf";
            "2021-02-03 - josh dentist - $0.20.reimbursed.pdf";
            "2022-04-05 - jane glasses - $129.99.pdf"; "notes.txt"]).
  vm_compute. reflexivity.
Defined.

(** C2 as stated fails: with receipts of $0.10 and $0.20 in one year,
    [expensesByYear] holds the double 0.3 and the amounts of the
    receipts add up to the double 0.30000000000000004. *)
Lemma totals_differ_as_doubles :
  match getTotalsByYear
          (Ok ["2021-01-01 - josh doctor - $0.10.pdf";
               "2021-02-03 - josh dentist - $0.20.pdf"]) with
  | Ok r =>
      sum_numbers (Obj.values (Totals.expensesByYear r)) = of_string "0.3" /\
      sum_numbers (List.map Receipt.amount (Totals.validReceipts r))
      = of_string "0.30000000000000004" /\
      eq (sum_numbers (Obj.values (Totals.expensesByYear r)))
         (sum_numbers (List.map Receipt.amount (Totals.validReceipts r))) = false
  | Throw _ => False
  end.
Proof. vm_compute. repeat split. Qed.

(** C3, as amended. For a listing whose valid file names carry less
    than a trillion dollars in all and name no category like a member
    of [Object.prototype], the expenses of the categories of a year add
    up to the cents of [expensesByYear] for that year. *)
Theorem categories_agree_to_the_cent (fileNames : list string) :
  total_cents fileNames < 10 ^ 14 ->
  own_categories fileNames ->
  exists r,
    getTotalsByYear (Ok fileNames) = Ok r /\
    forall y v,
      Obj.get_own (Totals.expensesByYear r) y = Some v ->
      exists categories,
        Obj.get_own (Totals.expensesByCategory r) y = Some categories /\
        sumZ (fun c => cents_of (Category.expenses c)) (Obj.values categories)
        = cents_of v.
Proof.
  intros Hb Hown.
  destruct (process_files_within
              (fun st => years_in_cents st /\ categories_in_cents st) fileNames)
    with (st := Totals.empty) as (r & Hr & _ & _ & HP).
  - intros st f st' Hin Hs [HY HC] Hf Ht. split.
    + eapply years_in_cents_kept; eauto.
    + eapply categories_in_cents_kept; eauto.
  - apply same_years_empty.
  - split; [split; [intros y v Hy; discriminate|reflexivity]|].
    intros y v Hy. discriminate.
  - exact Hb.
  - exists r. split; [exact Hr|]. intros y v Hy.
    destruct (HP y v Hy) as (cats & H1 & H2 & _). eauto.
Qed.

Lemma categories_agree_to_the_cent_witness :
  exists r,
    getTotalsByYear
      (Ok ["2021-01-01 - josh doctor - $0.10.pdf";
           "2021-02-03 - jane dentist - $0.20.reimbursed.pdf"]) = Ok r /\
    forall y v,
      Obj.get_own (Totals.expensesByYear r) y = Some v ->
      exists categories,
        Obj.get_own (Totals.expensesByCategory r) y = Some categories /\
        sumZ (fun c => cents_of (Category.expenses c)) (Obj.values categories)
        = cents_of v.
Proof.
  apply (categories_agree_to_the_cent
           ["2021-01-01 - josh doctor - $0.10.pdf";
            "2021-02-03 - jane dentist - $0.20.reimbursed.pdf"]).
  - vm_compute. reflexivity.
  - intros f d [<-|[<-|[]]] H; vm_compute in H; injection H as <-;
      vm_compute; reflexivity.
Defined.

(** C3 as stated fails.  With $0.10 in one category and $0.20 in
    another of the same year, the expenses of the categories add up to
    the double 0.30000000000000004 and [expensesByYear] holds 0.3.  A
    receipt whose category is [constructor] is counted in
    [expensesByYear] and in no category of its year. *)
Lemma categories_differ_as_doubles :
  match getTotalsByYear
          (Ok ["2021-01-01 - josh doctor - $0.10.pdf";
               "2021-02-03 - jane dentist - $0.20.pdf"]) with
  | Ok r =>
      match Obj.get_own (Totals.expensesByCategory r) "2021" with
      | Some categories =>
          num_at (Totals.expensesByYear r) "2021" = of_string "0.3" /\
          sum_numbers (List.map Category.expenses (Obj.values categories))
          = of_string "0.30000000000000004" /\
          eq (sum_numbers (List.map Category.expenses (Obj.values categories)))
             (num_at (Totals.expensesByYear r) "2021") = false
      | None => False
      end
  | Throw _ => False
  end /\
  match getTotalsByYear (Ok ["2021-01-01 - Constructor fee - $50.00.pdf"]) with
  | Ok r =>
      Obj.get_own (Totals.expensesByYear r) "2021" = Some (of_string "50") /\
      Obj.get_own (Totals.expensesByCategory r) "2021" = Some Obj.empty
  | Throw _ => False
  end.
Proof. vm_compute. repeat split. Qed.

(* ================================================================== *)
(** * Rounding at every addition *)
(* ================================================================== *)



(** The first piece of a split starts with what was read so far. *)
Lemma split_go_head sep (s : string) : forall skip cur,
  exists rest pieces, Str.split_go sep skip cur s = (cur ++ rest) :: pieces.
Proof.
  induction s as [|c s IH]; intros skip cur; cbn [Str.split_go].
  - exists "", []. now rewrite append_nil_r.
  - destruct skip as [|k]; [|apply IH].
    destruct (Str.startsWith sep (String c s)).
    + exists "", (Str.split_go sep (String.length sep - 1) "" s).
      now rewrite append_nil_r.
    + destruct (IH 0%nat (cur ++ String c "")) as (rest & pieces & ->).
      exists (String c rest), pieces. now rewrite append_assoc.
Qed.

(** A hidden file has no valid name. *)
Lemma valid_not_hidden (fileName : string) :
  Parsed.isValid (parseFileName fileName) = true ->
  Str.startsWith "." fileName = false.
Proof.
  intros Hv. destruct fileName as [|c s]; [reflexivity|].
  cbn [Str.startsWith]. destruct (Ascii.eqb "." c) eqn:Ec; [|reflexivity].
  exfalso. apply Ascii.eqb_eq in Ec. subst c. revert Hv.
  unfold parseFileName, Str.split. cbn [Str.split_go Str.startsWith].
  change (Ascii.eqb " " ".") with false. cbn [andb append].
  destruct (split_go_head " - " s 0 ".") as (rest & pieces & ->).
  destruct pieces as [|description [|amountPart [|x l]]]; discriminate.
Qed.




(* ================================================================== *)
(** * Sorting *)
(* ================================================================== *)

Section SortBy.
Context {A : Type}.
Variable after : A -> A -> bool.

Lemma insert_by_perm (a : A) (l : list A) :
  Permutation (insert_by after a l) (a :: l).
Proof.
  induction l as [|b l IH]; cbn [insert_by]; [reflexivity|].
  destruct (after a b); [|reflexivity].
  rewrite IH. apply perm_swap.
Qed.

Lemma sort_by_perm (l : list A) : Permutation (sort_by after l) l.
Proof.
  induction l as [|a l IH]; cbn [sort_by fold_right]; [reflexivity|].
  fold (sort_by after l). rewrite insert_by_perm. now constructor.
Qed.

Lemma sort_by_in (l : list A) x : In x (sort_by after l) <-> In x l.
Proof.
  split; apply Permutation_in; [|symmetry]; apply sort_by_perm.
Qed.

Lemma sort_by_length (l : list A) : List.length (sort_by after l) = List.length l.
Proof. apply Permutation_length, sort_by_perm. Qed.

(** Where [a] cannot come both behind [b] and [b] behind [a], no
    element of the sorted list comes behind its successor. *)
Hypothesis after_asym : forall a b, after a b = true -> after b a = false.

Lemma insert_by_sorted (a : A) (l : list A) :
  Sorted (fun x y => after x y = false) l ->
  Sorted (fun x y => after x y = false) (insert_by after a l).
Proof.
  induction 1 as [|b l Hl IH Hb]; cbn [insert_by].
  - repeat constructor.
  - destruct (after a b) eqn:E.
    + constructor; [exact IH|].
      destruct l as [|c l]; cbn [insert_by].
      * constructor. now apply after_asym.
      * destruct (after a c); constructor.
        -- now inversion Hb.
        -- now apply after_asym.
    + constructor; [now constructor|now constructor].
Qed.

Lemma sort_by_sorted (l : list A) :
  Sorted (fun x y => after x y = false) (sort_by after l).
Proof.
  induction l as [|a l IH]; cbn [sort_by fold_right]; [constructor|].
  now apply insert_by_sorted.
Qed.

End SortBy.

(** A number is above [0] when it is finite or infinite with the sign
    of the positive numbers. *)
Lemma gt_zero_sign (x : number) :
  gt x zero = true <->
  (exists m e, x = S754_finite false m e) \/ x = S754_infinity false.
Proof.
  unfold gt, zero, SFltb, SFcompare.
  destruct x as [[|]| [|] | | [|] m e]; split; intros H; try discriminate;
    try reflexivity; eauto;
    destruct H as [(m' & e' & H)|H]; discriminate.
Qed.

Lemma binary_round_aux_sign sx m e l :
  match binary_round_aux prec emax sx m e l with
  | S754_finite s _ _ | S754_infinity s | S754_zero s => s = sx
  | S754_nan => True
  end.
Proof.
  unfold binary_round_aux.
  destruct (shr_fexp prec emax m e l) as [mrs' e'].
  destruct (shr_fexp prec emax _ e' loc_Exact) as [mrs'' e''].
  destruct (shr_m mrs''); try exact I; [reflexivity|].
  destruct (e'' <=? emax - prec); reflexivity.
Qed.

Lemma binary_normalize_negative p e :
  gt (binary_normalize prec emax (Zneg p) e false) zero = false.
Proof.
  unfold binary_normalize, binary_round.
  destruct (shl_align p e _) as [mz ez].
  pose proof (binary_round_aux_sign true (Zpos mz) ez loc_Exact) as H.
  destruct (binary_round_aux prec emax true (Zpos mz) ez loc_Exact); subst;
    reflexivity.
Qed.

(** [b - a > 0] and [a - b > 0] do not hold together. *)
Lemma sub_positive_asym (a b : number) :
  gt (sub b a) zero = true -> gt (sub a b) zero = false.
Proof.
  destruct a as [sa|sa| |sa ma ea], b as [sb|sb| |sb mb eb];
    try (intros H; now (try destruct sa; try destruct sb)).
  unfold sub, SFsub. cbv zeta.
  rewrite (Z.min_comm ea eb).
  set (x := cond_Zopp sb (Zpos (fst (shl_align mb eb (Z.min eb ea))))).
  set (y := cond_Zopp sa (Zpos (fst (shl_align ma ea (Z.min eb ea))))).
  replace (y - x) with (- (x - y)) by lia.
  destruct (x - y) as [|p|p]; cbn [Z.opp]; intros H.
  - reflexivity.
  - apply binary_normalize_negative.
  - now rewrite binary_normalize_negative in H.
Qed.

Lemma larger_first_asym {A} (key : A -> number) (a b : A) :
  larger_first key a b = true -> larger_first key b a = false.
Proof. unfold larger_first. apply sub_positive_asym. Qed.

Lemma sort_by_expenses_eq (l : list (string * Category.t)) :
  sort_by_expenses l
  = sort_by (larger_first (fun entry : string * Category.t =>
                             Category.expenses (snd entry))) l.
Proof.
  unfold sort_by_expenses, sort_by. induction l as [|a l IH]; [reflexivity|].
  cbn [fold_right]. rewrite IH.
  generalize (fold_right
                (insert_by (larger_first (fun entry : string * Category.t =>
                                            Category.expenses (snd entry)))) [] l).
  intros l0. induction l0 as [|b l0 IH0]; [reflexivity|].
  cbn [sort_insert insert_by]. now rewrite IH0.
Qed.

(* ================================================================== *)
(** * The entries of a listing, one after the other *)
(* ================================================================== *)

Lemma filter_snoc {A} (p : A -> bool) (l : list A) x :
  filter p (l ++ [x])%list = (filter p l ++ (if p x then [x] else []))%list.
Proof. rewrite filter_app. cbn [filter]. now destruct (p x). Qed.

Lemma hidden_not_valid (fileName : string) :
  Str.startsWith "." fileName = true ->
  Parsed.isValid (parseFileName fileName) = false.
Proof.
  intros H. destruct (Parsed.isValid (parseFileName fileName)) eqn:E; [|reflexivity].
  apply valid_not_hidden in E. congruence.
Qed.

(** A property of the entries read so far and of the state of the loop
    that holds at the start and is kept by every turn holds at the
    end, and the loop does end. *)
Lemma process_files_trace (P : list string -> Totals.t -> Prop) fileNames :
  (forall before fileName after st st',
      fileNames = (before ++ fileName :: after)%list ->
      same_years st -> P before st -> turn st fileName st' ->
      P (before ++ [fileName])%list st') ->
  P [] Totals.empty ->
  exists r,
    process_files Totals.empty fileNames = Ok r /\ same_years r /\ P fileNames r.
Proof.
  intros Hstep H0.
  assert (G : forall l before st,
             fileNames = (before ++ l)%list -> same_years st -> P before st ->
             exists r, process_files st l = Ok r /\ same_years r /\ P fileNames r).
  { induction l as [|f l IH]; intros before st E Hs HP.
    - rewrite app_nil_r in E. subst before. exists st.
      split; [reflexivity|split; assumption].
    - destruct (process_file_turn st f Hs) as (st' & Hf & Ht & Hs').
      cbn [process_files]. rewrite Hf. apply (IH (before ++ [f])%list).
      + rewrite <- app_assoc. exact E.
      + exact Hs'.
      + now apply (Hstep before f l st st'). }
  apply (G fileNames [] Totals.empty); auto using same_years_empty.
Qed.

Lemma listing_sorted_out (fileNames : list string) :
  exists r,
    process_files Totals.empty fileNames = Ok r /\ same_years r /\
    Totals.invalidFiles r = List.map invalid_of (filter is_invalid_entry fileNames) /\
    Totals.validReceipts r = List.map receipt_of (filter is_recorded fileNames).
Proof.
  apply (process_files_trace
           (fun before st =>
              Totals.invalidFiles st
              = List.map invalid_of (filter is_invalid_entry before) /\
              Totals.validReceipts st
              = List.map receipt_of (filter is_recorded before)));
    [|split; reflexivity].
  intros before f after st st' _ Hs [Hi Hr] Ht.
  rewrite !filter_snoc, !map_app. unfold is_invalid_entry, is_recorded.
  destruct Ht as [Hh|Hh Hv|Hh Hv Ha|year description Hh Hv Hy Hd Ha].
  - rewrite Hh, (hidden_not_valid f Hh). cbn [negb andb List.map].
    rewrite !app_nil_r. now split.
  - rewrite Hh, Hv. cbn [negb andb List.map Totals.invalidFiles Totals.validReceipts].
    rewrite Hi, Hr, app_nil_r. now split.
  - rewrite Hh, Hv, Ha. cbn [negb andb List.map]. rewrite !app_nil_r. now split.
  - rewrite Hh, Hv, Ha. cbn [negb andb List.map]. rewrite receipts_after, app_nil_r.
    split; [exact Hi|]. rewrite Hr. unfold receipt_of, year_of, description_of.
    rewrite Hy, Hd. reflexivity.
Qed.

(* ================================================================== *)
(** * The sums of a year, to the cent *)
(* ================================================================== *)

Lemma sumZ_filter_le {A} (g : A -> Z) (p : A -> bool) (l : list A) :
  (forall x, 0 <= g x) -> 0 <= sumZ g (filter p l) <= sumZ g l.
Proof.
  intros Hg. induction l as [|x l IH]; cbn [filter sumZ fold_right]; [lia|].
  fold (sumZ g l). pose proof (Hg x).
  destruct (p x); cbn [sumZ fold_right]; fold (sumZ g (filter p l)); lia.
Qed.

Lemma total_cents_app (l l' : list string) :
  total_cents (l ++ l')%list = total_cents l + total_cents l'.
Proof. apply sumZ_app. Qed.

Lemma cents_in_year_snoc y (l : list string) f :
  cents_in_year y (l ++ [f])%list
  = cents_in_year y l
    + (if is_recorded f && String.eqb (year_of f) y then written_cents f else 0).
Proof.
  unfold cents_in_year. rewrite filter_snoc, sumZ_app.
  destruct (is_recorded f && String.eqb (year_of f) y); cbn [sumZ fold_right]; lia.
Qed.

Lemma reimbursed_in_year_snoc y (l : list string) f :
  reimbursed_in_year y (l ++ [f])%list
  = reimbursed_in_year y l
    + (if is_recorded f && Parsed.isReimbursement (parseFileName f)
          && String.eqb (year_of f) y
       then written_cents f else 0).
Proof.
  unfold reimbursed_in_year. rewrite filter_snoc, sumZ_app.
  destruct (is_recorded f && Parsed.isReimbursement (parseFileName f)
            && String.eqb (year_of f) y); cbn [sumZ fold_right]; lia.
Qed.

Lemma cents_in_year_le_total y (l : list string) :
  0 <= cents_in_year y l <= total_cents l.
Proof. apply sumZ_filter_le, written_cents_nonneg. Qed.

Lemma reimbursed_le_cents y (l : list string) :
  0 <= reimbursed_in_year y l <= cents_in_year y l.
Proof.
  unfold reimbursed_in_year, cents_in_year.
  induction l as [|f l IH]; cbn [filter sumZ fold_right]; [lia|].
  pose proof (written_cents_nonneg f).
  destruct (is_recorded f), (Parsed.isReimbursement (parseFileName f)),
    (String.eqb (year_of f) y); cbn [andb sumZ fold_right];
    repeat match goal with
           | |- context [fold_right ?h 0 ?l0] =>
               change (fold_right h 0 l0) with (sumZ written_cents l0)
           end; lia.
Qed.

Lemma yearly_sums (fileNames : list string) :
  total_cents fileNames < 10 ^ 14 ->
  exists r,
    process_files Totals.empty fileNames = Ok r /\ same_years r /\
    forall y,
      Obj.get_own (Totals.expensesByYear r) y
      = (if cents_in_year y fileNames =? 0 then None
         else Some (money (cents_in_year y fileNames))) /\
      Obj.get_own (Totals.reimbursementsByYear r) y
      = (if cents_in_year y fileNames =? 0 then None
         else Some (money (reimbursed_in_year y fileNames))).
Proof.
  intros Hb.
  apply (process_files_trace
           (fun before st =>
              forall y,
                Obj.get_own (Totals.expensesByYear st) y
                = (if cents_in_year y before =? 0 then None
                   else Some (money (cents_in_year y before))) /\
                Obj.get_own (Totals.reimbursementsByYear st) y
                = (if cents_in_year y before =? 0 then None
                   else Some (money (reimbursed_in_year y before)))));
    [|intros y; split; reflexivity].
  intros before f after st st' E Hs HP Ht y.
  assert (Hlim : cents_in_year y before + written_cents f < 10 ^ 14).
  { rewrite E, total_cents_app in Hb.
    change (f :: after) with ([f] ++ after)%list in Hb.
    rewrite total_cents_app in Hb.
    pose proof (cents_in_year_le_total y before).
    pose proof (total_cents_nonneg after).
    unfold total_cents at 2 in Hb. cbn [sumZ fold_right] in Hb. lia. }
  rewrite cents_in_year_snoc, reimbursed_in_year_snoc. unfold is_recorded.
  destruct Ht as [Hh|Hh Hv|Hh Hv Ha|year description Hh Hv Hy Hd Ha].
  - rewrite (hidden_not_valid f Hh). cbn [andb]. rewrite !Z.add_0_r. apply HP.
  - rewrite Hv. cbn [andb Totals.expensesByYear Totals.reimbursementsByYear].
    rewrite !Z.add_0_r. apply HP.
  - rewrite Hv, Ha. cbn [andb]. rewrite !Z.add_0_r. apply HP.
  - rewrite Hv, Ha. cbn [andb]. unfold year_of. rewrite Hy. cbn [year_key].
    destruct (String.eqb year y) eqn:Ey.
    + apply String.eqb_eq in Ey. subst y.
      destruct (recorded_amount f Hv Ha) as [Hamt Hc]. rewrite Hamt.
      destruct (HP year) as [He Hr].
      pose proof (reimbursed_le_cents year before) as Hab.
      set (c := written_cents f) in *.
      set (a := cents_in_year year before) in *.
      set (b := reimbursed_in_year year before) in *.
      assert (Hac : (a + c =? 0) = false) by lia. rewrite Hac.
      bounds. split.
      * rewrite expenses_after_same. unfold started, num_at. rewrite He.
        destruct (a =? 0) eqn:Ea.
        -- rewrite round2_add_zero_money by (bounds; lia).
           do 2 f_equal. lia.
        -- rewrite money_truthy by (bounds; lia).
           rewrite round2_add_money by (bounds; lia). reflexivity.
      * destruct (a =? 0) eqn:Ea.
        -- rewrite reimbursements_after_fresh by (unfold started; now rewrite He).
           assert (b = 0) by lia.
           destruct (Parsed.isReimbursement (parseFileName f)); cbn [andb].
           ++ rewrite round2_add_zero_money by (bounds; lia).
              do 2 f_equal. lia.
           ++ rewrite <- money_zero. do 2 f_equal. lia.
        -- rewrite reimbursements_after_same
             by (first [rewrite He | rewrite Hr]; discriminate).
           unfold started, num_at. rewrite He, Hr.
           rewrite money_truthy by (bounds; lia).
           destruct (Parsed.isReimbursement (parseFileName f)); cbn [andb].
           ++ destruct (Z.eq_dec b 0) as [Hb0|Hb0].
              ** rewrite Hb0, money_zero.
                 rewrite round2_add_zero_money by (bounds; lia). reflexivity.
              ** rewrite round2_add_money by (bounds; lia). reflexivity.
           ++ do 2 f_equal. lia.
    + assert (Hne : year <> y)
        by (intros Heq; subst y; rewrite String.eqb_refl in Ey; discriminate).
      rewrite expenses_after_other, reimbursements_after_other by exact Hne.
      rewrite andb_false_r, !Z.add_0_r. apply HP.
Qed.

Lemma sumZ_filter_perm {A} (g : A -> Z) (p : A -> bool) (l l' : list A) :
  Permutation l l' -> sumZ g (filter p l) = sumZ g (filter p l').
Proof.
  induction 1 as [|x l l' _ IH|x y l|l l' l'' _ IH1 _ IH2];
    cbn [filter]; try reflexivity.
  - destruct (p x); cbn [sumZ fold_right]; [|exact IH].
    fold (sumZ g (filter p l)) (sumZ g (filter p l')). now rewrite IH.
  - destruct (p x), (p y); cbn [sumZ fold_right]; lia.
  - now rewrite IH1.
Qed.

(** X1. [getTotalsByYear] lists in [invalidFiles] the entries that are
    not hidden and whose name does not parse, each with the error of
    its name, in the order of the listing. *)
Theorem invalid_files_in_listing_order (fileNames : list string) :
  exists r,
    getTotalsByYear (Ok fileNames) = Ok r /\
    Totals.invalidFiles r
    = List.map (fun f => Invalid.Build f (Parsed.error (parseFileName f)))
               (filter (fun f => negb (Str.startsWith "." f)
                                 && negb (Parsed.isValid (parseFileName f)))
                       fileNames).
Proof.
  destruct (listing_sorted_out fileNames) as (r & Hr & _ & Hi & _).
  exists r. split; [exact Hr|exact Hi].
Qed.

(** X2. [getTotalsByYear] keeps in [validReceipts] one receipt for each
    entry whose name parses with an amount above 0, in the order of
    the listing: its date is the first segment of the name, and its
    year, description, amount and reimbursement mark are those of the
    parse, with the category taken from the description. *)
Theorem valid_receipts_in_listing_order (fileNames : list string) :
  exists r,
    getTotalsByYear (Ok fileNames) = Ok r /\
    Totals.validReceipts r
    = List.map receipt_of
               (filter (fun f => Parsed.isValid (parseFileName f)
                                 && gt (Parsed.amount (parseFileName f)) zero)
                       fileNames).
Proof.
  destruct (listing_sorted_out fileNames) as (r & Hr & _ & _ & Hv).
  exists r. split; [exact Hr|exact Hv].
Qed.

(** X3. For a listing whose valid file names carry less than a
    trillion dollars in all, [expensesByYear[y]] is the double nearest
    to the sum of the amounts written in the counted entries of the
    year [y], taken in cents and divided by 100, and
    [reimbursementsByYear[y]] is the same for the reimbursed ones of
    them; a year without a counted entry has no key. *)
Theorem yearly_totals_to_the_cent (fileNames : list string) :
  total_cents fileNames < 10 ^ 14 ->
  exists r,
    getTotalsByYear (Ok fileNames) = Ok r /\
    forall y,
      Obj.get_own (Totals.expensesByYear r) y
      = (if cents_in_year y fileNames =? 0 then None
         else Some (money (cents_in_year y fileNames))) /\
      Obj.get_own (Totals.reimbursementsByYear r) y
      = (if cents_in_year y fileNames =? 0 then None
         else Some (money (reimbursed_in_year y fileNames))).
Proof.
  intros Hb. destruct (yearly_sums fileNames Hb) as (r & Hr & _ & H).
  exists r. split; [exact Hr|exact H].
Qed.

Lemma yearly_totals_to_the_cent_witness :
  exists r,
    getTotalsByYear
      (Ok ["2021-01-01 - josh doctor - $0.10.pdf";
           "2021-02-03 - josh dentist - $0.20.reimbursed.pdf";
           "2022-04-05 - jane glasses - $129.99.pdf"; "notes.txt"]) = Ok r /\
    forall y,
      Obj.get_own (Totals.expensesByYear r) y
      = (if cents_in_year y
              ["2021-01-01 - josh doctor - $0.10.pdf";
               "2021-02-03 - josh dentist - $0.20.reimbursed.pdf";
               "2022-04-05 - jane glasses - $129.99.pdf"; "notes.txt"] =? 0
         then None
         else Some (money (cents_in_year y
                             ["2021-01-01 - josh doctor - $0.10.pdf";
                              "2021-02-03 - josh dentist - $0.20.reimbursed.pdf";
                              "2022-04-05 - jane glasses - $129.99.pdf";
                              "notes.txt"]))) /\
      Obj.get_own (Totals.reimbursementsByYear r) y
      = (if cents_in_year y
              ["2021-01-01 - josh doctor - $0.10.pdf";
               "2021-02-03 - josh dentist - $0.20.reimbursed.pdf";
               "2022-04-05 - jane glasses - $129.99.pdf"; "notes.txt"] =? 0
         then None
         else Some (money (reimbursed_in_year y
                             ["2021-01-01 - josh doctor - $0.10.pdf";
                              "2021-02-03 - josh dentist - $0.20.reimbursed.pdf";
                              "2022-04-05 - jane glasses - $129.99.pdf";
                              "notes.txt"]))).
Proof.
  apply (yearly_totals_to_the_cent
           ["2021-01-01 - josh doctor - $0.10.pdf";
            "2021-02-03 - josh dentist - $0.20.reimbursed.pdf";
            "2022-04-05 - jane glasses - $129.99.pdf"; "notes.txt"]).
  vm_compute. reflexivity.
Defined.

(** X4. For a listing whose valid file names carry less than a
    trillion dollars in all, the sums by year do not depend on the
    order in which the directory lists its entries. *)
Theorem totals_independent_of_order (fileNames fileNames' : list string) :
  Permutation fileNames fileNames' ->
  total_cents fileNames < 10 ^ 14 ->
  exists r r',
    getTotalsByYear (Ok fileNames) = Ok r /\
    getTotalsByYear (Ok fileNames') = Ok r' /\
    forall y,
      Obj.get_own (Totals.expensesByYear r) y
      = Obj.get_own (Totals.expensesByYear r') y /\
      Obj.get_own (Totals.reimbursementsByYear r) y
      = Obj.get_own (Totals.reimbursementsByYear r') y.
Proof.
  intros Hp Hb.
  assert (Hb' : total_cents fileNames' < 10 ^ 14).
  { unfold total_cents in *.
    rewrite <- (filter_true fileNames'), <- (sumZ_filter_perm _ _ _ _ Hp).
    now rewrite filter_true. }
  destruct (yearly_sums fileNames Hb) as (r & Hr & _ & H).
  destruct (yearly_sums fileNames' Hb') as (r' & Hr' & _ & H').
  exists r, r'. split; [exact Hr|]. split; [exact Hr'|]. intros y.
  destruct (H y) as [-> ->], (H' y) as [-> ->].
  unfold cents_in_year, reimbursed_in_year.
  now rewrite !(sumZ_filter_perm _ _ _ _ Hp).
Qed.

Lemma totals_independent_of_order_witness :
  exists r r',
    getTotalsByYear
      (Ok ["2021-01-01 - josh doctor - $0.10.pdf";
           "2021-02-03 - josh dentist - $0.20.reimbursed.pdf"]) = Ok r /\
    getTotalsByYear
      (Ok ["2021-02-03 - josh dentist - $0.20.reimbursed.pdf";
           "2021-01-01 - josh doctor - $0.10.pdf"]) = Ok r' /\
    forall y,
      Obj.get_own (Totals.expensesByYear r) y
      = Obj.get_own (Totals.expensesByYear r') y /\
      Obj.get_own (Totals.reimbursementsByYear r) y
      = Obj.get_own (Totals.reimbursementsByYear r') y.
Proof.
  apply (totals_independent_of_order
           ["2021-01-01 - josh doctor - $0.10.pdf";
            "2021-02-03 - josh dentist - $0.20.reimbursed.pdf"]
           ["2021-02-03 - josh dentist - $0.20.reimbursed.pdf";
            "2021-01-01 - josh doctor - $0.10.pdf"]).
  - apply perm_swap.
  - vm_compute. reflexivity.
Defined.

(** X5. For a listing whose valid file names carry less than a
    trillion dollars in all, every year with expenses has a sum of
    reimbursements, and that sum is at most the expenses of the year,
    both read to the cent. *)
Theorem reimbursements_within_expenses (fileNames : list string) :
  total_cents fileNames < 10 ^ 14 ->
  exists r,
    getTotalsByYear (Ok fileNames) = Ok r /\
    forall y v,
      Obj.get_own (Totals.expensesByYear r) y = Some v ->
      exists w,
        Obj.get_own (Totals.reimbursementsByYear r) y = Some w /\
        cents_of w <= cents_of v.
Proof.
  intros Hb. destruct (yearly_sums fileNames Hb) as (r & Hr & _ & H).
  exists r. split; [exact Hr|]. intros y v Hv.
  destruct (H y) as [He Hw]. rewrite He in Hv.
  pose proof (reimbursed_le_cents y fileNames).
  pose proof (cents_in_year_le_total y fileNames).
  destruct (cents_in_year y fileNames =? 0); [discriminate|].
  injection Hv as <-. eexists. split; [exact Hw|].
  rewrite !cents_of_money by (bounds; lia). lia.
Qed.

Lemma reimbursements_within_expenses_witness :
  exists r,
    getTotalsByYear
      (Ok ["2021-01-01 - josh doctor - $0.10.pdf";
           "2021-02-03 - josh dentist - $0.20.reimbursed.pdf"]) = Ok r /\
    forall y v,
      Obj.get_own (Totals.expensesByYear r) y = Some v ->
      exists w,
        Obj.get_own (Totals.reimbursementsByYear r) y = Some w /\
        cents_of w <= cents_of v.
Proof.
  apply (reimbursements_within_expenses
           ["2021-01-01 - josh doctor - $0.10.pdf";
            "2021-02-03 - josh dentist - $0.20.reimbursed.pdf"]).
  vm_compute. reflexivity.
Defined.

(* ================================================================== *)
(** * The years of the report *)
(* ================================================================== *)

Lemma existsb_eqb_in (x : string) (l : list string) :
  existsb (String.eqb x) l = true <-> In x l.
Proof.
  rewrite existsb_exists. split.
  - intros (y & Hy & E). apply String.eqb_eq in E. now subst.
  - intros H. exists x. split; [exact H|apply String.eqb_refl].
Qed.

Lemma unique_onto_in (l : list string) : forall seen x,
  In x (unique_onto seen l) <-> In x l /\ ~ In x seen.
Proof.
  induction l as [|a l IH]; intros seen x; cbn [unique_onto In]; [tauto|].
  destruct (existsb (String.eqb a) seen) eqn:E.
  - apply existsb_eqb_in in E. rewrite IH. split.
    + tauto.
    + intros [[->|H] Hn]; tauto.
  - assert (Ha : ~ In a seen).
    { intros H. apply existsb_eqb_in in H. congruence. }
    cbn [In]. rewrite IH. cbn [In]. split.
    + intros [->|(H & Hn)]; [tauto|]. split; [tauto|]. intros Hs. apply Hn. tauto.
    + intros [[->|H] Hn]; [tauto|].
      destruct (string_dec a x) as [->|Hne]; [tauto|]. right. split; [exact H|].
      intros [E'|Hs]; tauto.
Qed.

Lemma unique_onto_nodup (l : list string) : forall seen,
  NoDup (unique_onto seen l).
Proof.
  induction l as [|a l IH]; intros seen; cbn [unique_onto]; [constructor|].
  destruct (existsb (String.eqb a) seen); [apply IH|].
  constructor; [|apply IH]. rewrite unique_onto_in. cbn [In]. tauto.
Qed.

Lemma code_inj (x y : ascii) : Str.code x = Str.code y -> x = y.
Proof.
  unfold Str.code. intros H. apply N2Z.inj in H.
  rewrite <- (ascii_N_embedding x), <- (ascii_N_embedding y). now rewrite H.
Qed.

Lemma string_lt_asym (a : string) : forall b,
  string_lt a b = true -> string_lt b a = false.
Proof.
  induction a as [|x a IH]; intros [|y b]; cbn [string_lt]; try easy.
  destruct (Str.code x <? Str.code y) eqn:E1, (Str.code y <? Str.code x) eqn:E2;
    try easy; [lia|apply IH].
Qed.

Lemma string_lt_total (a : string) : forall b,
  string_lt a b = false -> string_lt b a = false -> a = b.
Proof.
  induction a as [|x a IH]; intros [|y b]; cbn [string_lt]; try easy.
  destruct (Str.code x <? Str.code y) eqn:E1, (Str.code y <? Str.code x) eqn:E2;
    try easy.
  intros H1 H2. f_equal; [apply code_inj; lia|now apply IH].
Qed.

Lemma sorted_strict (l : list string) :
  NoDup l ->
  Sorted (fun a b => string_lt b a = false) l ->
  Sorted (fun a b => string_lt a b = true) l.
Proof.
  induction 2 as [|a l Hl IH Ha]; [constructor|].
  inversion H as [|a' l' Hn Hd]; subst. constructor; [now apply IH|].
  destruct Ha as [|b l Hb]; constructor.
  destruct (string_lt a b) eqn:E; [reflexivity|].
  exfalso. apply Hn. left. symmetry. now apply string_lt_total.
Qed.

Lemma sort_strings_ascending (l : list string) :
  NoDup l -> Sorted (fun a b => string_lt a b = true) (sort_strings l).
Proof.
  intros Hn. apply sorted_strict.
  - eapply Permutation_NoDup; [symmetry; apply sort_by_perm|exact Hn].
  - apply (sort_by_sorted (fun a b => string_lt b a)).
    intros a b. apply string_lt_asym.
Qed.

(** The keys of [expensesByYear] are the years of the counted
    entries. *)
Lemma year_keys_of_listing (fileNames : list string) :
  exists r,
    process_files Totals.empty fileNames = Ok r /\ same_years r /\
    forall y,
      In y (Obj.keys (Totals.expensesByYear r))
      <-> In y (List.map year_of (filter is_recorded fileNames)).
Proof.
  apply (process_files_trace
           (fun before st =>
              forall y,
                In y (Obj.keys (Totals.expensesByYear st))
                <-> In y (List.map year_of (filter is_recorded before))));
    [|intros y; reflexivity].
  intros before f after st st' _ Hs HP Ht y.
  rewrite filter_snoc, map_app, in_app_iff. unfold is_recorded at 2.
  destruct Ht as [Hh|Hh Hv|Hh Hv Ha|year description Hh Hv Hy Hd Ha].
  - rewrite (hidden_not_valid f Hh). cbn [andb List.map In]. rewrite HP. tauto.
  - rewrite Hv. cbn [andb List.map In Totals.expensesByYear]. rewrite HP. tauto.
  - rewrite Hv, Ha. cbn [andb List.map In]. rewrite HP. tauto.
  - rewrite Hv, Ha. cbn [andb List.map In]. unfold year_of at 2.
    rewrite Hy. cbn [year_key]. rewrite get_own_in_keys.
    destruct (string_dec year y) as [->|Hne].
    + rewrite expenses_after_same. split; [tauto|discriminate].
    + rewrite expenses_after_other by exact Hne.
      rewrite <- get_own_in_keys, HP. tauto.
Qed.

Lemma digit_not_prototype c (s : string) :
  Str.is_digit c = true -> Obj.is_prototype_name (String c s) = false.
Proof.
  intros H. unfold Obj.is_prototype_name, Obj.prototype_names.
  cbn [existsb String.eqb].
  destruct c as [[] [] [] [] [] [] [] []]; try discriminate H; reflexivity.
Qed.

(** The year of a valid name is made of four digits. *)
Lemma valid_year_digits (fileName : string) :
  Parsed.isValid (parseFileName fileName) = true ->
  exists y1 y2 y3 y4,
    Parsed.year (parseFileName fileName)
    = Some (String y1 (String y2 (String y3 (String y4 "")))) /\
    Str.is_digit y1 = true /\ Str.is_digit y2 = true /\
    Str.is_digit y3 = true /\ Str.is_digit y4 = true.
Proof.
  unfold parseFileName.
  destruct (Str.split " - " fileName) as [|date [|descr [|amt [|x rest]]]];
    try discriminate.
  destruct (Re.test_whole Re.date_re date) eqn:Hd; try discriminate. cbn [negb].
  destruct (date_re_shape date Hd)
    as (y1 & y2 & y3 & y4 & m1 & m2 & d1 & d2 & -> & H1 & H2 & H3 & H4
        & H5 & H6 & H7 & H8).
  rewrite split_date by assumption.
  destruct (date_numbers _) as [|? [|? [|? ?]]]; try discriminate.
  destruct (_ || _); try discriminate.
  destruct (Str.startsWith "$" amt); try discriminate. cbn [negb].
  destruct (Re.test_end Re.extension_re amt); try discriminate. cbn [negb].
  destruct (Re.test_whole Re.amount_re (strip_amount amt)); try discriminate.
  cbn [negb]. destruct (isNaN _); try discriminate. intros _.
  exists y1, y2, y3, y4. cbn [hd Parsed.year]. now repeat split.
Qed.

Lemma recorded_year_plain (fileNames : list string) y :
  In y (List.map year_of (filter is_recorded fileNames)) ->
  Obj.is_prototype_name y = false.
Proof.
  rewrite in_map_iff. intros (f & <- & Hf). apply filter_In in Hf.
  destruct Hf as [_ Hf]. unfold is_recorded in Hf.
  apply andb_true_iff in Hf. destruct Hf as [Hv _].
  destruct (valid_year_digits f Hv) as (y1 & y2 & y3 & y4 & Hy & H1 & _).
  unfold year_of. rewrite Hy. cbn [year_key]. now apply digit_not_prototype.
Qed.

Lemma report_years_spec (fileNames : list string) :
  exists r,
    process_files Totals.empty fileNames = Ok r /\ same_years r /\
    Sorted (fun a b => string_lt a b = true) (report_years r) /\
    forall y,
      In y (report_years r)
      <-> In y (List.map year_of (filter is_recorded fileNames)).
Proof.
  destruct (year_keys_of_listing fileNames) as (r & Hr & Hs & Hk).
  exists r. split; [exact Hr|]. split; [exact Hs|]. unfold report_years. split.
  - apply sort_strings_ascending, unique_onto_nodup.
  - intros y. unfold sort_strings. rewrite sort_by_in. unfold unique.
    rewrite unique_onto_in, in_app_iff. destruct Hs as (H1 & _).
    rewrite <- H1, <- Hk. cbn [In]. tauto.
Qed.

(** X6. The years of the report, as [main] computes them from the
    result of [getTotalsByYear], are the years of the entries that are
    counted, each once and in ascending order. *)
Theorem report_years_ascending (fileNames : list string) :
  exists r,
    getTotalsByYear (Ok fileNames) = Ok r /\
    Sorted (fun a b => string_lt a b = true) (report_years r) /\
    forall y,
      In y (report_years r)
      <-> exists f,
            In f fileNames /\
            Parsed.isValid (parseFileName f) = true /\
            gt (Parsed.amount (parseFileName f)) zero = true /\
            Parsed.year (parseFileName f) = Some y.
Proof.
  destruct (report_years_spec fileNames) as (r & Hr & _ & Hs & Hy).
  exists r. split; [exact Hr|]. split; [exact Hs|]. intros y.
  rewrite Hy, in_map_iff. split.
  - intros (f & E & Hf). apply filter_In in Hf. destruct Hf as [Hin Hf].
    unfold is_recorded in Hf. apply andb_true_iff in Hf. destruct Hf as [Hv Ha].
    exists f. repeat split; try assumption.
    destruct (parse_valid_fields f Hv) as (y' & d & Hy' & _).
    unfold year_of in E. rewrite Hy' in E. cbn [year_key] in E. now subst.
  - intros (f & Hin & Hv & Ha & Hf). exists f. split.
    + unfold year_of. now rewrite Hf.
    + apply filter_In. split; [exact Hin|]. unfold is_recorded. now rewrite Hv, Ha.
Qed.

(* ================================================================== *)
(** * The lines of the report *)
(* ================================================================== *)

Section Rows.

Variables expensesByYear reimbursementsByYear receiptCounts : Obj.t number.
Variable expensesByCategory : Obj.t (Obj.t Category.t).

Let step := report_year expensesByYear reimbursementsByYear receiptCounts
                        expensesByCategory.
Let row := year_row expensesByYear reimbursementsByYear receiptCounts
                    expensesByCategory.

Lemma report_year_result acc year :
  Report.result (step acc year) = Obj.set year (row year) (Report.result acc).
Proof.
  unfold step, row, report_year, year_row. cbn [Report.result].
  now destruct (Obj.get_own expensesByCategory year).
Qed.

Lemma report_rows years : forall acc y,
  Obj.get_own (Report.result (fold_left step years acc)) y
  = if in_dec string_dec y years then Some (row y)
    else Obj.get_own (Report.result acc) y.
Proof.
  induction years as [|year years IH]; intros acc y; [reflexivity|].
  cbn [fold_left]. rewrite IH.
  destruct (in_dec string_dec y years) as [Hin|Hin],
           (in_dec string_dec y (year :: years)) as [Hin'|Hin'];
    try reflexivity.
  - exfalso. apply Hin'. now right.
  - rewrite report_year_result. destruct Hin' as [->|Hin']; [|contradiction].
    apply get_own_set_same.
  - rewrite report_year_result. apply get_own_set_other.
    intros ->. apply Hin'. now left.
Qed.

Lemma report_row years y :
  In y years -> y <> "Total" ->
  Obj.get_own
    (buildYearlyResultObject years expensesByYear reimbursementsByYear
                             receiptCounts expensesByCategory) y
  = Some (row y).
Proof.
  intros Hin Hne. unfold buildYearlyResultObject.
  rewrite get_own_set_other by congruence.
  fold step. rewrite report_rows.
  destruct (in_dec string_dec y years); [reflexivity|contradiction].
Qed.

End Rows.

Lemma chart_data years expensesByYear reimbursementsByYear : forall acc,
  fold_left (chart_year expensesByYear reimbursementsByYear) years acc
  = Chart.Build
      (Chart.expenseData acc
       ++ List.map (fun y => Point.Build y (or_zero expensesByYear y)) years)%list
      (Chart.reimbursementData acc
       ++ List.map (fun y => Point.Build y (or_zero reimbursementsByYear y)) years)%list.
Proof.
  induction years as [|y years IH]; intros [e r]; cbn [fold_left List.map].
  - now rewrite !app_nil_r.
  - rewrite IH. unfold chart_year. cbn [Chart.expenseData Chart.reimbursementData].
    now rewrite <- !app_assoc.
Qed.

Lemma fold_add_map {A} (g : A -> number) (l : list A) : forall acc,
  fold_left (fun sum x => add sum (g x)) l acc
  = fold_left add (List.map g l) acc.
Proof. induction l as [|x l IH]; intros acc; [reflexivity|apply IH]. Qed.

Lemma sumZ_member {A} (g : A -> Z) (l : list A) x :
  (forall y, 0 <= g y) -> In x l -> g x <= sumZ g l.
Proof.
  intros Hg. induction l as [|a l IH]; cbn [In sumZ fold_right]; [tauto|].
  fold (sumZ g l). pose proof (Hg a).
  assert (0 <= sumZ g l).
  { pose proof (sumZ_filter_le g (fun _ => true) l Hg) as H0.
    rewrite filter_true in H0. lia. }
  intros [->|Hl]; [|specialize (IH Hl)]; lia.
Qed.

Lemma recorded_year_shape (fileNames : list string) y :
  In y (List.map year_of (filter is_recorded fileNames)) ->
  exists c s, y = String c s /\ Str.is_digit c = true.
Proof.
  rewrite in_map_iff. intros (f & <- & Hf). apply filter_In in Hf.
  destruct Hf as [_ Hf]. unfold is_recorded in Hf.
  apply andb_true_iff in Hf. destruct Hf as [Hv _].
  destruct (valid_year_digits f Hv) as (y1 & y2 & y3 & y4 & Hy & H1 & _).
  unfold year_of. rewrite Hy. cbn [year_key]. eauto.
Qed.

Lemma recorded_year_not_total (fileNames : list string) y :
  In y (List.map year_of (filter is_recorded fileNames)) -> y <> "Total".
Proof.
  intros H. destruct (recorded_year_shape fileNames y H) as (c & s & -> & Hc).
  intros E. injection E as -> _. discriminate Hc.
Qed.

Lemma dollars_or_zero_money (o : Obj.t number) y c :
  0 <= c < 10 ^ 15 ->
  Obj.get_own o y = Some (money c) ->
  dollars (or_zero o y) = "$" ++ fixed_digits c 2.
Proof.
  intros Hc H. unfold dollars, or_zero. rewrite H. f_equal.
  destruct (Z.eq_dec c 0) as [->|Hne].
  - rewrite money_zero. reflexivity.
  - rewrite money_truthy by lia. now apply toFixed_money.
Qed.

(** X7. For a listing whose valid file names carry less than a
    trillion dollars in all, the report that [main] builds has, for
    each of its years, a line whose expenses are the sum of the amounts
    written in the counted entries of the year, and whose
    reimbursements are the sum of those written in the reimbursed ones
    of them, both exact to the cent. *)
Theorem report_shows_written_sums (fileNames : list string) (byCategory : bool) :
  total_cents fileNames < 10 ^ 14 ->
  exists r,
    getTotalsByYear (Ok fileNames) = Ok r /\
    let result :=
      buildYearlyResultObject
        (report_years r) (Totals.expensesByYear r) (Totals.reimbursementsByYear r)
        (Totals.receiptCounts r)
        (if byCategory then Totals.expensesByCategory r else Obj.empty) in
    forall y,
      In y (report_years r) ->
      exists row,
        Obj.get_own result y = Some row /\
        Row.expenses row = "$" ++ fixed_digits (cents_in_year y fileNames) 2 /\
        Row.reimbursements row
        = "$" ++ fixed_digits (reimbursed_in_year y fileNames) 2.
Proof.
  intros Hb.
  destruct (yearly_sums fileNames Hb) as (r & Hr & _ & Hsum).
  destruct (report_years_spec fileNames) as (r' & Hr' & _ & _ & Hy).
  rewrite Hr in Hr'. injection Hr' as <-.
  exists r. split; [exact Hr|]. intros result y Hin.
  apply Hy in Hin.
  pose proof (recorded_year_not_total fileNames y Hin) as Hne.
  assert (Hc : cents_in_year y fileNames <> 0).
  { unfold cents_in_year. apply in_map_iff in Hin. destruct Hin as (f & E & Hf).
    apply filter_In in Hf. destruct Hf as [Hin Hf].
    assert (Hf' : In f (filter (fun f => is_recorded f && String.eqb (year_of f) y)
                               fileNames)).
    { apply filter_In. split; [exact Hin|]. rewrite Hf, E. apply String.eqb_refl. }
    unfold is_recorded in Hf. apply andb_true_iff in Hf. destruct Hf as [Hv Ha].
    destruct (recorded_amount f Hv Ha) as [_ H1].
    pose proof (sumZ_member written_cents _ f written_cents_nonneg Hf'). lia. }
  destruct (Hsum y) as [He Hw].
  pose proof (cents_in_year_le_total y fileNames).
  pose proof (reimbursed_le_cents y fileNames).
  destruct (cents_in_year y fileNames =? 0) eqn:E0; [lia|].
  unfold result. rewrite report_row; [|now apply Hy|exact Hne].
  eexists. split; [reflexivity|]. unfold year_row. cbn [Row.expenses Row.reimbursements].
  split; eapply dollars_or_zero_money; try eassumption; bounds; lia.
Qed.

Lemma report_shows_written_sums_witness :
  exists r,
    getTotalsByYear
      (Ok ["2021-01-01 - josh doctor - $0.10.pdf";
           "2021-02-03 - josh dentist - $0.20.reimbursed.pdf"]) = Ok r /\
    let result :=
      buildYearlyResultObject
        (report_years r) (Totals.expensesByYear r) (Totals.reimbursementsByYear r)
        (Totals.receiptCounts r)
        (if true then Totals.expensesByCategory r else Obj.empty) in
    forall y,
      In y (report_years r) ->
      exists row,
        Obj.get_own result y = Some row /\
        Row.expenses row
        = "$" ++ fixed_digits
                   (cents_in_year y
                      ["2021-01-01 - josh doctor - $0.10.pdf";
                       "2021-02-03 - josh dentist - $0.20.reimbursed.pdf"]) 2 /\
        Row.reimbursements row
        = "$" ++ fixed_digits
                   (reimbursed_in_year y
                      ["2021-01-01 - josh doctor - $0.10.pdf";
                       "2021-02-03 - josh dentist - $0.20.reimbursed.pdf"]) 2.
Proof.
  apply (report_shows_written_sums
           ["2021-01-01 - josh doctor - $0.10.pdf";
            "2021-02-03 - josh dentist - $0.20.reimbursed.pdf"] true).
  vm_compute. reflexivity.
Defined.

Lemma stats_totals years expensesByYear reimbursementsByYear receiptCounts
    invalidFiles :
  let stats :=
    calculateSummaryStats years expensesByYear reimbursementsByYear
                          receiptCounts invalidFiles in
  Stats.totalExpenses stats
  = fold_left add (List.map (or_zero expensesByYear) years) zero /\
  Stats.totalReimbursements stats
  = fold_left add (List.map (or_zero reimbursementsByYear) years) zero.
Proof. cbv zeta. rewrite <- !fold_add_map. split; reflexivity. Qed.

(** X8. The totals of the summary and the line [Total] of the report,
    as [main] computes both from the result of [getTotalsByYear], show
    the same expenses and the same reimbursements. *)
Theorem summary_totals_match_report (fileNames : list string) (byCategory : bool) :
  exists r,
    getTotalsByYear (Ok fileNames) = Ok r /\
    let years := report_years r in
    let stats :=
      calculateSummaryStats years (Totals.expensesByYear r)
        (Totals.reimbursementsByYear r) (Totals.receiptCounts r)
        (Totals.invalidFiles r) in
    let result :=
      buildYearlyResultObject years (Totals.expensesByYear r)
        (Totals.reimbursementsByYear r) (Totals.receiptCounts r)
        (if byCategory then Totals.expensesByCategory r else Obj.empty) in
    exists total,
      Obj.get_own result "Total" = Some total /\
      Row.expenses total = dollars (Stats.totalExpenses stats) /\
      Row.reimbursements total = dollars (Stats.totalReimbursements stats) /\
      Row.byCategory total = None.
Proof.
  destruct (listing_sorted_out fileNames) as (r & Hr & _).
  exists r. split; [exact Hr|]. intros years stats result.
  unfold result, buildYearlyResultObject. rewrite get_own_set_same.
  eexists. split; [reflexivity|]. cbn [Row.expenses Row.reimbursements Row.byCategory].
  destruct (report_totals (Totals.expensesByYear r) (Totals.reimbursementsByYear r)
              (Totals.receiptCounts r)
              (if byCategory then Totals.expensesByCategory r else Obj.empty)
              years (Report.Build Obj.empty zero zero zero)) as (H1 & H2 & _).
  cbv zeta in H1, H2. rewrite H1, H2. unfold stats.
  destruct (stats_totals years (Totals.expensesByYear r)
              (Totals.reimbursementsByYear r) (Totals.receiptCounts r)
              (Totals.invalidFiles r)) as [-> ->].
  now repeat split.
Qed.

(** X9. The bars that [prepareChartData] makes for the report of
    [main] are one for each year of the report, in the order of the
    years and labelled with the year, in both series; the value of a
    bar, written with two decimals, is what the line of its year shows
    in the report. *)
Theorem chart_matches_report (fileNames : list string) (byCategory : bool) :
  exists r,
    getTotalsByYear (Ok fileNames) = Ok r /\
    let years := report_years r in
    let chart :=
      prepareChartData years (Totals.expensesByYear r)
                       (Totals.reimbursementsByYear r) in
    let result :=
      buildYearlyResultObject years (Totals.expensesByYear r)
        (Totals.reimbursementsByYear r) (Totals.receiptCounts r)
        (if byCategory then Totals.expensesByCategory r else Obj.empty) in
    List.map Point.label (Chart.expenseData chart) = years /\
    List.map Point.label (Chart.reimbursementData chart) = years /\
    (forall bar, In bar (Chart.expenseData chart) ->
       exists row, Obj.get_own result (Point.label bar) = Some row /\
                   Row.expenses row = dollars (Point.value bar)) /\
    (forall bar, In bar (Chart.reimbursementData chart) ->
       exists row, Obj.get_own result (Point.label bar) = Some row /\
                   Row.reimbursements row = dollars (Point.value bar)).
Proof.
  destruct (report_years_spec fileNames) as (r & Hr & _ & _ & Hy).
  exists r. split; [exact Hr|]. intros years chart result.
  unfold chart, prepareChartData. rewrite chart_data.
  cbn [Chart.expenseData Chart.reimbursementData app].
  rewrite !map_map. cbn [Point.label]. rewrite !map_id.
  split; [reflexivity|]. split; [reflexivity|].
  split; intros bar Hbar; apply in_map_iff in Hbar;
    destruct Hbar as (y & <- & Hin); cbn [Point.label Point.value];
    unfold result;
    (rewrite report_row;
     [|exact Hin|apply (recorded_year_not_total fileNames), Hy, Hin]);
    eexists; (split; [reflexivity|reflexivity]).
Qed.

(* ================================================================== *)
(** * The breakdown by category *)
(* ================================================================== *)

Lemma get_own_none_keys {V} (o : Obj.t V) k :
  Obj.get_own o k = None <-> ~ In k (Obj.keys o).
Proof.
  rewrite get_own_in_keys. destruct (Obj.get_own o k); split; try easy.
  intros H. exfalso. apply H. discriminate.
Qed.

Lemma set_lines (l : list (string * Category.t)) : forall acc : Obj.t Line.t,
  NoDup (List.map fst l) ->
  (forall k, In k (List.map fst l) ->
             Obj.is_array_index k = false /\ Obj.get_own acc k = None) ->
  fold_left
    (fun byCategory entry =>
       Obj.set (fst entry) (category_line (snd entry)) byCategory) l acc
  = (acc ++ List.map (fun entry => (fst entry, category_line (snd entry))) l)%list.
Proof.
  induction l as [|[k t] l IH]; intros acc Hn Hk; cbn [fold_left List.map].
  - now rewrite app_nil_r.
  - cbn [List.map fst] in Hn, Hk. inversion Hn as [|? ? Hnot Hn']; subst.
    destruct (Hk k (or_introl eq_refl)) as [Hi Hg].
    cbn [fst snd]. unfold Obj.set at 2. rewrite Hg, Hi.
    rewrite IH; [now rewrite <- app_assoc|exact Hn'|].
    intros k' Hin. destruct (Hk k' (or_intror Hin)) as [Hi' Hg'].
    split; [exact Hi'|]. rewrite get_own_app, Hg'. cbn [Obj.get_own].
    destruct (String.eqb k k') eqn:E; [|reflexivity].
    apply String.eqb_eq in E. subst k'. contradiction.
Qed.

Lemma category_lines_sorted (categories : Obj.t Category.t) :
  NoDup (Obj.keys categories) ->
  (forall k, In k (Obj.keys categories) -> Obj.is_array_index k = false) ->
  category_lines categories
  = List.map (fun entry => (fst entry, category_line (snd entry)))
             (sort_by_expenses categories).
Proof.
  intros Hn Hi. unfold category_lines.
  assert (Hp : Permutation (List.map fst (sort_by_expenses categories))
                           (Obj.keys categories)).
  { rewrite sort_by_expenses_eq. apply Permutation_map, sort_by_perm. }
  rewrite set_lines; [reflexivity|..].
  - eapply Permutation_NoDup; [symmetry; exact Hp|exact Hn].
  - intros k Hk. split; [|reflexivity]. apply Hi.
    eapply Permutation_in; [exact Hp|exact Hk].
Qed.

(** X10. Where a year of the report has categories, none of them
    named by an array index, the line of the year lists them with the
    largest expenses first: the breakdown has one line for each
    category, written in an order in which no category is followed by
    one that the comparison of the sort puts ahead of it.  The years
    and the categories are not named like members of
    [Object.prototype], and the expenses are numbers, not [NaN]. *)
Theorem breakdown_largest_first
    (years : list string)
    (expensesByYear reimbursementsByYear receiptCounts : Obj.t number)
    (expensesByCategory : Obj.t (Obj.t Category.t))
    (year : string) (categories : Obj.t Category.t) :
  plain_years years ->
  In year years -> year <> "Total" ->
  Obj.get_own expensesByCategory year = Some categories ->
  NoDup (Obj.keys categories) ->
  (forall k, In k (Obj.keys categories) ->
             Obj.is_array_index k = false /\ Obj.is_prototype_name k = false) ->
  (forall t, In t (Obj.values categories) -> isNaN (Category.expenses t) = false) ->
  exists row sorted,
    Obj.get_own
      (buildYearlyResultObject years expensesByYear reimbursementsByYear
                               receiptCounts expensesByCategory) year
    = Some row /\
    Row.byCategory row
    = Some (List.map (fun entry => (fst entry, category_line (snd entry))) sorted) /\
    Permutation sorted categories /\
    Sorted (fun a b =>
              gt (sub (Category.expenses (snd b)) (Category.expenses (snd a))) zero
              = false) sorted.
Proof.
  intros _ Hin Hne Hc Hn Hk _.
  exists (year_row expensesByYear reimbursementsByYear receiptCounts
                   expensesByCategory year), (sort_by_expenses categories).
  split; [now apply report_row|]. split.
  - unfold year_row. cbn [Row.byCategory]. rewrite Hc. cbn [option_map].
    f_equal. apply category_lines_sorted; [exact Hn|]. intros k H. now apply Hk.
  - rewrite sort_by_expenses_eq. split; [apply sort_by_perm|].
    apply (sort_by_sorted
             (larger_first (fun entry : string * Category.t =>
                              Category.expenses (snd entry)))).
    intros a b. apply larger_first_asym.
Qed.

Lemma breakdown_largest_first_witness :
  exists row sorted,
    Obj.get_own
      (buildYearlyResultObject ["2022"; "2023"]
         [("2022", of_Z 350); ("2023", of_Z 350)]
         [("2022", of_Z 300); ("2023", of_Z 150)]
         [("2022", of_Z 2); ("2023", of_Z 2)]
         [("2022", [("pharmacy", Category.Build (of_Z 50) zero (of_Z 1));
                    ("dental", Category.Build (of_Z 300) (of_Z 300) (of_Z 1))])])
      "2022"
    = Some row /\
    Row.byCategory row
    = Some (List.map (fun entry => (fst entry, category_line (snd entry))) sorted) /\
    Permutation sorted
      [("pharmacy", Category.Build (of_Z 50) zero (of_Z 1));
       ("dental", Category.Build (of_Z 300) (of_Z 300) (of_Z 1))] /\
    Sorted (fun a b =>
              gt (sub (Category.expenses (snd b)) (Category.expenses (snd a))) zero
              = false) sorted.
Proof.
  apply (breakdown_largest_first ["2022"; "2023"]
           [("2022", of_Z 350); ("2023", of_Z 350)]
           [("2022", of_Z 300); ("2023", of_Z 150)]
           [("2022", of_Z 2); ("2023", of_Z 2)]
           [("2022", [("pharmacy", Category.Build (of_Z 50) zero (of_Z 1));
                      ("dental", Category.Build (of_Z 300) (of_Z 300) (of_Z 1))])]
           "2022"
           [("pharmacy", Category.Build (of_Z 50) zero (of_Z 1));
            ("dental", Category.Build (of_Z 300) (of_Z 300) (of_Z 1))]).
  - intros y [<-|[<-|[]]]; reflexivity.
  - now left.
  - discriminate.
  - reflexivity.
  - repeat constructor; cbn [In]; intuition discriminate.
  - intros k [<-|[<-|[]]]; split; reflexivity.
  - intros t [<-|[<-|[]]]; reflexivity.
Defined.

(* ================================================================== *)
(** * A file name put together and parsed again *)
(* ================================================================== *)

Lemma digit_more_facts c :
  Str.is_digit c = true ->
  Ascii.eqb " " c = false /\ Ascii.eqb "r" c = false /\
  Str.is_alpha c = false.
Proof.
  intros H. destruct c as [[] [] [] [] [] [] [] []]; try discriminate H;
    repeat split; reflexivity.
Qed.

Lemma alpha_facts c :
  Str.is_alpha c = true ->
  Ascii.eqb " " c = false /\ Ascii.eqb "." c = false /\
  Ascii.eqb c "." = false /\ Str.is_line_terminator c = false.
Proof.
  intros H. destruct c as [[] [] [] [] [] [] [] []]; try discriminate H;
    repeat split; reflexivity.
Qed.

Lemma all_impl (p q : ascii -> bool) (s : string) :
  (forall c, p c = true -> q c = true) ->
  Str.all p s = true -> Str.all q s = true.
Proof.
  intros Hpq. induction s as [|c s IH]; cbn [Str.all]; [reflexivity|].
  intros H. apply andb_true_iff in H. destruct H as [Hc Hs].
  now rewrite (Hpq c Hc), IH.
Qed.

Section Pieces.

(** The characters that start no separator [" - "]. *)
Let plain (c : ascii) : bool := negb (Ascii.eqb " " c).

Lemma split_go_plain (a : string) : forall cur rest,
  Str.all plain a = true ->
  Str.split_go " - " 0 cur (a ++ rest) = Str.split_go " - " 0 (cur ++ a) rest.
Proof.
  induction a as [|c a IH]; intros cur rest H.
  - now rewrite append_nil_r.
  - cbn [Str.all] in H. apply andb_true_iff in H. destruct H as [Hc Ha].
    cbn [append Str.split_go Str.startsWith].
    unfold plain in Hc. apply negb_true_iff in Hc. rewrite Hc. cbn [andb].
    rewrite IH by exact Ha. now rewrite append_assoc.
Qed.

Lemma split_plain (a : string) :
  Str.all plain a = true -> Str.split_go " - " 0 "" a = [a].
Proof.
  intros H. rewrite <- (append_nil_r a) at 1. now rewrite split_go_plain.
Qed.

Lemma split_go_separator (d : string) : forall cur rest,
  Str.includes " -" d = false ->
  Str.split_go " - " 0 cur (d ++ String " " (String "-" (String " " rest)))
  = (cur ++ d) :: Str.split_go " - " 0 "" rest.
Proof.
  induction d as [|c d IH]; intros cur rest H.
  - rewrite append_nil_r. reflexivity.
  - cbn [Str.includes] in H. apply orb_false_iff in H. destruct H as [Hs Hd].
    cbn [append Str.split_go].
    assert (E : Str.startsWith " - "
                  (String c (d ++ String " " (String "-" (String " " rest))))
                = false).
    { cbn [Str.startsWith] in Hs |- *.
      destruct (Ascii.eqb " " c); [|reflexivity]. cbn [andb] in Hs |- *.
      destruct d as [|c2 d]; [reflexivity|].
      cbn [append] in *. destruct (Ascii.eqb "-" c2); [discriminate Hs|reflexivity]. }
    rewrite E, IH by exact Hd. now rewrite append_assoc.
Qed.

Lemma includes_plain (a : string) :
  Str.all plain a = true -> Str.includes " -" a = false.
Proof.
  induction a as [|c a IH]; [reflexivity|]. cbn [Str.all Str.includes Str.startsWith].
  intros H. apply andb_true_iff in H. destruct H as [Hc Ha].
  unfold plain in Hc. apply negb_true_iff in Hc. rewrite Hc. now apply IH.
Qed.

Lemma digits_plain (s : string) :
  Str.all Str.is_digit s = true -> Str.all plain s = true.
Proof.
  apply all_impl. intros c Hc. unfold plain.
  now destruct (digit_more_facts c Hc) as (-> & _).
Qed.

Lemma alpha_plain (s : string) :
  Str.all Str.is_alpha s = true -> Str.all plain s = true.
Proof.
  apply all_impl. intros c Hc. unfold plain.
  now destruct (alpha_facts c Hc) as (-> & _).
Qed.

Lemma date_plain (date : string) :
  Re.test_whole Re.date_re date = true -> Str.all plain date = true.
Proof.
  intros H. destruct (date_re_shape date H)
    as (y1 & y2 & y3 & y4 & m1 & m2 & d1 & d2 & -> & H1 & H2 & H3 & H4
        & H5 & H6 & H7 & H8).
  cbn [Str.all]. unfold plain.
  destruct (digit_more_facts y1 H1) as (-> & _), (digit_more_facts y2 H2) as (-> & _),
    (digit_more_facts y3 H3) as (-> & _), (digit_more_facts y4 H4) as (-> & _),
    (digit_more_facts m1 H5) as (-> & _), (digit_more_facts m2 H6) as (-> & _),
    (digit_more_facts d1 H7) as (-> & _), (digit_more_facts d2 H8) as (-> & _).
  reflexivity.
Qed.

(** The three segments of a name put together from its parts. *)
Lemma split_file_name (date description amountStr : string) (reimbursed : bool)
    (extension : string) :
  Re.test_whole Re.date_re date = true ->
  Str.includes " -" description = false ->
  Re.test_whole Re.amount_re amountStr = true ->
  Str.all Str.is_alpha extension = true ->
  Str.split " - " (file_name date description amountStr reimbursed extension)
  = [date; description;
     "$" ++ amountStr ++ (if reimbursed then ".reimbursed." else ".") ++ extension].
Proof.
  intros Hd Hn Ha He. unfold Str.split, file_name.
  change (" - " ++ description ++ " - $" ++ ?x)
    with (String " " (String "-" (String " "
            (description ++ String " " (String "-" (String " " ("$" ++ x))))))).
  rewrite split_go_separator by (apply includes_plain, date_plain, Hd).
  rewrite split_go_separator by exact Hn.
  cbn [append]. rewrite split_plain; [reflexivity|].
  destruct (amount_re_shape amountStr Ha) as (c & ip & a & b & -> & Hip & Hda & Hdb).
  change (String "$" ?x) with ("$" ++ x).
  repeat rewrite all_append. rewrite (digits_plain _ Hip), (alpha_plain _ He).
  cbn [Str.all]. unfold plain at 2 3 4.
  destruct (digit_more_facts a Hda) as (-> & _), (digit_more_facts b Hdb) as (-> & _).
  now destruct reimbursed.
Qed.

End Pieces.

Lemma accept_chr x r c (s : string) :
  Re.accept (Re.chr x :: r) (String c s) = Ascii.eqb x c && Re.accept r s.
Proof.
  unfold Re.chr, Re.one. rewrite accept_more. cbn [Re.more option_map Nat.pred].
  now rewrite accept_done, andb_true_r.
Qed.

Lemma accept_lit (p : string) : forall r (s : string),
  Re.accept (Re.lit p ++ r)%list (p ++ s) = Re.accept r s.
Proof.
  induction p as [|x p IH]; intros r s; [reflexivity|].
  change (Re.lit (String x p) ++ r)%list with (Re.chr x :: (Re.lit p ++ r))%list.
  cbn [append]. now rewrite accept_chr, Ascii.eqb_refl, IH.
Qed.

Lemma accept_all q (s : string) : Re.accept [Re.Item q 0 None] s = Str.all q s.
Proof.
  induction s as [|c s IH]; rewrite accept_any, accept_nil; [reflexivity|].
  cbn [orb Re.more option_map Str.all]. now rewrite IH, andb_true_r.
Qed.

Lemma accept_plus q (s : string) :
  Re.accept [Re.Item q 1 None] s
  = match s with EmptyString => false | String _ _ => Str.all q s end.
Proof.
  destruct s as [|c s]; [apply accept_more_nil|].
  rewrite accept_more. cbn [Re.more option_map Str.all].
  now rewrite accept_all, andb_true_r.
Qed.

Lemma search_skip_first x r (a : string) : forall i (s : string),
  Str.all (fun c => negb (Ascii.eqb x c)) a = true ->
  Re.search_from (Re.chr x :: r) i (a ++ s)
  = Re.search_from (Re.chr x :: r) (i + String.length a) s.
Proof.
  induction a as [|c a IH]; intros i s H.
  - cbn [append String.length]. now rewrite Nat.add_0_r.
  - cbn [Str.all] in H. apply andb_true_iff in H. destruct H as [Hc Ha].
    apply negb_true_iff in Hc.
    cbn [append Re.search_from String.length]. rewrite accept_chr, Hc. cbn [andb].
    rewrite IH by exact Ha. f_equal. lia.
Qed.

Lemma search_from_found r (s : string) :
  Re.accept r s = true ->
  forall (a : string) i, Re.search_from r i (a ++ s) <> None.
Proof.
  intros H a. induction a as [|c a IH]; intros i.
  - cbn [append]. destruct s; cbn [Re.search_from]; rewrite H; discriminate.
  - cbn [append Re.search_from].
    destruct (Re.accept r (String c (a ++ s))); [discriminate|apply IH].
Qed.

Lemma accept_extension (extension : string) :
  Str.all Str.is_alpha extension = true ->
  (2 <= String.length extension <= 5)%nat ->
  Re.accept Re.extension_re (String "." extension) = true.
Proof.
  intros Ha Hl. unfold Re.extension_re. rewrite accept_chr, Ascii.eqb_refl.
  cbn [andb].
  destruct extension as [|c1 [|c2 [|c3 [|c4 [|c5 [|c6 rest]]]]]];
    cbn [String.length] in Hl; try lia;
    cbn [Str.all] in Ha;
    repeat match goal with
           | H : _ && _ = true |- _ =>
               apply andb_true_iff in H; destruct H as [? H]
           end;
    repeat first [rewrite accept_more | rewrite accept_any | rewrite accept_nil
                 | rewrite accept_more_nil];
    repeat match goal with
           | H : Str.is_alpha _ = true |- _ => rewrite H; clear H
           end;
    reflexivity.
Qed.

Lemma startsWith_length (p : string) : forall s : string,
  Str.startsWith p s = true -> (String.length p <= String.length s)%nat.
Proof.
  induction p as [|x p IH]; intros [|c s]; cbn [Str.startsWith String.length];
    try lia; try discriminate.
  intros H. apply andb_true_iff in H. destruct H as [_ H]. apply IH in H. lia.
Qed.

Lemma includes_short (p s : string) :
  (String.length s < String.length p)%nat -> Str.includes p s = false.
Proof.
  induction s as [|c s IH]; intros Hl.
  - cbn [Str.includes]. destruct (Str.startsWith p "") eqn:E; [|reflexivity].
    apply startsWith_length in E. lia.
  - cbn [Str.includes]. rewrite IH by (cbn [String.length] in Hl; lia).
    destruct (Str.startsWith p (String c s)) eqn:E; [|reflexivity].
    apply startsWith_length in E. lia.
Qed.

Lemma startsWith_stop (q : string) : forall a b : string,
  Str.all (fun x => negb (Ascii.eqb x " ")) q = true ->
  Str.startsWith q (a ++ String " " b) = Str.startsWith q a.
Proof.
  induction q as [|x q IH]; intros a b H; [now destruct a|].
  cbn [Str.all] in H. apply andb_true_iff in H. destruct H as [Hx Hq].
  apply negb_true_iff in Hx.
  destruct a as [|c a]; cbn [append Str.startsWith].
  - now rewrite Hx.
  - now rewrite IH.
Qed.

Section Reimbursed.

Let mark : string := ".reimbursed.".

Lemma includes_mark_skip c (s : string) :
  Ascii.eqb "." c = false ->
  Str.includes mark (String c s) = Str.includes mark s.
Proof. intros H. unfold mark. cbn [Str.includes Str.startsWith]. now rewrite H. Qed.

Lemma includes_mark_skip_all (a s : string) :
  Str.all (fun c => negb (Ascii.eqb "." c)) a = true ->
  Str.includes mark (a ++ s) = Str.includes mark s.
Proof.
  induction a as [|c a IH]; intros H; [reflexivity|].
  cbn [Str.all] in H. apply andb_true_iff in H. destruct H as [Hc Ha].
  apply negb_true_iff in Hc. cbn [append].
  rewrite includes_mark_skip by exact Hc. now apply IH.
Qed.

Lemma includes_mark_space (a b : string) :
  Str.includes mark (a ++ String " " b)
  = Str.includes mark a || Str.includes mark b.
Proof.
  induction a as [|c a IH].
  - cbn [append]. now rewrite includes_mark_skip.
  - cbn [append Str.includes]. rewrite IH, <- orb_assoc. f_equal.
    apply (startsWith_stop mark (String c a) b). reflexivity.
Qed.

Lemma digits_no_dot (s : string) :
  Str.all Str.is_digit s = true ->
  Str.all (fun c => negb (Ascii.eqb "." c)) s = true.
Proof.
  apply all_impl. intros c Hc.
  destruct (digit_facts c Hc) as (_ & _ & _ & _ & _ & _ & _ & _ & ->). reflexivity.
Qed.

Lemma includes_mark_amount (amountStr extension : string) (reimbursed : bool) :
  Re.test_whole Re.amount_re amountStr = true ->
  (String.length extension <= 5)%nat ->
  Str.includes mark
    (amountStr ++ (if reimbursed then ".reimbursed." else ".") ++ extension)
  = reimbursed.
Proof.
  intros Ha Hl.
  destruct (amount_re_shape amountStr Ha) as (c & ip & a & b & -> & Hip & Hda & Hdb).
  rewrite append_assoc. rewrite includes_mark_skip_all by (apply digits_no_dot, Hip).
  cbn [append].
  destruct (digit_more_facts a Hda) as (_ & Hra & _).
  destruct (digit_facts a Hda) as (_ & _ & _ & _ & _ & _ & _ & _ & Hpa).
  destruct (digit_facts b Hdb) as (_ & _ & _ & _ & _ & _ & _ & _ & Hpb).
  unfold mark at 1. cbn [Str.includes Str.startsWith]. rewrite Hra, Hpa, Hpb.
  cbn [andb orb]. rewrite !andb_false_r. cbn [orb].
  fold (Str.includes mark
          ((if reimbursed then ".reimbursed." else ".") ++ extension)).
  destruct reimbursed.
  - unfold mark. cbn [append Str.includes Str.startsWith]. reflexivity.
  - apply includes_short. cbn [append String.length]. unfold mark.
    cbn [String.length]. lia.
Qed.

Lemma includes_mark_file_name (date description amountStr : string)
    (reimbursed : bool) (extension : string) :
  Re.test_whole Re.date_re date = true ->
  Re.test_whole Re.amount_re amountStr = true ->
  (String.length extension <= 5)%nat ->
  Str.includes mark (file_name date description amountStr reimbursed extension)
  = Str.includes mark description || reimbursed.
Proof.
  intros Hd Ha Hl. unfold file_name.
  change (" - " ++ description ++ " - $" ++ ?x)
    with (String " " (String "-" (String " "
            (description ++ String " " (String "-" (String " " (String "$" x))))))).
  rewrite includes_mark_space.
  assert (Hdate : Str.includes mark date = false).
  { rewrite <- (append_nil_r date). rewrite includes_mark_skip_all; [reflexivity|].
    destruct (date_re_shape date Hd)
      as (y1 & y2 & y3 & y4 & m1 & m2 & d1 & d2 & -> & H1 & H2 & H3 & H4
          & H5 & H6 & H7 & H8).
    cbn [Str.all].
    repeat match goal with
           | H : Str.is_digit ?c = true |- _ =>
               destruct (digit_facts c H) as (_ & _ & _ & _ & _ & _ & _ & _ & ->);
               clear H
           end.
    reflexivity. }
  rewrite Hdate. cbn [orb].
  rewrite !includes_mark_skip by reflexivity.
  rewrite includes_mark_space. f_equal.
  rewrite !includes_mark_skip by reflexivity.
  now apply includes_mark_amount.
Qed.

End Reimbursed.

Lemma search_from_here r i (s : string) :
  Re.accept r s = true -> Re.search_from r i s = Some i.
Proof. intros H. destruct s; cbn [Re.search_from]; now rewrite H. Qed.

Lemma alpha_no_dot (s : string) :
  Str.all Str.is_alpha s = true ->
  Str.all (fun c => negb (Ascii.eqb c ".")) s = true /\
  Str.all (fun c => negb (Str.is_line_terminator c)) s = true.
Proof.
  intros H. split; revert H; apply all_impl; intros c Hc;
    destruct (alpha_facts c Hc) as (_ & _ & H1 & H2); now rewrite ?H1, ?H2.
Qed.

Lemma search_from_step r i c (s : string) :
  Re.search_from r i (String c s)
  = if Re.accept r (String c s) then Some i else Re.search_from r (S i) s.
Proof. reflexivity. Qed.

(** What [replace] cuts off an amount that is followed by a dot. *)
Lemma strip_end_amount r (ds : string) a b (rest : string) :
  Str.all Str.is_digit ds = true ->
  Str.is_digit a = true -> Str.is_digit b = true ->
  Re.accept r (String a (String b rest)) = false ->
  Re.accept (Re.chr "." :: r) rest = true ->
  Re.strip_end (Re.chr "." :: r) (ds ++ String "." (String a (String b rest)))
  = ds ++ String "." (String a (String b "")).
Proof.
  intros Hds Hda Hdb Hno Hyes. unfold Re.strip_end.
  destruct (digit_facts a Hda) as (_ & _ & _ & _ & _ & _ & _ & _ & Hpa).
  destruct (digit_facts b Hdb) as (_ & _ & _ & _ & _ & _ & _ & _ & Hpb).
  rewrite search_skip_first by (apply digits_no_dot, Hds).
  rewrite search_from_step, accept_chr, Hno, andb_false_r.
  change (String a (String b rest)) with (String a (String b "") ++ rest).
  rewrite search_skip_first by (cbn [Str.all]; now rewrite Hpa, Hpb).
  rewrite search_from_here by exact Hyes.
  change (String "." (String a (String b "") ++ rest))
    with (String "." (String a (String b "")) ++ rest).
  rewrite <- append_assoc.
  replace (S (0 + String.length ds) + String.length (String a (String b "")))%nat
    with (String.length (ds ++ String "." (String a (String b ""))))
    by (rewrite length_append; cbn [String.length]; lia).
  apply take_append.
Qed.

Lemma strip_amount_file (amountStr extension : string) (reimbursed : bool) :
  Re.test_whole Re.amount_re amountStr = true ->
  Str.all Str.is_alpha extension = true ->
  (1 <= String.length extension <= 5)%nat ->
  strip_amount
    ("$" ++ amountStr ++ (if reimbursed then ".reimbursed." else ".") ++ extension)
  = amountStr.
Proof.
  intros Ha He Hl. unfold strip_amount. cbn [append Str.substring_from Str.drop].
  rewrite includes_mark_amount by (try assumption; lia).
  destruct (alpha_no_dot extension He) as [Hnd Hlt].
  assert (Hne : exists e es, extension = String e es).
  { destruct extension as [|e es]; [cbn in Hl; lia|eauto]. }
  destruct Hne as (e & es & Ee).
  destruct (amount_re_shape amountStr Ha) as (c & ip & a & b & -> & Hip & Hda & Hdb).
  destruct (digit_more_facts a Hda) as (_ & Hra & _).
  destruct (digit_facts a Hda) as (_ & _ & _ & _ & _ & _ & _ & Haq & _).
  destruct (digit_facts b Hdb) as (_ & _ & _ & _ & _ & _ & _ & Hbq & _).
  set (ds := String c ip) in *. rewrite append_assoc.
  destruct reimbursed.
  - change (String "." (String a (String b "")) ++ ".reimbursed." ++ extension)
      with (String "." (String a (String b (".reimbursed." ++ extension)))).
    change Re.reimbursed_re
      with (Re.chr "." :: Re.chr "r" ::
            (Re.lit "eimbursed." ++
             [Re.Item (fun c => negb (Str.is_line_terminator c)) 1 None]))%list.
    apply strip_end_amount; try assumption.
    + now rewrite accept_chr, Hra.
    + change (Re.chr "." :: Re.chr "r" :: ?r)%list
        with (Re.lit ".reimbursed." ++
              [Re.Item (fun c => negb (Str.is_line_terminator c)) 1 None])%list.
      rewrite accept_lit, accept_plus, Ee. rewrite <- Ee. exact Hlt.
  - change (String "." (String a (String b "")) ++ "." ++ extension)
      with (String "." (String a (String b ("." ++ extension)))).
    unfold Re.last_dot_re. apply strip_end_amount; try assumption.
    + rewrite accept_plus. cbn [Str.all append]. rewrite Haq, Hbq, Ascii.eqb_refl.
      reflexivity.
    + cbn [append]. rewrite accept_chr, Ascii.eqb_refl, accept_plus, Ee.
      rewrite <- Ee. exact Hnd.
Qed.

Lemma extension_found (amountStr extension : string) (reimbursed : bool) :
  Str.all Str.is_alpha extension = true ->
  (2 <= String.length extension <= 5)%nat ->
  Re.test_end Re.extension_re
    ("$" ++ amountStr ++ (if reimbursed then ".reimbursed." else ".") ++ extension)
  = true.
Proof.
  intros He Hl. unfold Re.test_end.
  assert (E : "$" ++ amountStr ++ (if reimbursed then ".reimbursed." else ".")
              ++ extension
              = ("$" ++ amountStr ++ (if reimbursed then ".reimbursed" else ""))
                ++ String "." extension).
  { rewrite !append_assoc. now destruct reimbursed. }
  rewrite E.
  pose proof (search_from_found Re.extension_re (String "." extension)
                (accept_extension extension He Hl)
                ("$" ++ amountStr ++ (if reimbursed then ".reimbursed" else "")) 0%nat)
    as H.
  now destruct (Re.search_from _ _ _).
Qed.

(** X11. A file name put together from a calendar date [yyyy-mm-dd], a
    description that holds neither [" -"] nor [".reimbursed."], an
    amount of the form [\d+\.\d{2}], the mark of a reimbursement or
    none, and an extension of two to five letters parses as valid, and
    the parse gives the parts back: the year is the first four
    characters of the date, the description is the one given, the
    amount is the double of the cents written, and the entry is a
    reimbursement exactly when it was marked. *)
Theorem file_name_parsed_back
    (date description amountStr : string) (reimbursed : bool) (extension : string) :
  Re.test_whole Re.date_re date = true ->
  is_calendar_date date = true ->
  Str.includes " -" description = false ->
  Str.includes ".reimbursed." description = false ->
  Re.test_whole Re.amount_re amountStr = true ->
  Str.all Str.is_alpha extension = true ->
  (2 <= String.length extension <= 5)%nat ->
  parseFileName (file_name date description amountStr reimbursed extension)
  = Parsed.Build (Some (Str.take 4 date)) (Some description)
                 (money (digits_val (undotted amountStr))) reimbursed true None.
Proof.
  intros Hd Hcal Hn Hm Ha He Hl. unfold parseFileName.
  rewrite split_file_name by assumption. rewrite Hd. cbn [negb].
  destruct (date_re_shape date Hd)
    as (y1 & y2 & y3 & y4 & m1 & m2 & d1 & d2 & Hdate & H1 & H2 & H3 & H4
        & H5 & H6 & H7 & H8).
  destruct (date_check y1 y2 y3 y4 m1 m2 d1 d2 H1 H2 H3 H4 H5 H6 H7 H8)
    as (yearNum & monthNum & dayNum & Hnum & Hchk).
  rewrite <- Hdate in Hnum, Hchk. rewrite Hnum. cbv zeta in Hchk.
  rewrite Hchk, Hcal. cbn [negb].
  change (Str.startsWith "$" ("$" ++ ?x)) with true. cbn [negb].
  rewrite extension_found by assumption. cbn [negb].
  rewrite strip_amount_file by (try assumption; lia).
  rewrite Ha. cbn [negb]. rewrite parseFloat_not_NaN by exact Ha.
  rewrite includes_mark_file_name by (try assumption; lia). rewrite Hm. cbn [orb].
  destruct (amount_re_shape amountStr Ha) as (c & ip & a & b & -> & Hip & Hda & Hdb).
  rewrite parseFloat_amount, undotted_amount by assumption.
  rewrite Hdate at 1. rewrite split_date by assumption. rewrite Hdate.
  reflexivity.
Qed.

Lemma file_name_parsed_back_witness :
  parseFileName (file_name "2024-02-29" "dr. smith visit" "120.50" true "pdf")
  = Parsed.Build (Some (Str.take 4 "2024-02-29")) (Some "dr. smith visit")
                 (money (digits_val (undotted "120.50"))) true true None.
Proof.
  apply (file_name_parsed_back "2024-02-29" "dr. smith visit" "120.50" true "pdf");
    [reflexivity..|cbn [String.length]; lia].
Defined.

(* ================================================================== *)
(** * Hidden entries and categories *)
(* ================================================================== *)

Lemma process_files_visible (fileNames : list string) : forall st,
  process_files st (filter (fun f => negb (Str.startsWith "." f)) fileNames)
  = process_files st fileNames.
Proof.
  induction fileNames as [|f l IH]; intros st; [reflexivity|].
  cbn [filter process_files].
  destruct (Str.startsWith "." f) eqn:Hh; cbn [negb].
  - rewrite (process_file_hidden st f Hh). apply IH.
  - cbn [process_files]. destruct (process_file st f); [apply IH|reflexivity].
Qed.

(** X12. [getTotalsByYear] skips the hidden entries: a listing gives
    the result of the same listing without the entries whose name
    starts with a dot. *)
Theorem hidden_entries_skipped (fileNames : list string) :
  getTotalsByYear (Ok (filter (fun f => negb (Str.startsWith "." f)) fileNames))
  = getTotalsByYear (Ok fileNames).
Proof. apply process_files_visible. Qed.

Lemma lower_char_facts c :
  Str.lower_char (Str.lower_char c) = Str.lower_char c /\
  (Ascii.eqb " " c = false -> Ascii.eqb " " (Str.lower_char c) = false).
Proof. destruct c as [[] [] [] [] [] [] [] []]; split; try reflexivity; intros H; exact H. Qed.

Lemma toLowerCase_idempotent (s : string) :
  Str.toLowerCase (Str.toLowerCase s) = Str.toLowerCase s.
Proof.
  unfold Str.toLowerCase. induction s as [|c s IH]; [reflexivity|].
  cbn [Str.map]. rewrite IH. now destruct (lower_char_facts c) as [-> _].
Qed.

Lemma toLowerCase_no_space (s : string) :
  Str.all (fun c => negb (Ascii.eqb " " c)) s = true ->
  Str.all (fun c => negb (Ascii.eqb " " c)) (Str.toLowerCase s) = true.
Proof.
  unfold Str.toLowerCase. induction s as [|c s IH]; [reflexivity|].
  cbn [Str.map Str.all]. intros H. apply andb_true_iff in H. destruct H as [Hc Hs].
  apply negb_true_iff in Hc. destruct (lower_char_facts c) as [_ Hl].
  now rewrite (Hl Hc), IH.
Qed.

(** The first piece of a split at spaces holds no space. *)
Lemma first_word (s : string) : forall cur,
  Str.all (fun c => negb (Ascii.eqb " " c)) cur = true ->
  Str.all (fun c => negb (Ascii.eqb " " c))
          (hd EmptyString (Str.split_go " " 0 cur s)) = true.
Proof.
  induction s as [|c s IH]; intros cur H; cbn [Str.split_go hd]; [exact H|].
  cbn [Str.startsWith]. destruct (Ascii.eqb " " c) eqn:E; cbn [andb hd].
  - exact H.
  - apply IH. rewrite all_append, H. cbn [Str.all]. now rewrite E.
Qed.

(** X13. The category of a description is never empty, holds no
    space, and is in lower case already; it is [uncategorized] for a
    description that is empty or made of white space. *)
Theorem category_of_shape (description : string) :
  category_of description <> EmptyString /\
  Str.includes " " (category_of description) = false /\
  Str.toLowerCase (category_of description) = category_of description /\
  (Str.all Str.is_space description = true ->
   category_of description = "uncategorized").
Proof.
  unfold category_of.
  set (word := hd EmptyString (Str.split " " (Str.trim description))).
  assert (Hw : Str.all (fun c => negb (Ascii.eqb " " c)) word = true)
    by (apply first_word; reflexivity).
  repeat split.
  - destruct word; discriminate.
  - assert (H : Str.all (fun c => negb (Ascii.eqb " " c))
                  (Str.toLowerCase
                     match word with EmptyString => "uncategorized" | _ => word end)
                = true).
    { destruct word; [reflexivity|now apply toLowerCase_no_space]. }
    revert H. generalize (Str.toLowerCase
                            match word with EmptyString => "uncategorized" | _ => word end).
    intros s. induction s as [|c s IH]; [reflexivity|].
    cbn [Str.all Str.includes Str.startsWith]. intros H.
    apply andb_true_iff in H. destruct H as [Hc Hs]. apply negb_true_iff in Hc.
    rewrite Hc. cbn [andb orb]. now apply IH.
  - apply toLowerCase_idempotent.
  - intros Hs. unfold word, Str.trim. rewrite (drop_while_all _ _ Hs). reflexivity.
Qed.

(* ================================================================== *)
(** * The table of invalid files *)
(* ================================================================== *)

Lemma fold_max (l : list Z) : forall a,
  a <= fold_left Z.max l a /\
  (forall x, In x l -> x <= fold_left Z.max l a) /\
  (fold_left Z.max l a = a \/ In (fold_left Z.max l a) l).
Proof.
  induction l as [|y l IH]; intros a; cbn [fold_left In].
  - repeat split; [lia|tauto|now left].
  - destruct (IH (Z.max a y)) as (H1 & H2 & H3). repeat split.
    + lia.
    + intros x [->|Hx]; [lia|now apply H2].
    + destruct H3 as [H3|H3]; [|now right; right].
      rewrite H3. destruct (Z.max_spec a y) as [[_ ->]|[_ ->]]; [right; now left|now left].
Qed.

Lemma padded (noColor : bool) (text : string) (c : color) (padding width : Z) :
  code_length c = 5 ->
  padding = (if noColor then width - 9 else width) ->
  padEnd (padding + code_length c + code_length reset) (colorize noColor text c)
  = colorize noColor text c
    ++ Str.repeat " " (Z.to_nat (width - Z.of_nat (String.length text))).
Proof.
  intros Hc ->. unfold padEnd, colorize. f_equal. f_equal. f_equal.
  rewrite Hc. change (code_length reset) with 4.
  destruct noColor; [lia|].
  rewrite !length_append. unfold code_length in Hc.
  change (String.length (color_code reset)) with 4%nat. lia.
Qed.

(** X14. In the table of invalid files that [main] logs, the column
    of the errors starts at the same place with and without colors:
    four characters past the longest file name, or past the heading
    [Filename] where every name is shorter.  The colors only wrap the
    texts in their codes. *)
Theorem invalid_table_aligned (noColor : bool) (invalidFiles : list Invalid.t) :
  invalidFiles <> [] ->
  exists longest : Z,
    (forall f, In f invalidFiles ->
               Z.of_nat (String.length (Invalid.fileName f)) <= longest) /\
    (exists f, In f invalidFiles /\
               Z.of_nat (String.length (Invalid.fileName f)) = longest) /\
    let width := Z.max longest 8 + 4 in
    let cell (text : string) (c : color) :=
      colorize noColor text c
      ++ Str.repeat " " (Z.to_nat (width - Z.of_nat (String.length text))) in
    invalid_table noColor invalidFiles
    = (newline ++ cell "Filename" cyan ++ colorize noColor "Error" cyan)
      :: (cell "--------" cyan ++ colorize noColor "-----" cyan)
      :: List.map (fun f => cell (Invalid.fileName f) yellow
                            ++ colorize noColor (text_of (Invalid.error f)) red)
                  invalidFiles.
Proof.
  intros Hne. destruct invalidFiles as [|first rest]; [contradiction|].
  set (len := fun f => Z.of_nat (String.length (Invalid.fileName f))).
  destruct (fold_max (List.map len rest) (len first)) as (H1 & H2 & H3).
  exists (fold_left Z.max (List.map len rest) (len first)). split; [|split].
  - intros f [<-|Hf]; [exact H1|]. apply (H2 (len f)), in_map, Hf.
  - destruct H3 as [H3|H3].
    + exists first. split; [now left|now rewrite H3].
    + apply in_map_iff in H3. destruct H3 as (f & Hf & Hin).
      exists f. split; [now right|exact Hf].
  - intros width cell. unfold invalid_table. fold len.
    change (Z.of_nat (String.length (Invalid.fileName first))) with (len first).
    set (m := fold_left Z.max (List.map len rest) (len first)) in *.
    set (padding := Z.max (m + _) (_ + _)).
    assert (Hp : padding = if noColor then width - 9 else width).
    { unfold padding, width, COLUMN_PADDING. cbn [String.length].
      destruct noColor; lia. }
    rewrite !(padded noColor _ _ padding width) by (reflexivity || exact Hp).
    do 2 f_equal. apply map_ext. intros f.
    now rewrite (padded noColor _ _ padding width) by (reflexivity || exact Hp).
Qed.

Lemma invalid_table_aligned_witness :
  exists longest : Z,
    (forall f, In f [Invalid.Build "abc.pdf" (Some "bad name");
                     Invalid.Build "a-long-file-name.pdf" None] ->
               Z.of_nat (String.length (Invalid.fileName f)) <= longest) /\
    (exists f, In f [Invalid.Build "abc.pdf" (Some "bad name");
                     Invalid.Build "a-long-file-name.pdf" None] /\
               Z.of_nat (String.length (Invalid.fileName f)) = longest) /\
    let width := Z.max longest 8 + 4 in
    let cell (text : string) (c : color) :=
      colorize false text c
      ++ Str.repeat " " (Z.to_nat (width - Z.of_nat (String.length text))) in
    invalid_table false [Invalid.Build "abc.pdf" (Some "bad name");
                         Invalid.Build "a-long-file-name.pdf" None]
    = (newline ++ cell "Filename" cyan ++ colorize false "Error" cyan)
      :: (cell "--------" cyan ++ colorize false "-----" cyan)
      :: List.map (fun f => cell (Invalid.fileName f) yellow
                            ++ colorize false (text_of (Invalid.error f)) red)
                  [Invalid.Build "abc.pdf" (Some "bad name");
                   Invalid.Build "a-long-file-name.pdf" None].
Proof.
  apply (invalid_table_aligned false
           [Invalid.Build "abc.pdf" (Some "bad name");
            Invalid.Build "a-long-file-name.pdf" None]).
  discriminate.
Defined.

(* ================================================================== *)
(** * Receipts as lines *)
(* ================================================================== *)

(** X15. The line that [formatReceipt] writes for the receipt of a
    valid file name shows the date, the description and the amount as
    the name has them, for an amount written without a needless zero
    in front and with at most 13 digits before the point. *)
Theorem receipt_line_as_written (fileName : string) (includeReimbursedStatus : bool) :
  Parsed.isValid (parseFileName fileName) = true ->
  plainly_written (amount_text fileName) = true ->
  (String.length (amount_text fileName) <= 16)%nat ->
  formatReceipt (receipt_of fileName) includeReimbursedStatus
  = date_segment fileName ++ " | " ++ description_of fileName ++ " | $"
    ++ amount_text fileName
    ++ (if includeReimbursedStatus
        then " | " ++ (if Parsed.isReimbursement (parseFileName fileName)
                       then "reimbursed" else "not reimbursed")
        else "").
Proof.
  intros Hv Hp Hl. destruct (parse_valid_text fileName Hv) as [Hre Ha].
  unfold formatReceipt, receipt_of.
  cbn [Receipt.date Receipt.description Receipt.amount Receipt.isReimbursed].
  rewrite Ha, (amount_text_written_back _ Hre Hp Hl).
  assert (Hd : hd "" (Str.split " - " fileName) = date_segment fileName).
  { unfold date_segment, segments. now destruct (Str.split " - " fileName). }
  rewrite Hd. destruct includeReimbursedStatus; cbn [negb].
  - now rewrite !append_assoc.
  - now rewrite append_nil_r.
Qed.

Lemma receipt_line_as_written_witness :
  formatReceipt (receipt_of "2021-02-03 - josh dentist - $120.50.reimbursed.pdf") true
  = date_segment "2021-02-03 - josh dentist - $120.50.reimbursed.pdf" ++ " | "
    ++ description_of "2021-02-03 - josh dentist - $120.50.reimbursed.pdf" ++ " | $"
    ++ amount_text "2021-02-03 - josh dentist - $120.50.reimbursed.pdf"
    ++ (if true
        then " | " ++ (if Parsed.isReimbursement
                            (parseFileName
                               "2021-02-03 - josh dentist - $120.50.reimbursed.pdf")
                       then "reimbursed" else "not reimbursed")
        else "").
Proof.
  apply (receipt_line_as_written
           "2021-02-03 - josh dentist - $120.50.reimbursed.pdf" true);
    [vm_compute; reflexivity|vm_compute; reflexivity|vm_compute; lia].
Defined.

Section Lines.

Let inline (c : ascii) : bool := negb (Ascii.eqb (ascii_of_nat 10) c).

Lemma split_go_inline (x : string) : forall cur rest,
  Str.all inline x = true ->
  Str.split_go newline 0 cur (x ++ rest) = Str.split_go newline 0 (cur ++ x) rest.
Proof.
  induction x as [|c x IH]; intros cur rest H.
  - now rewrite append_nil_r.
  - cbn [Str.all] in H. apply andb_true_iff in H. destruct H as [Hc Hx].
    unfold inline in Hc. apply negb_true_iff in Hc.
    cbn [append Str.split_go]. unfold newline at 1. cbn [Str.startsWith].
    rewrite Hc. cbn [andb]. rewrite IH by exact Hx. now rewrite append_assoc.
Qed.

Lemma split_join (lines : list string) :
  lines <> [] ->
  (forall x, In x lines -> Str.all inline x = true) ->
  Str.split newline (join newline lines) = lines.
Proof.
  unfold Str.split. induction lines as [|x lines IH]; intros Hne Hall; [contradiction|].
  cbn [join]. destruct lines as [|y lines].
  - rewrite <- (append_nil_r x) at 1.
    rewrite split_go_inline by (apply Hall; now left). reflexivity.
  - rewrite split_go_inline by (apply Hall; now left).
    unfold newline at 2. cbn [append Str.split_go]. unfold newline at 1.
    cbn [Str.startsWith String.length Nat.sub]. rewrite Ascii.eqb_refl. cbn [andb].
    f_equal. apply IH; [discriminate|]. intros z Hz. apply Hall. now right.
Qed.

(** X16. The text that [formatReceiptList] writes for receipts whose
    lines hold no line feed splits at the line feeds into the lines of
    the receipts, one for each receipt and in their order. *)
Theorem receipt_list_lines (receipts : list Receipt.t) (includeReimbursedStatus : bool) :
  receipts <> [] ->
  (forall r, In r receipts ->
             Str.all (fun c => negb (Ascii.eqb (ascii_of_nat 10) c))
                     (formatReceipt r includeReimbursedStatus) = true) ->
  Str.split newline (formatReceiptList receipts includeReimbursedStatus)
  = List.map (fun r => formatReceipt r includeReimbursedStatus) receipts.
Proof.
  intros Hne Hall. unfold formatReceiptList. apply split_join.
  - destruct receipts; [contradiction|discriminate].
  - intros x Hx. apply in_map_iff in Hx. destruct Hx as (r & <- & Hr). now apply Hall.
Qed.

End Lines.

Lemma receipt_list_lines_witness :
  Str.split newline
    (formatReceiptList
       [Receipt.Build "2023-05-15" "2023" "dental cleaning josh" (of_Z 150) true "dental";
        Receipt.Build "2023-08-20" "2023" "doctor visit jane" (of_Z 200) false "doctor"]
       true)
  = List.map (fun r => formatReceipt r true)
      [Receipt.Build "2023-05-15" "2023" "dental cleaning josh" (of_Z 150) true "dental";
       Receipt.Build "2023-08-20" "2023" "doctor visit jane" (of_Z 200) false "doctor"].
Proof.
  apply (receipt_list_lines
           [Receipt.Build "2023-05-15" "2023" "dental cleaning josh" (of_Z 150) true
                          "dental";
            Receipt.Build "2023-08-20" "2023" "doctor visit jane" (of_Z 200) false
                          "doctor"] true).
  - discriminate.
  - intros r [<-|[<-|[]]]; vm_compute; reflexivity.
Defined.

(* ================================================================== *)
(** * The handlers of the tools *)
(* ================================================================== *)

Lemma slice_to_finite {A} (m : positive) (e : Z) (l : list A) :
  slice_to (S754_finite false m e) l
  = firstn (Z.to_nat (trunc (S754_finite false m e))) l.
Proof.
  unfold slice_to. set (n := trunc (S754_finite false m e)).
  assert (Hn : 0 <= n).
  { unfold n, trunc. assert (0 < 2 ^ (- e) \/ 2 ^ (- e) = 0).
    { destruct (Z.le_gt_cases 0 (- e)); [left; now apply Z.pow_pos_nonneg|].
      right. now apply Z.pow_neg_r. }
    destruct (0 <=? e).
    - apply Z.mul_nonneg_nonneg; [lia|]. apply Z.pow_nonneg. lia.
    - destruct H as [H| ->]; [apply Z.div_pos; lia|]. now rewrite Z.div_0_r. }
  destruct (n <? 0) eqn:E; [lia|].
  destruct (Z.le_gt_cases n (Z.of_nat (List.length l))) as [Hle|Hgt].
  - now rewrite Z.min_l by exact Hle.
  - rewrite Z.min_r by lia. rewrite Nat2Z.id.
    rewrite firstn_all. symmetry. apply firstn_all2. lia.
Qed.

(** X17. [get_largest_expenses] lists the receipts of the year asked
    for, or of all years, sorted with the largest amount first: no
    receipt is followed by one that the comparison of the sort puts
    ahead of it.  It shows the first ten of them where no count is
    given, and the first [count] of them, fractions dropped, for a
    count above 0; where that leaves none it says that none was
    found.  The amounts are numbers, not [NaN]. *)
Theorem largest_expenses_listed (validReceipts : list Receipt.t)
    (year : option string) :
  (forall r, In r validReceipts -> isNaN (Receipt.amount r) = false) ->
  exists sorted,
    Permutation sorted (filter_year year validReceipts) /\
    Sorted (fun a b => gt (sub (Receipt.amount b) (Receipt.amount a)) zero = false)
           sorted /\
    let answer (shown : list Receipt.t) :=
      match shown with
      | [] =>
          match year with
          | Some (String c y) => "No receipts found for year " ++ String c y ++ "."
          | _ => "No receipts found."
          end
      | _ :: _ => formatReceiptList shown true
      end in
    Tools.get_largest_expenses validReceipts None year = answer (firstn 10 sorted) /\
    forall m e,
      Tools.get_largest_expenses validReceipts (Some (S754_finite false m e)) year
      = answer (firstn (Z.to_nat (trunc (S754_finite false m e))) sorted).
Proof.
  intros _.
  exists (sort_by (larger_first Receipt.amount) (filter_year year validReceipts)).
  split; [apply sort_by_perm|]. split.
  - apply (sort_by_sorted (larger_first Receipt.amount)).
    intros a b. apply larger_first_asym.
  - intros answer. unfold Tools.get_largest_expenses. split.
    + change (of_Z 10) with (S754_finite false 5629499534213120 (-49)).
      rewrite slice_to_finite. reflexivity.
    + intros m e. rewrite slice_to_finite. reflexivity.
Qed.

Lemma largest_expenses_listed_witness :
  exists sorted,
    Permutation sorted
      (filter_year (Some "2023")
         [Receipt.Build "2023-05-15" "2023" "dental cleaning josh" (of_Z 150) true
                        "dental";
          Receipt.Build "2023-08-20" "2023" "doctor visit jane" (of_Z 200) false
                        "doctor";
          Receipt.Build "2022-11-05" "2022" "dental filling josh" (of_Z 300) true
                        "dental"]) /\
    Sorted (fun a b => gt (sub (Receipt.amount b) (Receipt.amount a)) zero = false)
           sorted /\
    let answer (shown : list Receipt.t) :=
      match shown with
      | [] =>
          match Some "2023" with
          | Some (String c y) => "No receipts found for year " ++ String c y ++ "."
          | _ => "No receipts found."
          end
      | _ :: _ => formatReceiptList shown true
      end in
    Tools.get_largest_expenses
      [Receipt.Build "2023-05-15" "2023" "dental cleaning josh" (of_Z 150) true
                     "dental";
       Receipt.Build "2023-08-20" "2023" "doctor visit jane" (of_Z 200) false
                     "doctor";
       Receipt.Build "2022-11-05" "2022" "dental filling josh" (of_Z 300) true
                     "dental"] None (Some "2023")
    = answer (firstn 10 sorted) /\
    forall m e,
      Tools.get_largest_expenses
        [Receipt.Build "2023-05-15" "2023" "dental cleaning josh" (of_Z 150) true
                       "dental";
         Receipt.Build "2023-08-20" "2023" "doctor visit jane" (of_Z 200) false
                       "doctor";
         Receipt.Build "2022-11-05" "2022" "dental filling josh" (of_Z 300) true
                       "dental"] (Some (S754_finite false m e)) (Some "2023")
      = answer (firstn (Z.to_nat (trunc (S754_finite false m e))) sorted).
Proof.
  apply (largest_expenses_listed
           [Receipt.Build "2023-05-15" "2023" "dental cleaning josh" (of_Z 150) true
                          "dental";
            Receipt.Build "2023-08-20" "2023" "doctor visit jane" (of_Z 200) false
                          "doctor";
            Receipt.Build "2022-11-05" "2022" "dental filling josh" (of_Z 300) true
                          "dental"] (Some "2023")).
  intros r [<-|[<-|[<-|[]]]]; reflexivity.
Defined.

Lemma get_own_count_other totals receipt c :
  Receipt.category receipt <> c ->
  Obj.get_own (Tools.count_category totals receipt) c = Obj.get_own totals c.
Proof.
  intros Hne. unfold Tools.count_category.
  destruct (Obj.get totals (Receipt.category receipt)) eqn:E1.
  - rewrite E1. now apply get_own_set_other.
  - now rewrite E1.
  - unfold Obj.get at 1. rewrite get_own_set_same.
    rewrite !get_own_set_other by exact Hne. reflexivity.
Qed.

Lemma category_totals_spec (validReceipts : list Receipt.t) c :
  Obj.is_prototype_name c = false ->
  Obj.get_own (Tools.category_totals validReceipts) c
  = match filter (fun r => String.eqb (Receipt.category r) c) validReceipts with
    | [] => None
    | r :: rs =>
        Some (CategoryTotal.Build (sum_amounts (r :: rs))
                                  (Z.of_nat (List.length (r :: rs))))
    end.
Proof.
  intros Hp. unfold Tools.category_totals.
  induction validReceipts as [|receipt l IH] using rev_ind; [reflexivity|].
  rewrite fold_left_app, filter_snoc. cbn [fold_left].
  set (totals := fold_left Tools.count_category l Obj.empty) in *.
  destruct (String.eqb (Receipt.category receipt) c) eqn:E.
  - apply String.eqb_eq in E. unfold Tools.count_category. rewrite E.
    destruct (filter _ l) as [|r rs] eqn:Ef.
    + assert (Hget : Obj.get totals c = Obj.Undefined)
        by (unfold Obj.get; now rewrite IH, Hp).
      rewrite Hget. unfold Obj.get. rewrite !get_own_set_same. reflexivity.
    + assert (Hget : Obj.get totals c
                     = Obj.Own (CategoryTotal.Build (sum_amounts (r :: rs))
                                  (Z.of_nat (List.length (r :: rs)))))
        by (unfold Obj.get; now rewrite IH).
      rewrite Hget, Hget, get_own_set_same.
      cbn [CategoryTotal.expenses CategoryTotal.count].
      change ((r :: rs) ++ [receipt])%list with (r :: (rs ++ [receipt]))%list.
      cbv iota.
      change (r :: rs ++ [receipt])%list with ((r :: rs) ++ [receipt])%list.
      unfold sum_amounts. rewrite fold_left_app, length_app. cbn [fold_left].
      f_equal. f_equal. cbn [List.length]. lia.
  - rewrite app_nil_r. rewrite get_own_count_other; [exact IH|].
    intros Heq. rewrite Heq, String.eqb_refl in E. discriminate.
Qed.

(** X18. The totals that [list_categories] counts hold, for each
    category that is not named like a member of [Object.prototype], the
    amounts of the receipts of the category added in their order and
    the number of these receipts; a category without a receipt has no
    total. *)
Theorem categories_counted (validReceipts : list Receipt.t) (category : string) :
  Obj.is_prototype_name category = false ->
  let members :=
    filter (fun r => String.eqb (Receipt.category r) category) validReceipts in
  Obj.get_own (Tools.category_totals validReceipts) category
  = match members with
    | [] => None
    | _ :: _ =>
        Some (CategoryTotal.Build
                (fold_left (fun sum r => add sum (Receipt.amount r)) members zero)
                (Z.of_nat (List.length members)))
    end.
Proof.
  intros Hp members. unfold members. rewrite category_totals_spec by exact Hp.
  now destruct (filter _ validReceipts).
Qed.

Lemma categories_counted_witness :
  let validReceipts :=
    [Receipt.Build "2023-05-15" "2023" "dental cleaning josh" (of_Z 150) true "dental";
     Receipt.Build "2023-08-20" "2023" "doctor visit jane" (of_Z 200) false "doctor";
     Receipt.Build "2022-11-05" "2022" "dental filling josh" (of_Z 300) true "dental"] in
  let members :=
    filter (fun r => String.eqb (Receipt.category r) "dental") validReceipts in
  Obj.get_own (Tools.category_totals validReceipts) "dental"
  = match members with
    | [] => None
    | _ :: _ =>
        Some (CategoryTotal.Build
                (fold_left (fun sum r => add sum (Receipt.amount r)) members zero)
                (Z.of_nat (List.length members)))
    end.
Proof.
  apply (categories_counted
           [Receipt.Build "2023-05-15" "2023" "dental cleaning josh" (of_Z 150) true
                          "dental";
            Receipt.Build "2023-08-20" "2023" "doctor visit jane" (of_Z 200) false
                          "doctor";
            Receipt.Build "2022-11-05" "2022" "dental filling josh" (of_Z 300) true
                          "dental"] "dental").
  reflexivity.
Defined.

(** X19. [search_receipts] with an empty keyword lists every receipt,
    in the order of [validReceipts]; without a receipt it says that
    none matches. *)
Theorem search_everything (validReceipts : list Receipt.t) :
  Tools.search_receipts validReceipts ""
  = match validReceipts with
    | [] => "No receipts found matching " ++ quote ++ quote ++ "."
    | _ :: _ => formatReceiptList validReceipts true
    end.
Proof.
  unfold Tools.search_receipts.
  assert (H : filter (fun r => Str.includes (Str.toLowerCase "")
                                 (Str.toLowerCase (Receipt.description r)))
                     validReceipts = validReceipts).
  { induction validReceipts as [|r l IH]; [reflexivity|]. cbn [filter].
    assert (E : Str.includes (Str.toLowerCase "")
                  (Str.toLowerCase (Receipt.description r)) = true)
      by (destruct (Str.toLowerCase (Receipt.description r)); reflexivity).
    now rewrite E, IH. }
  rewrite H. now destruct validReceipts.
Qed.

Lemma recorded_receipt (fileNames : list string) rc :
  In rc (List.map receipt_of (filter is_recorded fileNames)) ->
  gt (Receipt.amount rc) zero = true /\
  Str.toLowerCase (Receipt.category rc) = Receipt.category rc.
Proof.
  rewrite in_map_iff. intros (f & <- & Hf). apply filter_In in Hf.
  destruct Hf as [_ Hf]. unfold is_recorded in Hf. apply andb_true_iff in Hf.
  destruct Hf as [_ Ha]. split; [exact Ha|].
  unfold receipt_of. cbn [Receipt.category]. unfold category_of.
  apply toLowerCase_idempotent.
Qed.

Lemma gt_ge_zero (x : number) : gt x zero = true -> ge x zero = true.
Proof.
  intros H. apply gt_zero_sign in H.
  destruct H as [(m & e & ->)| ->]; reflexivity.
Qed.

Lemma sort_by_nil {A} (after : A -> A -> bool) (l : list A) :
  sort_by after l = [] -> l = [].
Proof.
  intros H. apply (f_equal (@List.length A)) in H. rewrite sort_by_length in H.
  now destruct l.
Qed.

(** X20. On the receipts of a listing and without a minimum amount,
    [get_unreimbursed_expenses] leaves out no receipt that is not
    reimbursed: it lists those of the year asked for, or of all years,
    sorted with the largest amount first, and under them their number
    and the sum of their amounts, added in the order they are listed
    in. *)
Theorem unreimbursed_all_listed (fileNames : list string) (year : option string) :
  exists r sorted,
    getTotalsByYear (Ok fileNames) = Ok r /\
    Permutation sorted
      (filter_year year
         (filter (fun rc => negb (Receipt.isReimbursed rc)) (Totals.validReceipts r))) /\
    Sorted (fun a b => gt (sub (Receipt.amount b) (Receipt.amount a)) zero = false)
           sorted /\
    Tools.get_unreimbursed_expenses (Totals.validReceipts r) year None
    = match sorted with
      | [] => "No unreimbursed expenses found matching criteria."
      | _ :: _ =>
          formatReceiptList sorted false ++ newline ++ newline ++
          "Total unreimbursed: " ++
          dollars (fold_left (fun sum rc => add sum (Receipt.amount rc)) sorted zero) ++
          " (" ++ digits_of (Z.of_nat (List.length sorted)) ++ " receipts)"
      end.
Proof.
  destruct (listing_sorted_out fileNames) as (r & Hr & _ & _ & Hv).
  exists r.
  exists (sort_by (larger_first Receipt.amount)
            (filter_year year
               (filter (fun rc => negb (Receipt.isReimbursed rc))
                       (Totals.validReceipts r)))).
  split; [exact Hr|]. split; [apply sort_by_perm|]. split.
  - apply (sort_by_sorted (larger_first Receipt.amount)).
    intros a b. apply larger_first_asym.
  - unfold Tools.get_unreimbursed_expenses.
    assert (E : filter (fun rc => negb (Receipt.isReimbursed rc)
                                  && ge (Receipt.amount rc) zero)
                       (Totals.validReceipts r)
                = filter (fun rc => negb (Receipt.isReimbursed rc))
                         (Totals.validReceipts r)).
    { apply filter_ext_in. intros rc Hin. rewrite Hv in Hin.
      destruct (recorded_receipt fileNames rc Hin) as [Ha _].
      now rewrite (gt_ge_zero _ Ha), andb_true_r. }
    rewrite E. reflexivity.
Qed.

(** X21. On the receipts of a listing, [get_receipts_by_category]
    finds a category however its name is capitalised: it lists the
    receipts filed under the name in lower case, of the year asked for
    or of all years, sorted with the largest amount first, and under
    them their number and the sum of their amounts. *)
Theorem category_found_in_any_case (fileNames : list string) (category : string)
    (year : option string) :
  exists r sorted,
    getTotalsByYear (Ok fileNames) = Ok r /\
    Permutation sorted
      (filter_year year
         (filter (fun rc => String.eqb (Receipt.category rc) (Str.toLowerCase category))
                 (Totals.validReceipts r))) /\
    Sorted (fun a b => gt (sub (Receipt.amount b) (Receipt.amount a)) zero = false)
           sorted /\
    Tools.get_receipts_by_category (Totals.validReceipts r) category year
    = match sorted with
      | [] =>
          "No receipts found for category " ++ quote ++ category ++ quote ++
          match year with
          | Some (String c y) => " in " ++ String c y
          | _ => EmptyString
          end ++ "."
      | _ :: _ =>
          formatReceiptList sorted true ++ newline ++ newline ++
          "Total for " ++ category ++ ": " ++
          dollars (fold_left (fun sum rc => add sum (Receipt.amount rc)) sorted zero) ++
          " (" ++ digits_of (Z.of_nat (List.length sorted)) ++ " receipts)"
      end.
Proof.
  destruct (listing_sorted_out fileNames) as (r & Hr & _ & _ & Hv).
  exists r.
  exists (sort_by (larger_first Receipt.amount)
            (filter_year year
               (filter (fun rc => String.eqb (Receipt.category rc)
                                             (Str.toLowerCase category))
                       (Totals.validReceipts r)))).
  split; [exact Hr|]. split; [apply sort_by_perm|]. split.
  - apply (sort_by_sorted (larger_first Receipt.amount)).
    intros a b. apply larger_first_asym.
  - unfold Tools.get_receipts_by_category.
    assert (E : filter (fun rc => String.eqb (Str.toLowerCase (Receipt.category rc))
                                             (Str.toLowerCase category))
                       (Totals.validReceipts r)
                = filter (fun rc => String.eqb (Receipt.category rc)
                                               (Str.toLowerCase category))
                         (Totals.validReceipts r)).
    { apply filter_ext_in. intros rc Hin. rewrite Hv in Hin.
      destruct (recorded_receipt fileNames rc Hin) as [_ Hc]. now rewrite Hc. }
    rewrite E.
    destruct (filter_year year _) as [|x l] eqn:Ef; [reflexivity|].
    destruct (sort_by (larger_first Receipt.amount) (x :: l)) as [|y l'] eqn:Es;
      [apply sort_by_nil in Es; discriminate|].
    reflexivity.
Qed.
